(** * Flight assistant: question routing and schedule aggregation

    A shallow embedding of the backend pipeline of the flight assistant
    (the two services [flightApi.js] and [llmService.js] and the route
    [routes/flights.js]) and of the frontend code that calls it (the
    client [api.js], the form, and the dispatch of the result to a card),
    together with the properties stated about them.

    Conventions of the embedding.
    - Upstream payloads and response bodies are dynamic JSON; they are
      values of type [value].  Objects are association lists read by their
      first binding; the enumeration order that JavaScript gives to
      integer-like property names is not modelled.
    - A value is read from JSON, so none of its properties is callable.
      Where the program converts a value to a string (a template literal,
      a property name) or to a number, the conversion throws on an object
      that has a [toString] of its own and on an array that holds one,
      and the model throws with it: [printable] is the test.
    - Numbers are integers ([Z]); the program only compares them with the
      integer constants -1, 0, 1, 2 and prints them.
    - Strings are sequences of ASCII characters; [toLowerCase],
      [toUpperCase], [trim], [length] and the regular expressions are
      those of JavaScript on the ASCII range only, and a statement that
      depends on them for an arbitrary string says so ([ascii_only]).
    - A method that can throw returns in the monad [M], which threads the
      trace of collaborator invocations and upstream HTTP calls. *)

From Stdlib Require Import String Ascii List ZArith Bool Lia DecimalString.
From Stdlib Require Import Permutation Sorted.
Import ListNotations.
Open Scope list_scope.
Open Scope string_scope.

Set Implicit Arguments.
Set Warnings "-register-all".

(* ===================================================================== *)
(** ** String builtins *)
(* ===================================================================== *)

Module Str.

(** [s.includes(sub)] *)
Fixpoint includes (s sub : string) : bool :=
  if String.prefix sub s then true
  else match s with
       | EmptyString => false
       | String _ r => includes r sub
       end.

(** [sub] occurs in [s]: the reading of "occurs" used in the statements. *)
Definition occurs (sub s : string) : Prop :=
  exists pre post, s = pre ++ sub ++ post.

Definition is_upper (c : ascii) : bool :=
  let n := nat_of_ascii c in (65 <=? n)%nat && (n <=? 90)%nat.

Definition is_lower (c : ascii) : bool :=
  let n := nat_of_ascii c in (97 <=? n)%nat && (n <=? 122)%nat.

Definition is_digit (c : ascii) : bool :=
  let n := nat_of_ascii c in (48 <=? n)%nat && (n <=? 57)%nat.

Definition lower_char (c : ascii) : ascii :=
  if is_upper c then ascii_of_nat (nat_of_ascii c + 32) else c.

Definition upper_char (c : ascii) : ascii :=
  if is_lower c then ascii_of_nat (nat_of_ascii c - 32) else c.

Fixpoint map_chars (f : ascii -> ascii) (s : string) : string :=
  match s with
  | EmptyString => EmptyString
  | String c r => String (f c) (map_chars f r)
  end.

(** [s.toLowerCase()] and [s.toUpperCase()] of an ASCII string. *)
Definition toLowerCase : string -> string := map_chars lower_char.
Definition toUpperCase : string -> string := map_chars upper_char.

(** White space of [trim] and of the class [\s] in the ASCII range: TAB,
    LF, VT, FF, CR, SP. *)
Definition is_space (c : ascii) : bool :=
  let n := nat_of_ascii c in
  ((9 <=? n)%nat && (n <=? 13)%nat) || (n =? 32)%nat.

Fixpoint trimStart (s : string) : string :=
  match s with
  | EmptyString => EmptyString
  | String c r => if is_space c then trimStart r else s
  end.

Fixpoint trimEnd (s : string) : string :=
  match s with
  | EmptyString => EmptyString
  | String c r =>
      match trimEnd r with
      | EmptyString => if is_space c then EmptyString else String c EmptyString
      | r' => String c r'
      end
  end.

Definition trim (s : string) : string := trimEnd (trimStart s).

(** [s.substring(0, n)] *)
Definition take (n : nat) (s : string) : string := String.substring 0 n s.

(** [s.replace(/\s+/g, ' ')]: every maximal run of white space becomes
    one space. *)
Fixpoint collapse_spaces (s : string) : string :=
  match s with
  | EmptyString => EmptyString
  | String c r =>
      if is_space c then
        match r with
        | String d _ => if is_space d then collapse_spaces r
                        else String " " (collapse_spaces r)
        | EmptyString => String " " EmptyString
        end
      else String c (collapse_spaces r)
  end.

(** The class [[\w\s\?\!\.\,\-\(\)]] kept by [sanitizeQuestion]. *)
Definition is_kept (c : ascii) : bool :=
  is_upper c || is_lower c || is_digit c || Ascii.eqb c "_"
  || is_space c
  || Ascii.eqb c "?" || Ascii.eqb c "!" || Ascii.eqb c "." || Ascii.eqb c ","
  || Ascii.eqb c "-" || Ascii.eqb c "(" || Ascii.eqb c ")".

Fixpoint filter_chars (p : ascii -> bool) (s : string) : string :=
  match s with
  | EmptyString => EmptyString
  | String c r => if p c then String c (filter_chars p r) else filter_chars p r
  end.

(** The prefix of [s] that ends at its last closing brace. *)
Fixpoint upto_last_close (s : string) : option string :=
  match s with
  | EmptyString => None
  | String c r =>
      match upto_last_close r with
      | Some r' => Some (String c r')
      | None => if Ascii.eqb c "}" then Some (String c EmptyString) else None
      end
  end.

(** [s.match(/\{[\s\S]*\}/)]: the greedy match runs from the first opening
    brace to the last closing brace after it. *)
Fixpoint match_braces (s : string) : option string :=
  match s with
  | EmptyString => None
  | String c r =>
      if Ascii.eqb c "{" then
        match upto_last_close r with
        | Some r' => Some (String c r')
        | None => None
        end
      else match_braces r
  end.

(** Decimal rendering of an integer, as a template literal prints it. *)
Definition of_Z (z : Z) : string := NilZero.string_of_int (Z.to_int z).

End Str.

(* ===================================================================== *)
(** ** JavaScript values *)
(* ===================================================================== *)

Inductive value : Type :=
| VUndef
| VNull
| VBool (b : bool)
| VNum (n : Z)
| VStr (s : string)
| VArr (items : list value)
| VObj (props : list (string * value)).

Module JS.

(** ToBoolean *)
Definition truthy (v : value) : bool :=
  match v with
  | VUndef | VNull => false
  | VBool b => b
  | VNum n => negb (n =? 0)%Z
  | VStr s => negb (String.eqb s "")
  | VArr _ | VObj _ => true
  end.

Definition nullish (v : value) : bool :=
  match v with
  | VUndef | VNull => true
  | _ => false
  end.

(** [a || b] *)
Definition or (a b : value) : value := if truthy a then a else b.

Fixpoint lookup {A : Type} (k : string) (ps : list (string * A)) : option A :=
  match ps with
  | [] => None
  | (k', v) :: r => if String.eqb k k' then Some v else lookup k r
  end.

(** [v.k] for a [v] that is neither [null] nor [undefined] and a name [k]
    that is neither an array index nor a member of a builtin prototype
    (all the names this program reads are of that kind): the own property
    of an object, [undefined] on anything else. *)
Definition field (v : value) (k : string) : value :=
  match v with
  | VObj ps => match lookup k ps with Some x => x | None => VUndef end
  | _ => VUndef
  end.

(** [v?.k] *)
Definition opt_field (v : value) (k : string) : value :=
  if nullish v then VUndef else field v k.

(** [obj[k] = x] on an object: an existing property keeps its place. *)
Fixpoint set_prop {A : Type} (k : string) (x : A) (ps : list (string * A))
  : list (string * A) :=
  match ps with
  | [] => [(k, x)]
  | (k', v) :: r =>
      if String.eqb k k' then (k, x) :: r else (k', v) :: set_prop k x r
  end.

(** [v === 'lit'] *)
Definition is_str (v : value) (lit : string) : bool :=
  match v with
  | VStr s => String.eqb s lit
  | _ => false
  end.

(** [v === false] *)
Definition is_false (v : value) : bool :=
  match v with
  | VBool false => true
  | _ => false
  end.

(** [typeof v === 'string'] *)
Definition is_string (v : value) : bool :=
  match v with
  | VStr _ => true
  | _ => false
  end.

(** SameValueZero, the key comparison of [Map] and [Set].  Primitives are
    compared by value.  Objects and arrays are compared by reference: the
    keys of this program are read from different records of one parsed
    payload, so two of them are never the same reference. *)
Definition same_value_zero (a b : value) : bool :=
  match a, b with
  | VUndef, VUndef => true
  | VNull, VNull => true
  | VBool x, VBool y => Bool.eqb x y
  | VNum x, VNum y => (x =? y)%Z
  | VStr x, VStr y => String.eqb x y
  | _, _ => false
  end.

(** ToString of a value that can be converted (see [printable]), used
    where a [Map] key becomes a property name. *)
Fixpoint to_string (v : value) : string :=
  match v with
  | VUndef => "undefined"
  | VNull => "null"
  | VBool true => "true"
  | VBool false => "false"
  | VNum n => Str.of_Z n
  | VStr s => s
  | VArr items =>
      (fix join (l : list value) : string :=
         match l with
         | [] => ""
         | x :: r =>
             let sx := if nullish x then "" else to_string x in
             match r with
             | [] => sx
             | _ => sx ++ "," ++ join r
             end
         end) items
  | VObj _ => "[object Object]"
  end.

(** Whether ToString, and with it ToPropertyKey, returns on a value.  The
    values of this program are read from JSON, so none of their properties
    is callable: the conversion of an object that has a [toString] of its
    own finds nothing to call and throws, and so does that of an array
    that holds such an object; every other object prints as
    "[object Object]". *)
Fixpoint printable (v : value) : bool :=
  match v with
  | VObj ps =>
      match lookup "toString" ps with
      | Some _ => false
      | None => true
      end
  | VArr items =>
      (fix all (l : list value) : bool :=
         match l with
         | [] => true
         | x :: r => (nullish x || printable x) && all r
         end) items
  | _ => true
  end.

(** The object that [Object.fromEntries(map)] builds from the entries of a
    [Map] in insertion order, when every key can be converted. *)
Definition fromEntries {A : Type} (entries : list (value * A))
  : list (string * A) :=
  fold_left (fun obj e => set_prop (to_string (fst e)) (snd e) obj) entries [].

(** [v.length] *)
Definition length_of (v : value) : value :=
  match v with
  | VArr l => VNum (Z.of_nat (List.length l))
  | VStr s => VNum (Z.of_nat (String.length s))
  | VObj ps => match lookup "length" ps with Some x => x | None => VUndef end
  | _ => VUndef
  end.

(** [v === 0] *)
Definition is_zero (v : value) : bool :=
  match v with
  | VNum n => (n =? 0)%Z
  | _ => false
  end.

(** [v[0]] for a [v] that is neither [null] nor [undefined]. *)
Definition first_item (v : value) : value :=
  match v with
  | VArr (x :: _) => x
  | VStr (String c _) => VStr (String c EmptyString)
  | VObj ps => match lookup "0" ps with Some x => x | None => VUndef end
  | _ => VUndef
  end.

End JS.

(* ===================================================================== *)
(** ** Errors, upstream calls and the trace *)
(* ===================================================================== *)

(** What a [catch] clause reads from a thrown error:
    [error.response?.status], [error.code] and [error.message]. *)
Record js_error := {
  e_status : option Z;
  e_code : option string;
  e_message : string
}.

(** [new Error(msg)] *)
Definition Error (msg : string) : js_error :=
  {| e_status := None; e_code := None; e_message := msg |}.

(** The TypeError of a property read on [null] or [undefined]. *)
Definition TypeError_read (v : value) (k : string) : js_error :=
  Error ("Cannot read properties of " ++ JS.to_string v
         ++ " (reading '" ++ k ++ "')").

(** The TypeError of a call of something that is not a function. *)
Definition TypeError_call (what : string) : js_error :=
  Error (what ++ " is not a function").

(** The TypeError of a conversion to a string or to a number that finds
    no primitive. *)
Definition TypeError_convert : js_error :=
  Error "Cannot convert object to primitive value".

(** Outcome of an awaited axios call: the [data] of the response, or the
    rejection. *)
Inductive http_outcome : Type :=
| Resolved (data : value)
| Rejected (e : js_error).

(** Body of a chat-completion request (the sampling parameters, which are
    fixed fractions, are left out). *)
Record llm_request := {
  model : string;
  messages : list (string * string);
  max_tokens : Z
}.

(** What a request leaves in the trace: the entry into a collaborator
    ([analyzeQuestionForMode], [getAirportSchedule], [processFlightData],
    [generateAnswer]) and the requests sent to the two upstream services. *)
Inductive event : Type :=
| CallClassifier (question airport : string)
| CallFetcher (airport : string) (day : Z) (mode : value)
| CallAggregator
| CallGenerator (question airport : string)
| HttpLlm (req : llm_request)
| HttpFlight (mode iata : string) (day : Z).

(** The world outside the process: the two upstream services and the
    clock. *)
Record world := {
  llm_post : llm_request -> http_outcome;
  flight_get : string -> string -> Z -> http_outcome;
  clock_start : Z;
  clock_end : Z;
  clock_iso : string
}.

Inductive result (A : Type) : Type :=
| Ok (a : A)
| Throw (e : js_error).

Arguments Ok {A} a.
Arguments Throw {A} e.

(** Computations that may throw and that record events. *)
Definition M (A : Type) : Type := list event -> result A * list event.

Definition ret {A} (a : A) : M A := fun tr => (Ok a, tr).

Definition throw {A} (e : js_error) : M A := fun tr => (Throw e, tr).

Definition bind {A B} (m : M A) (k : A -> M B) : M B :=
  fun tr =>
    match m tr with
    | (Ok a, tr') => k a tr'
    | (Throw e, tr') => (Throw e, tr')
    end.

Definition try_catch {A} (m : M A) (h : js_error -> M A) : M A :=
  fun tr =>
    match m tr with
    | (Ok a, tr') => (Ok a, tr')
    | (Throw e, tr') => h e tr'
    end.

Definition emit (ev : event) : M unit := fun tr => (Ok tt, (tr ++ [ev])%list).

Definition lift {A} (r : result A) : M A := fun tr => (r, tr).

(** [await] of an upstream call. *)
Definition await (o : http_outcome) : M value :=
  match o with
  | Resolved d => ret d
  | Rejected e => throw e
  end.

Definition run {A} (m : M A) : result A * list event := m [].

Declare Scope monad_scope.
Delimit Scope monad_scope with monad.
Notation "x <- m ;; k" := (bind m (fun x => k))
  (at level 61, m at next level, right associativity) : monad_scope.
Notation "m ;;; k" := (bind m (fun _ => k))
  (at level 61, right associativity) : monad_scope.

(** Bind of the pure error type. *)
Definition rbind {A B} (r : result A) (k : A -> result B) : result B :=
  match r with
  | Ok a => k a
  | Throw e => Throw e
  end.

(** The conversions that a template literal makes of the values it
    embeds, from left to right; the text itself goes to the console. *)
Definition template (parts : list value) : result unit :=
  if forallb JS.printable parts then Ok tt else Throw TypeError_convert.

(** [Object.fromEntries(map)]: every key is converted to a property name,
    in the order of the entries, and the first one that cannot be
    converted throws. *)
Definition Object_fromEntries {A : Type} (entries : list (value * A))
  : result (list (string * A)) :=
  if forallb (fun e => JS.printable (fst e)) entries
  then Ok (JS.fromEntries entries)
  else Throw TypeError_convert.

(* ===================================================================== *)
(** ** services/flightApi.js *)
(* ===================================================================== *)

(** The result object of [getAirportSchedule]. *)
Record schedule := {
  s_airport : string;
  s_dayParam : Z;
  s_dayLabel : string;
  s_arrivals : value;
  s_departures : value;
  s_rawResult : value;
  s_metadata : value
}.

Record summary := {
  totalArrivals : nat;
  totalDepartures : nat;
  arrivalCountries : nat;
  departureCountries : nat;
  arrivalCities : nat;
  departureCities : nat;
  uniqueAirlines : nat
}.

Record direction_data := {
  byCountry : list (string * list value);
  byCity : list (string * list value);
  airlines : list value;
  total : nat
}.

(** The result object of [processFlightData]. *)
Record processed := {
  p_airport : string;
  p_dayParam : Z;
  p_dayLabel : string;
  p_summary : summary;
  p_arrivals : direction_data;
  p_departures : direction_data;
  p_metadata : value;
  p_rawResult : value
}.

Module FlightApi.

Import JS.

(** [getDayLabel] *)
Definition getDayLabel (dayParam : Z) : string :=
  if (dayParam =? -1)%Z then "Yesterday"
  else if (dayParam =? 1)%Z then "Today"
  else if (dayParam =? 2)%Z then "Tomorrow"
  else "Today".

Definition validAirports : list string :=
  ["DXB"; "LHR"; "CDG"; "SIN"; "HKG"; "AMS"].

(** [isValidAirportCode], on a string argument. *)
Definition isValidAirportCode (airportCode : string) : bool :=
  existsb (String.eqb (Str.toUpperCase airportCode)) validAirports.

Definition airportNames : list (string * string) :=
  [("DXB", "Dubai International Airport");
   ("LHR", "London Heathrow Airport");
   ("CDG", "Charles de Gaulle Airport (Paris)");
   ("SIN", "Singapore Changi Airport");
   ("HKG", "Hong Kong International Airport");
   ("AMS", "Amsterdam Airport Schiphol")].

(** [getAirportName] *)
Definition getAirportName (airportCode : string) : string :=
  match lookup (Str.toUpperCase airportCode) airportNames with
  | Some n => n
  | None => "Unknown Airport"
  end.

(** *** processFlightData *)

(** A [Map] from keys to arrays, in insertion order. *)
Definition groups := list (value * list value).

(** [if (!m.has(k)) m.set(k, []); m.get(k).push(d)] *)
Fixpoint group_push (k d : value) (m : groups) : groups :=
  match m with
  | [] => [(k, [d])]
  | (k', g) :: r =>
      if same_value_zero k' k then (k', (g ++ [d])%list) :: r
      else (k', g) :: group_push k d r
  end.

(** [s.add(x)] on a [Set] in insertion order. *)
Fixpoint set_add (x : value) (s : list value) : list value :=
  match s with
  | [] => [x]
  | y :: r => if same_value_zero y x then s else y :: set_add x r
  end.

(** The two maps and the set that one [forEach] loop fills. *)
Record acc := {
  countryMap : groups;
  cityMap : groups;
  airlineSet : list value
}.

Definition empty_acc : acc :=
  {| countryMap := []; cityMap := []; airlineSet := [] |}.

(** The keys resolved for one record, from its [flight] payload [f].  The
    loop over the arrivals reads the counterpart airport under [origin],
    the loop over the departures under [destination]. *)
Definition counterpart (side : string) (f : value) : value :=
  opt_field (field f "airport") side.

Definition country_of (ap : value) : value :=
  or (or (opt_field (opt_field (opt_field ap "position") "country") "name")
         (opt_field (opt_field (opt_field ap "position") "country") "code"))
     (VStr "Unknown Country").

Definition city_of (ap : value) : value :=
  or (or (opt_field ap "name") (opt_field (opt_field ap "code") "iata"))
     (VStr "Unknown City").

Definition airline_of (f : value) : value :=
  or (or (opt_field (field f "airline") "name")
         (opt_field (opt_field (field f "airline") "code") "iata"))
     (VStr "Unknown Airline").

Definition flightNumber_of (f : value) : value :=
  or (opt_field (opt_field (field f "identification") "number") "default")
     (opt_field (field f "identification") "callsign").

Definition status_of (f : value) : value :=
  opt_field (field f "status") "text".

Definition aircraft_of (f : value) : value :=
  or (opt_field (opt_field (field f "aircraft") "model") "text")
     (opt_field (field f "aircraft") "registration").

(** [flight.flight.time?.scheduled?.<leg>] and [...real?.<leg>]: the
    arrivals loop reads the [departure] leg, the departures loop the
    [arrival] leg. *)
Definition time_of (kind leg : string) (f : value) : value :=
  opt_field (opt_field (field f "time") kind) leg.

Definition country_detail (side leg : string) (f : value) : value :=
  VObj [("city", city_of (counterpart side f));
        ("airline", airline_of f);
        ("flightNumber", flightNumber_of f);
        ("scheduledTime", time_of "scheduled" leg f);
        ("actualTime", time_of "real" leg f);
        ("status", status_of f);
        ("aircraft", aircraft_of f)].

Definition city_detail (side leg : string) (f : value) : value :=
  VObj [("country", country_of (counterpart side f));
        ("airline", airline_of f);
        ("flightNumber", flightNumber_of f);
        ("scheduledTime", time_of "scheduled" leg f);
        ("status", status_of f)].

(** The body of the callback of [forEach], once [flight.flight] is known
    to be truthy. *)
Definition record_flight (side leg : string) (f : value) (a : acc) : acc :=
  let ap := counterpart side f in
  {| countryMap :=
       group_push (country_of ap) (country_detail side leg f) (countryMap a);
     cityMap :=
       group_push (city_of ap) (city_detail side leg f) (cityMap a);
     airlineSet := set_add (airline_of f) (airlineSet a) |}.

(** One call of the callback of [forEach]. *)
Definition visit (side leg : string) (flight : value) (a : acc) : result acc :=
  if nullish flight then Throw (TypeError_read flight "flight")
  else if truthy (field flight "flight")
       then Ok (record_flight side leg (field flight "flight") a)
       else Ok a.

Fixpoint forEach (side leg : string) (l : list value) (a : acc) : result acc :=
  match l with
  | [] => Ok a
  | flight :: r => rbind (visit side leg flight a) (forEach side leg r)
  end.

(** [list.forEach(...)] on whatever the field holds. *)
Definition forEach_value (what side leg : string) (v : value) : result acc :=
  match v with
  | VArr l => forEach side leg l empty_acc
  | VUndef | VNull => Throw (TypeError_read v "forEach")
  | _ => Throw (TypeError_call (what ++ ".forEach"))
  end.

Definition items_of (v : value) : list value :=
  match v with
  | VArr l => l
  | _ => []
  end.

(** The [arrivals] (the [departures]) of the returned object. *)
Definition direction_of (a : acc) (n : nat) : result direction_data :=
  rbind (Object_fromEntries (countryMap a)) (fun countries =>
  rbind (Object_fromEntries (cityMap a)) (fun cities =>
  Ok {| byCountry := countries;
        byCity := cities;
        airlines := airlineSet a;
        total := n |})).

Definition processFlightData (flightData : schedule) : result processed :=
  rbind (forEach_value "arrivals" "origin" "departure" (s_arrivals flightData))
    (fun arr =>
  rbind (forEach_value "departures" "destination" "arrival"
           (s_departures flightData))
    (fun dep =>
  let nArr := List.length (items_of (s_arrivals flightData)) in
  let nDep := List.length (items_of (s_departures flightData)) in
  rbind (direction_of arr nArr) (fun arrivals =>
  rbind (direction_of dep nDep) (fun departures =>
  Ok {| p_airport := s_airport flightData;
        p_dayParam := s_dayParam flightData;
        p_dayLabel := s_dayLabel flightData;
        p_summary :=
          {| totalArrivals := nArr;
             totalDepartures := nDep;
             arrivalCountries := List.length (countryMap arr);
             departureCountries := List.length (countryMap dep);
             arrivalCities := List.length (cityMap arr);
             departureCities := List.length (cityMap dep);
             uniqueAirlines :=
               List.length
                 (fold_left (fun s x => set_add x s)
                            (airlineSet arr ++ airlineSet dep)%list []) |};
        p_arrivals := arrivals;
        p_departures := departures;
        p_metadata := s_metadata flightData;
        p_rawResult := s_rawResult flightData |})))).

(** *** getAirportSchedule *)

Section Fetcher.

Variable w : world.

Definition status_is (error : js_error) (n : Z) : bool :=
  match e_status error with
  | Some m => (m =? n)%Z
  | None => false
  end.

Definition code_is (error : js_error) (c : string) : bool :=
  match e_code error with
  | Some d => String.eqb d c
  | None => false
  end.

(** The [catch] clause of [getAirportSchedule]. *)
Definition fetch_error (airportCode : string) (error : js_error) : js_error :=
  if status_is error 401 then
    Error "Invalid FlightAPI key. Please check your API configuration."
  else if status_is error 429 then
    Error "FlightAPI rate limit exceeded. Please try again later."
  else if status_is error 404 then
    Error ("Airport " ++ airportCode ++ " not found or no data available.")
  else if code_is error "ECONNABORTED" then
    Error "FlightAPI request timeout. Please try again."
  else
    Error ("Failed to fetch flight data: " ++ e_message error).

(** [this.client.get(`/schedule/${FLIGHT_API_KEY}`, { params })],
    awaited; the value is [response.data]. *)
Definition schedule_call (mode iata : string) (day : Z) : M value :=
  (emit (HttpFlight mode iata day) ;;;
   await (flight_get w mode iata day))%monad.

(** [rawResult.<dir>?.airport?.pluginData?.schedule?.<dir>?.data || []] *)
Definition flights_in (dir : string) (rawResult : value) : value :=
  or (opt_field
        (opt_field
           (opt_field
              (opt_field (opt_field (field rawResult dir) "airport")
                         "pluginData")
              "schedule")
           dir)
        "data")
     (VArr []).

(** [mode] is the third argument as passed; [undefined] selects the
    default ['both'].  The two log lines are template literals inside the
    [try]: a value that they cannot convert throws into the [catch]. *)
Definition getAirportSchedule (airportCode : string) (dayParam : Z)
           (mode_arg : value) : M schedule :=
  let mode := match mode_arg with VUndef => VStr "both" | m => m end in
  let iata := Str.toUpperCase airportCode in
  (emit (CallFetcher airportCode dayParam mode_arg) ;;;
   try_catch
     (let validDayParam := if (dayParam =? 0)%Z then 1%Z else dayParam in
      lift (template [VStr airportCode; VNum validDayParam; mode]) ;;;
      raw1 <- (if is_str mode "both" || is_str mode "arrivals"
               then d <- schedule_call "arrivals" iata validDayParam ;;
                    ret [("arrivals", d)]
               else ret []) ;;
      raw2 <- (if is_str mode "both" || is_str mode "departures"
               then d <- schedule_call "departures" iata validDayParam ;;
                    ret (set_prop "departures" d raw1)
               else ret raw1) ;;
      let rawResult := VObj raw2 in
      let arrivals := flights_in "arrivals" rawResult in
      let departures := flights_in "departures" rawResult in
      lift (template [length_of arrivals; length_of departures;
                      VStr airportCode; VStr (getDayLabel validDayParam)]) ;;;
      ret {| s_airport := iata;
             s_dayParam := validDayParam;
             s_dayLabel := getDayLabel validDayParam;
             s_arrivals := arrivals;
             s_departures := departures;
             s_rawResult := rawResult;
             s_metadata :=
               VObj [("totalArrivals", length_of arrivals);
                     ("totalDepartures", length_of departures);
                     ("fetchedAt", VStr (clock_iso w));
                     ("apiEndpoint", VStr "FlightAPI.io /schedule");
                     ("parameters",
                       VObj [("mode", mode);
                             ("iata", VStr iata);
                             ("day", VNum validDayParam)])] |})
     (fun error => throw (fetch_error airportCode error)))%monad.

End Fetcher.

End FlightApi.

(* ===================================================================== *)
(** ** services/llmService.js *)
(* ===================================================================== *)

Module Llm.

Import JS.

(** *** isValidQuestion, sanitizeQuestion *)

Definition questionWords : list string :=
  ["how"; "what"; "where"; "when"; "why"; "which"; "who"; "many"; "much"].

Definition isValidQuestion (question : value) : bool :=
  match question with
  | VStr q =>
      if String.eqb q "" then false
      else
        let trimmed := Str.trim q in
        if (String.length trimmed <? 5)%nat then false
        else if (500 <? String.length trimmed)%nat then false
        else
          let hasQuestionWord :=
            existsb (fun word => Str.includes (Str.toLowerCase trimmed) word)
                    questionWords in
          let hasQuestionMark := Str.includes trimmed "?" in
          hasQuestionWord || hasQuestionMark
  | _ => false
  end.

Definition sanitizeQuestion (question : value) : string :=
  match question with
  | VStr q =>
      if String.eqb q "" then ""
      else Str.take 500
             (Str.filter_chars Str.is_kept
                (Str.collapse_spaces (Str.trim q)))
  | _ => ""
  end.

(** *** The keyword fallback of analyzeQuestionForMode *)

Definition aviationKeywords : list string :=
  ["flight"; "airport"; "airline"; "plane"; "aircraft"; "departure";
   "arrival"; "terminal"; "gate"; "runway"].

Definition keyword_fallback (question : string) : value :=
  let questionLower := Str.toLowerCase question in
  let isAviationRelated :=
    existsb (fun keyword => Str.includes questionLower keyword)
            aviationKeywords in
  if negb isAviationRelated then
    VObj [("relevant", VBool false);
          ("mode", VStr "none");
          ("reasoning",
            VStr "Question does not contain aviation-related keywords");
          ("confidence", VStr "medium");
          ("shouldSkipAPI", VBool true)]
  else
    let fallbackMode :=
      if Str.includes questionLower "fly to"
         || Str.includes questionLower "go to"
         || Str.includes questionLower "destination"
         || Str.includes questionLower "departing"
         || Str.includes questionLower "leaving"
      then "departures"
      else if Str.includes questionLower "from"
              || Str.includes questionLower "arriving"
      then "arrivals"
      else "both" in
    VObj [("relevant", VBool true);
          ("mode", VStr fallbackMode);
          ("reasoning",
            VStr ("Keyword-based fallback analysis (" ++ fallbackMode ++ ")"));
          ("confidence", VStr "medium")].

(** The object returned when the outer [try] of analyzeQuestionForMode
    fails. *)
Definition default_analysis : value :=
  VObj [("mode", VStr "arrivals");
        ("reasoning", VStr "Default fallback due to analysis error");
        ("confidence", VStr "low")].

(** [response.data.choices[0]?.message?.content] *)
Definition content_of (data : value) : result value :=
  if nullish data then Throw (TypeError_read data "choices")
  else
    let choices := field data "choices" in
    if nullish choices then Throw (TypeError_read choices "0")
    else Ok (opt_field (opt_field (first_item choices) "message") "content").

(** [response.data.choices[0]?.message?.content?.trim()] *)
Definition trimmed_content_of (data : value) : result value :=
  rbind (content_of data) (fun content =>
    match content with
    | VUndef | VNull => Ok VUndef
    | VStr s => Ok (VStr (Str.trim s))
    | _ => Throw (TypeError_call
                    "response.data.choices[0]?.message?.content?.trim")
    end).

(** The catch clause of generateAnswer. *)
Definition llm_error (error : js_error) : js_error :=
  if FlightApi.status_is error 401 then
    Error "Invalid OpenRouter API key. Please check your configuration."
  else if FlightApi.status_is error 429 then
    Error "OpenRouter rate limit exceeded. Please try again later."
  else if FlightApi.status_is error 402 then
    Error "OpenRouter account has insufficient credits."
  else if FlightApi.code_is error "ECONNABORTED" then
    Error "LLM request timeout. Please try again with a simpler question."
  else
    Error ("Failed to generate answer: " ++ e_message error).

(** [jsonMatch ? jsonMatch[0] : analysisText] *)
Definition json_text (analysisText : string) : string :=
  match Str.match_braces analysisText with
  | Some m => m
  | None => analysisText
  end.

Section Service.

Variable w : world.

(** [JSON.parse]; [None] stands for the SyntaxError it throws. *)
Variable JSON_parse : string -> option value.

(** The text of the classification prompt, of the persona prompt and of
    the data prompt.  No property below reads these texts; the data
    prompt is built by code that can throw on malformed review data,
    hence a [result]. *)
Variable analysisPrompt : string -> string -> string.
Variable systemPrompt : string.
Variable buildSupportUserPrompt :
  string -> processed -> string -> value -> value -> result string.

(** [this.client.post('/chat/completions', req)], awaited; the value is
    [response.data]. *)
Definition chat (req : llm_request) : M value :=
  (emit (HttpLlm req) ;;; await (llm_post w req))%monad.

Definition analysis_request (question airport : string) : llm_request :=
  {| model := "google/gemini-flash-1.5";
     messages := [("user", analysisPrompt question airport)];
     max_tokens := 200 |}.

(** The inner [try] block: [None] when it throws, which hands over to
    the keyword fallback.  Its log line is a template literal that
    converts four fields of the parsed analysis. *)
Definition parse_analysis (analysisText : value) : option value :=
  match analysisText with
  | VStr text =>
      match JSON_parse (json_text text) with
      | Some analysis =>
          if nullish analysis then None
          else
            match template [field analysis "relevant";
                            field analysis "mode";
                            field analysis "confidence";
                            field analysis "reasoning"] with
            | Throw _ => None
            | Ok _ =>
                if is_false (field analysis "relevant") then
                  Some (VObj [("relevant", VBool false);
                              ("mode", VStr "none");
                              ("reasoning", field analysis "reasoning");
                              ("confidence", field analysis "confidence");
                              ("shouldSkipAPI", VBool true)])
                else Some analysis
            end
      | None => None
      end
  | _ => None
  end.

Definition analyzeQuestionForMode (question airport : string) : M value :=
  (emit (CallClassifier question airport) ;;;
   try_catch
     (data <- chat (analysis_request question airport) ;;
      analysisText <- lift (trimmed_content_of data) ;;
      match parse_analysis analysisText with
      | Some analysis => ret analysis
      | None => ret (keyword_fallback question)
      end)
     (fun _ => ret default_analysis))%monad.

Definition answer_request (userPrompt : string) : llm_request :=
  {| model := "google/gemini-flash-1.5";
     messages := [("system", systemPrompt); ("user", userPrompt)];
     max_tokens := 1500 |}.

Definition generateAnswer (question : string) (flightData : processed)
           (airport : string) (mode modeAnalysis : value) : M string :=
  (emit (CallGenerator question airport) ;;;
   try_catch
     (userPrompt <- lift (buildSupportUserPrompt question flightData airport
                                                 mode modeAnalysis) ;;
      data <- chat (answer_request userPrompt) ;;
      answer <- lift (content_of data) ;;
      if negb (truthy answer) then throw (Error "No answer generated by LLM")
      else match answer with
           | VStr s => ret (Str.trim s)
           | _ => throw (TypeError_call "answer.trim")
           end)
     (fun error => throw (llm_error error)))%monad.

End Service.

End Llm.

(* ===================================================================== *)
(** ** routes/flights.js *)
(* ===================================================================== *)

(** [req.body] as received. *)
Record request_body := {
  airport : value;
  question : value;
  date : value
}.

(** [req.body] after the sanitising assignments of the middleware. *)
Record clean_body := {
  c_airport : string;
  c_question : string;
  c_date : option Z
}.

(** What [res.status(n).json(body)] sends. *)
Record response := {
  status : Z;
  body : value
}.

Module Route.

Import JS.

Definition json (b : value) : response := {| status := 200; body := b |}.

Definition supportedAirports : value :=
  VArr [VStr "DXB"; VStr "LHR"; VStr "CDG"; VStr "SIN"; VStr "HKG"; VStr "AMS"].

Definition cannedAnswer : string :=
  "Sorry, I can't understand your question. Can you ask again? I'm designed to help with flight schedules, airport information, airlines, and other aviation-related topics.".

Definition string_of (v : value) : string :=
  match v with
  | VStr s => s
  | _ => ""
  end.

Section Validation.

(** [Number(v)]: it throws on a value that it cannot convert; in what it
    returns, [None] stands for NaN and for any number that is not an
    integer. *)
Variable Number_ : value -> result (option Z).

Definition valid_day (n : option Z) : bool :=
  match n with
  | Some d => (d =? -1)%Z || (d =? 1)%Z || (d =? 2)%Z
  | None => false
  end.

(** [![-1, 1, 2].includes(Number(date))] *)
Definition invalid_day (date : value) : result bool :=
  rbind (Number_ date) (fun n => Ok (negb (valid_day n))).

(** The middleware: [inl] is the response it sends, [inr] the body it
    hands to the handler through [next()]; what it throws is what
    [Number(date)] throws. *)
Definition validateQueryRequest (b : request_body)
  : result (response + clean_body) :=
  if negb (truthy (airport b)) || negb (is_string (airport b)) then
    Ok (inl {| status := 400;
           body := VObj [("error",
                           VStr "Airport code is required and must be a string");
                         ("code", VStr "INVALID_AIRPORT")] |})
  else if negb (FlightApi.isValidAirportCode (string_of (airport b))) then
    Ok (inl {| status := 400;
           body := VObj [("error",
                           VStr "Invalid airport code. Supported airports: DXB, LHR, CDG, SIN, HKG, AMS");
                         ("code", VStr "UNSUPPORTED_AIRPORT");
                         ("supportedAirports", supportedAirports)] |})
  else if negb (truthy (question b)) || negb (is_string (question b)) then
    Ok (inl {| status := 400;
           body := VObj [("error",
                           VStr "Question is required and must be a string");
                         ("code", VStr "INVALID_QUESTION")] |})
  else if negb (Llm.isValidQuestion (question b)) then
    Ok (inl {| status := 400;
           body := VObj [("error",
                           VStr "Please provide a valid question (minimum 5 characters, should be flight-related)");
                         ("code", VStr "INVALID_QUESTION_FORMAT")] |})
  else
    rbind (if nullish (date b) then Ok false else invalid_day (date b))
      (fun rejected =>
    if rejected then
      Ok (inl {| status := 400;
                 body := VObj [("error",
                                 VStr "Date parameter must be -1 (yesterday), 1 (today), or 2 (tomorrow)");
                               ("code", VStr "INVALID_DAY_PARAMETER")] |})
    else
      rbind (Number_ (date b)) (fun n =>
      Ok (inr {| c_airport :=
                   Str.trim (Str.toUpperCase (string_of (airport b)));
                 c_question := Llm.sanitizeQuestion (question b);
                 c_date := match n with
                           | Some d => if (d =? 0)%Z then None else Some d
                           | None => None
                           end |}))).

End Validation.

(** [Object.entries(byCountry).sort(([, a], [, b]) => b.length - a.length)]:
    a stable sort by decreasing group size. *)
Fixpoint insert_by_count (x : string * list value)
         (l : list (string * list value)) : list (string * list value) :=
  match l with
  | [] => [x]
  | y :: r =>
      if (List.length (snd y) <=? List.length (snd x))%nat then x :: l
      else y :: insert_by_count x r
  end.

Definition sort_by_count (l : list (string * list value))
  : list (string * list value) :=
  fold_right insert_by_count [] l.

Definition topCountries (byCountry : list (string * list value)) : value :=
  VArr (map (fun e => VObj [("country", VStr (fst e));
                             ("count", VNum (Z.of_nat (List.length (snd e))))])
            (firstn 10 (sort_by_count byCountry))).

Definition direction_json (d : direction_data) : value :=
  VObj [("total", VNum (Z.of_nat (total d)));
        ("topCountries", topCountries (byCountry d));
        ("topAirlines", VArr (firstn 10 (airlines d)))].

Definition num (n : nat) : value := VNum (Z.of_nat n).

Definition summary_json (s : summary) : value :=
  VObj [("totalArrivals", num (totalArrivals s));
        ("totalDepartures", num (totalDepartures s));
        ("arrivalCountries", num (arrivalCountries s));
        ("departureCountries", num (departureCountries s));
        ("arrivalCities", num (arrivalCities s));
        ("departureCities", num (departureCities s));
        ("uniqueAirlines", num (uniqueAirlines s))].

Section Handler.

Variable w : world.
Variable JSON_parse : string -> option value.
Variable analysisPrompt : string -> string -> string.
Variable systemPrompt : string.
Variable buildSupportUserPrompt :
  string -> processed -> string -> value -> value -> result string.

(** [`${responseTime}ms`] *)
Definition responseTime : string :=
  Str.of_Z (clock_end w - clock_start w) ++ "ms".

Definition skipped_response (b : clean_body) (modeAnalysis : value)
  : response :=
  json (VObj
    [("success", VBool true);
     ("airport", VStr (c_airport b));
     ("airportName", VStr (FlightApi.getAirportName (c_airport b)));
     ("question", VStr (c_question b));
     ("answer", VStr cannedAnswer);
     ("analysis",
       VObj [("mode", field modeAnalysis "mode");
             ("reasoning", field modeAnalysis "reasoning");
             ("confidence", field modeAnalysis "confidence");
             ("relevant", VBool false)]);
     ("metadata",
       VObj [("responseTime", VStr responseTime);
             ("timestamp", VStr (clock_iso w));
             ("dataSource", VStr "No API call made");
             ("aiModel", VStr "Gemini Flash 1.5");
             ("flightApiCalled", VBool false)])]).

Definition no_data_response (b : clean_body) (raw : schedule) : response :=
  {| status := 404;
     body := VObj
       [("error", VStr ("No flight data available for " ++ c_airport b
                        ++ " (" ++ s_dayLabel raw ++ ")"));
        ("code", VStr "NO_FLIGHT_DATA");
        ("airport", VStr (c_airport b));
        ("dayParam", VNum (s_dayParam raw));
        ("dayLabel", VStr (s_dayLabel raw))] |}.

Definition answered_response (b : clean_body) (modeAnalysis : value)
           (p : processed) (answer : string) : response :=
  json (VObj
    [("success", VBool true);
     ("airport", VStr (c_airport b));
     ("airportName", VStr (FlightApi.getAirportName (c_airport b)));
     ("question", VStr (c_question b));
     ("answer", VStr answer);
     ("analysis",
       VObj [("mode", field modeAnalysis "mode");
             ("reasoning", field modeAnalysis "reasoning");
             ("confidence", field modeAnalysis "confidence")]);
     ("data",
       VObj [("dayParam", VNum (p_dayParam p));
             ("dayLabel", VStr (p_dayLabel p));
             ("summary", summary_json (p_summary p));
             ("arrivals", direction_json (p_arrivals p));
             ("departures", direction_json (p_departures p));
             ("rawResult", p_rawResult p)]);
     ("metadata",
       VObj [("responseTime", VStr responseTime);
             ("timestamp", VStr (clock_iso w));
             ("dataSource", VStr "FlightAPI.io");
             ("aiModel", VStr "Gemini Flash 1.5");
             ("flightApiMode", field modeAnalysis "mode");
             ("flightApiCalled", VBool true)])]).

(** The status and code chosen by the [catch] clause of the handler. *)
Definition classify_error (message : string) : Z * string :=
  if Str.includes message "Invalid FlightAPI key" then
    (502%Z, "FLIGHT_API_ERROR")
  else if Str.includes message "rate limit" then
    (429%Z, "RATE_LIMIT_EXCEEDED")
  else if Str.includes message "timeout" then
    (504%Z, "REQUEST_TIMEOUT")
  else if Str.includes message "Invalid OpenRouter" then
    (502%Z, "LLM_API_ERROR")
  else (500%Z, "INTERNAL_ERROR").

Definition error_response (b : clean_body) (error : js_error) : response :=
  {| status := fst (classify_error (e_message error));
     body := VObj
       [("error", VStr (e_message error));
        ("code", VStr (snd (classify_error (e_message error))));
        ("airport", VStr (c_airport b));
        ("question", VStr (c_question b));
        ("metadata",
          VObj [("responseTime", VStr responseTime);
                ("timestamp", VStr (clock_iso w))])] |}.

(** [modeAnalysis.shouldSkipAPI || modeAnalysis.relevant === false] *)
Definition skips (modeAnalysis : value) : bool :=
  truthy (field modeAnalysis "shouldSkipAPI")
  || is_false (field modeAnalysis "relevant").

(** [rawFlightData.arrivals.length === 0 &&
     rawFlightData.departures.length === 0] *)
Definition no_flights (raw : schedule) : bool :=
  is_zero (length_of (s_arrivals raw))
  && is_zero (length_of (s_departures raw)).

(** [date || 1] *)
Definition dayParam_of (b : clean_body) : Z :=
  match c_date b with
  | Some d => if (d =? 0)%Z then 1%Z else d
  | None => 1%Z
  end.

(** The handler of [POST /query], run after the middleware. *)
Definition query (b : clean_body) : M response :=
  try_catch
    (modeAnalysis <- Llm.analyzeQuestionForMode w JSON_parse analysisPrompt
                       (c_question b) (c_airport b) ;;
     if skips modeAnalysis then ret (skipped_response b modeAnalysis)
     else
       lift (template [field modeAnalysis "mode"]) ;;;
       rawFlightData <- FlightApi.getAirportSchedule w (c_airport b)
                          (dayParam_of b) (field modeAnalysis "mode") ;;
       if no_flights rawFlightData
       then ret (no_data_response b rawFlightData)
       else
         emit CallAggregator ;;;
         processedData <- lift (FlightApi.processFlightData rawFlightData) ;;
         answer <- Llm.generateAnswer w systemPrompt buildSupportUserPrompt
                     (c_question b) processedData (c_airport b)
                     (field modeAnalysis "mode") modeAnalysis ;;
         ret (answered_response b modeAnalysis processedData answer))%monad
    (fun error => ret (error_response b error)).

Variable Number_ : value -> result (option Z).

(** The endpoint: middleware, then handler, with the trace of the whole
    request.  An error thrown by the middleware is not caught by the
    route. *)
Definition post_query (b : request_body)
  : result response * list event :=
  match validateQueryRequest Number_ b with
  | Throw e => (Throw e, [])
  | Ok (inl r) => (Ok r, [])
  | Ok (inr cb) => run (query cb)
  end.

End Handler.

End Route.

(* ===================================================================== *)
(** ** The frontend: services/api.js, FlightForm.vue, App.vue,
       ResultDisplay.vue *)
(* ===================================================================== *)

(** The refs of the form: the airport and the date come from the two
    dropdowns, the question from the text area. *)
Record form := {
  selectedAirport : value;
  f_question : string;
  selectedDate : value
}.

(** The toast that [handleQuery] raises. *)
Record toast := {
  severity : string;
  detail : value
}.

(** The block of the template of ResultDisplay whose condition holds. *)
Inductive card : Type :=
| IrrelevantCard
| DataCard
| ErrorCard
| NoCard.

Module Frontend.

Import JS.

(** [a && b] *)
Definition and (a b : value) : value := if truthy a then b else a.

(** [!a] *)
Definition not (a : value) : value := VBool (negb (truthy a)).

(** *** services/api.js *)

(** [data.error] *)
Definition data_error (data : value) : result value :=
  if nullish data then Throw (TypeError_read data "error")
  else Ok (field data "error").

(** [new Error(data.error || fallback)] *)
Definition error_or (data : value) (fallback : string) : result js_error :=
  rbind (data_error data) (fun e =>
    Ok (Error (to_string (or e (VStr fallback))))).

(** [transformError(error)], as a function of [error.response]. *)
Definition transformError (response : option response) : result js_error :=
  match response with
  | None =>
      Ok (Error "Network error. Please check your internet connection.")
  | Some r =>
      let data := body r in
      if (status r =? 400)%Z then
        error_or data "Invalid request. Please check your input."
      else if (status r =? 401)%Z then
        Ok (Error "Authentication failed. Please check API credentials.")
      else if (status r =? 404)%Z then
        error_or data "Requested data not found."
      else if (status r =? 429)%Z then
        Ok (Error "Rate limit exceeded. Please try again later.")
      else if (status r =? 500)%Z then
        error_or data "Server error. Please try again later."
      else if (status r =? 502)%Z then
        Ok (Error "External service unavailable. Please try again later.")
      else if (status r =? 504)%Z then
        Ok (Error "Request timeout. Please try again.")
      else
        error_or data ("Unexpected error (" ++ Str.of_Z (status r)
                       ++ "). Please try again.")
  end.

(** The body that [queryFlights] posts.  It travels as JSON, which leaves
    strings, integers and [null] as they are. *)
Definition query_body (airport question : string) (date : value)
  : request_body :=
  {| airport := VStr (Str.toUpperCase airport);
     question := VStr (Str.trim question);
     date := match date with VUndef => VNull | _ => date end |}.

Section Client.

(** The answer of the server to a posted body; [None] when no response
    arrives. *)
Variable server : request_body -> option response.

(** [queryFlights(airport, question, date = null)].  The client resolves a
    response whose status is in [200, 300) and rejects any other with
    [error.response] set; the response interceptor rejects with the
    result of [transformError]. *)
Definition queryFlights (airport : value) (question : string) (date : value)
  : result value :=
  match airport with
  | VStr a =>
      match server (query_body a question date) with
      | Some r =>
          if (200 <=? status r)%Z && (status r <? 300)%Z then Ok (body r)
          else rbind (transformError (Some r)) (fun e => Throw e)
      | None => rbind (transformError None) (fun e => Throw e)
      end
  | VUndef | VNull => Throw (TypeError_read airport "toUpperCase")
  | _ => Throw (TypeError_call "airport.toUpperCase")
  end.

(** *** FlightForm.vue *)

Definition airports : list (string * string) :=
  [("DXB", "Dubai International Airport");
   ("LHR", "London Heathrow Airport");
   ("CDG", "Charles de Gaulle Airport (Paris)");
   ("SIN", "Singapore Changi Airport");
   ("HKG", "Hong Kong International Airport");
   ("AMS", "Amsterdam Airport Schiphol")].

Definition dateOptions : list (string * Z) :=
  [("Yesterday", (-1)%Z); ("Today", 1%Z); ("Tomorrow", 2%Z)].

Definition canSubmit (f : form) : value :=
  and (and (selectedAirport f)
           (VBool (5 <=? String.length (Str.trim (f_question f)))%nat))
      (VBool (String.length (Str.trim (f_question f)) <=? 500)%nat).

(** [validateForm()]: the errors it leaves in [errors.value] and the
    boolean it returns. *)
Definition validateForm (f : form) : list (string * string) * bool :=
  let errors :=
    if negb (truthy (selectedAirport f))
    then set_prop "airport" "Please select an airport" []
    else [] in
  let trimmed := Str.trim (f_question f) in
  let errors :=
    if negb (truthy (VStr trimmed))
    then set_prop "question" "Please enter a question" errors
    else if (String.length trimmed <? 5)%nat
    then set_prop "question" "Question must be at least 5 characters long"
                  errors
    else if (500 <? String.length trimmed)%nat
    then set_prop "question" "Question must be less than 500 characters"
                  errors
    else errors in
  (errors, (List.length errors =? 0)%nat).

(** [handleSubmit()]: the payload of [emit('submit', ...)], [None] when
    the validation stops the submission. *)
Definition handleSubmit (f : form) : option value :=
  if negb (snd (validateForm f)) then None
  else
    match queryFlights (selectedAirport f) (Str.trim (f_question f))
                       (or (selectedDate f) (VNum 1)) with
    | Ok result => Some result
    | Throw error => Some (VObj [("error", VStr (e_message error))])
    end.

End Client.

(** *** App.vue *)

(** [handleQuery(queryResult)]: the new [result.value] and the toast. *)
Definition handleQuery (queryResult : value) : result (value * toast) :=
  if nullish queryResult then Throw (TypeError_read queryResult "error")
  else if truthy (field queryResult "error") then
    Ok (VNull, {| severity := "error";
                  detail := field queryResult "error" |})
  else
    Ok (queryResult,
        {| severity := "success";
           detail := VStr ("Successfully analyzed flight data for "
                           ++ to_string (field queryResult "airport")) |}).

(** *** ResultDisplay.vue *)

Definition hasFlightData (result : value) : value :=
  and (and result (field result "data"))
      (field (field result "data") "summary").

Definition isIrrelevantQuestion (result : value) : value :=
  and (and result (field result "analysis"))
      (VBool (is_false (field (field result "analysis") "relevant"))).

(** The [v-if] chain of the template. *)
Definition displayed (result : value) : card :=
  if truthy (and (and result (not (field result "error")))
                 (isIrrelevantQuestion result)) then IrrelevantCard
  else if truthy (and (and result (not (field result "error")))
                      (hasFlightData result)) then DataCard
  else if truthy (and result (field result "error")) then ErrorCard
  else NoCard.

End Frontend.

(* ===================================================================== *)
(** ** Vocabulary of the statements *)
(* ===================================================================== *)

Unset Implicit Arguments.

Module Spec.

Import JS Str FlightApi Route.

(** Some word of the list occurs in the text. *)
Definition any_occurs (words : list string) (s : string) : Prop :=
  exists k, In k words /\ occurs k s.

(** The two word lists that the fallback tests with a chain of [||]. *)
Definition destinationWords : list string :=
  ["fly to"; "go to"; "destination"; "departing"; "leaving"].

Definition originWords : list string := ["from"; "arriving"].

(** Events that the fetcher may add to the trace. *)
Definition fetch_event (ev : event) : Prop :=
  match ev with
  | CallFetcher _ _ _ | HttpFlight _ _ _ => True
  | _ => False
  end.

(** A mode other than the three known ones, passed explicitly. *)
Definition unknown_mode (mode : value) : Prop :=
  mode <> VUndef /\
  mode <> VStr "arrivals" /\ mode <> VStr "departures" /\ mode <> VStr "both".

(** Number of flight details held by the groups of a [Map], and by the
    groups of the object made from it. *)
Definition group_total (m : groups) : nat :=
  list_sum (map (fun e => List.length (snd e)) m).

Definition object_total (o : list (string * list value)) : nat :=
  list_sum (map (fun e => List.length (snd e)) o).

(** The guard [if (flight.flight)] of the two loops. *)
Definition carries_flight (r : value) : bool := truthy (field r "flight").

Definition flight_count (l : list value) : nat :=
  List.length (filter carries_flight l).

(** Property names of the entries of a [Map]. *)
Definition names (m : groups) : list string :=
  map (fun e => to_string (fst e)) m.

(** Every key is a string and no two keys are the same. *)
Definition string_keyed (m : groups) : Prop :=
  Forall (fun e => is_string (fst e) = true) m /\ NoDup (names m).

(** A run of pushes into one [Map]. *)
Definition push_all (kds : list (value * value)) (m : groups) : groups :=
  fold_left (fun m kd => group_push (fst kd) (snd kd) m) kds m.

(** The property that [Object.fromEntries] makes of one entry. *)
Definition as_property (e : value * list value) : string * list value :=
  (to_string (fst e), snd e).

(** What one loop pushes, record by record. *)
Definition country_pushes (side leg : string) (l : list value)
  : list (value * value) :=
  map (fun r => (country_of (counterpart side (field r "flight")),
                 country_detail side leg (field r "flight")))
      (filter carries_flight l).

Definition city_pushes (side leg : string) (l : list value)
  : list (value * value) :=
  map (fun r => (city_of (counterpart side (field r "flight")),
                 city_detail side leg (field r "flight")))
      (filter carries_flight l).

Definition airline_adds (l : list value) : list value :=
  map (fun r => airline_of (field r "flight")) (filter carries_flight l).

(** A run of [add] into one [Set]. *)
Definition add_all (xs s : list value) : list value :=
  fold_left (fun s x => set_add x s) xs s.

(** The accumulators after one loop over [l]. *)
Definition loop_result (side leg : string) (l : list value) (a : acc) : acc :=
  {| countryMap := push_all (country_pushes side leg l) (countryMap a);
     cityMap := push_all (city_pushes side leg l) (cityMap a);
     airlineSet := add_all (airline_adds l) (airlineSet a) |}.

(** The keys under which a record is filed are strings. *)
Definition keys_are_strings (side : string) (r : value) : Prop :=
  carries_flight r = true ->
  is_string (country_of (counterpart side (field r "flight"))) = true /\
  is_string (city_of (counterpart side (field r "flight"))) = true.

(** The [arrivals] or [departures] part of the result for the list [l]. *)
Definition direction_result (side leg : string) (l : list value)
  : direction_data :=
  {| byCountry := fromEntries (countryMap (loop_result side leg l empty_acc));
     byCity := fromEntries (cityMap (loop_result side leg l empty_acc));
     airlines := airlineSet (loop_result side leg l empty_acc);
     total := List.length l |}.

(** The test that [Object.fromEntries] makes of the two maps of a loop. *)
Definition keys_pass (a : acc) : bool :=
  forallb (fun e => printable (fst e)) (countryMap a)
  && forallb (fun e => printable (fst e)) (cityMap a).

(** The keys under which the records of a list are filed can all be
    converted to property names. *)
Definition keys_convert (side : string) (l : list value) : Prop :=
  Forall (fun r =>
            carries_flight r = true ->
            printable (country_of (counterpart side (field r "flight"))) = true /\
            printable (city_of (counterpart side (field r "flight"))) = true)
         l.


(** The field reached through a chain of optional reads. *)
Fixpoint path (v : value) (ks : list string) : value :=
  match ks with
  | [] => v
  | k :: r => path (opt_field v k) r
  end.





(** Equality of two codes up to the case of their letters. *)
Definition same_ignoring_case (a b : string) : Prop :=
  toLowerCase a = toLowerCase b.

(** The code is, up to case, one of the six supported ones. *)
Definition supported (s : string) : Prop :=
  exists c, In c FlightApi.validAirports /\ same_ignoring_case s c.

(** The response of the [catch] clause to [err] has this status and
    code, and carries the message, the airport, the question and the
    two metadata. *)
Definition answers (w : world) (b : clean_body) (err : js_error)
           (st : Z) (code : string) : Prop :=
  let r := error_response w b err in
  status r = st /\
  field (body r) "code" = VStr code /\
  field (body r) "error" = VStr (e_message err) /\
  field (body r) "airport" = VStr (c_airport b) /\
  field (body r) "question" = VStr (c_question b) /\
  field (field (body r) "metadata") "responseTime" = VStr (responseTime w) /\
  field (field (body r) "metadata") "timestamp" = VStr (clock_iso w).

(** The distinct names of a list, in the order of their first
    appearance, given those already seen. *)
Fixpoint first_seen (seen ks : list string) : list string :=
  match ks with
  | [] => []
  | k :: r =>
      if existsb (String.eqb k) seen then first_seen seen r
      else k :: first_seen (seen ++ [k])%list r
  end.

(** The country names, and the city names, under which the records of a
    list that carry a payload are filed, record by record. *)
Definition country_names (side : string) (l : list value) : list string :=
  map (fun r => to_string (country_of (counterpart side (field r "flight"))))
      (filter carries_flight l).

Definition city_names (side : string) (l : list value) : list string :=
  map (fun r => to_string (city_of (counterpart side (field r "flight"))))
      (filter carries_flight l).

(** The airline of every record that carries a payload is a string. *)
Definition airlines_are_strings (l : list value) : Prop :=
  Forall (fun x => is_string x = true) (airline_adds l).

(** The directions that a call of [getAirportSchedule] asks the schedule
    API for, by the mode it is given. *)
Definition requested (mode_arg : value) : list string :=
  match mode_arg with
  | VUndef => ["arrivals"; "departures"]
  | VStr m =>
      if String.eqb m "both" then ["arrivals"; "departures"]
      else if String.eqb m "arrivals" then ["arrivals"]
      else if String.eqb m "departures" then ["departures"]
      else []
  | _ => []
  end.

(** [Number(dayParam) || 1] *)
Definition valid_day_of (dayParam : Z) : Z :=
  if (dayParam =? 0)%Z then 1%Z else dayParam.

(** [data.choices[0]?.message?.content] of a chat-completion payload that
    has choices. *)
Definition completion_text (data : value) : value :=
  opt_field (opt_field (first_item (field data "choices")) "message")
            "content".

(** The four fields of a parsed analysis that the log line of the
    classifier prints can all be converted to strings. *)
Definition loggable (analysis : value) : bool :=
  forallb printable [field analysis "relevant"; field analysis "mode";
                     field analysis "confidence"; field analysis "reasoning"].

(** The object that the classifier returns for an analysis that says
    [relevant: false]. *)
Definition skip_analysis (analysis : value) : value :=
  VObj [("relevant", VBool false);
        ("mode", VStr "none");
        ("reasoning", field analysis "reasoning");
        ("confidence", field analysis "confidence");
        ("shouldSkipAPI", VBool true)].

(** Every character of the string satisfies the test. *)
Definition all_chars (P : ascii -> Prop) (s : string) : Prop :=
  Forall P (list_ascii_of_string s).

(** Every character of the string is in the ASCII range.  On such strings
    [toUpperCase], [toLowerCase], [trim], [length] and the character
    classes of this model are those of JavaScript; outside it, JavaScript
    maps some letters to ASCII ones (U+0131 to I, U+212A to k) and trims
    more kinds of white space. *)
Definition ascii_only (s : string) : Prop :=
  forallb (fun c => (nat_of_ascii c <? 128)%nat) (list_ascii_of_string s)
  = true.

(** The characters that [sanitizeQuestion] lets through: letters, digits,
    [_], the space, and [? ! . , - ( )]. *)
Definition plain_char (c : ascii) : Prop :=
  is_kept c = true /\ (is_space c = true -> c = " "%char).

(** Calls of the schedule API in a trace. *)
Definition flight_call (ev : event) : Prop :=
  match ev with
  | HttpFlight _ _ _ => True
  | _ => False
  end.

(** The calls of the schedule API that a mode asks for, in the order in
    which the fetcher issues them: one for each requested direction, for
    the upper-cased airport and the day of the call. *)
Definition schedule_calls (airportCode : string) (dayParam : Z)
           (mode : value) : list event :=
  map (fun dir => HttpFlight dir (Str.toUpperCase airportCode)
                             (valid_day_of dayParam))
      (requested mode).

(** The flight list that the fetcher finds in the payload answered for a
    direction. *)
Definition flights_of (dir : string) (payload : value) : value :=
  FlightApi.flights_in dir (VObj [(dir, payload)]).

(** The calls issued are the first of the calls asked for. *)
Definition issued (calls asked : list event) : Prop :=
  exists rest, asked = (calls ++ rest)%list.

(** What the fetcher leaves in the trace: nothing when it is not reached,
    else its entry and then the first of the calls that its mode asks
    for. *)
Definition fetch_events (b : clean_body) (evs : list event) : Prop :=
  evs = [] \/
  exists mode calls,
    evs = CallFetcher (c_airport b) (dayParam_of b) mode :: calls /\
    issued calls (schedule_calls (c_airport b) (dayParam_of b) mode).

(** What the aggregator and the generator leave in the trace: nothing when
    they are not reached, else the entry of the aggregator, then that of
    the generator, then at most one request to the LLM, which carries the
    persona and one data prompt. *)
Definition generation_events (systemPrompt : string) (b : clean_body)
           (evs : list event) : Prop :=
  evs = [] \/
  evs = [CallAggregator] \/
  evs = [CallAggregator; CallGenerator (c_question b) (c_airport b)] \/
  exists prompt,
    evs = [CallAggregator; CallGenerator (c_question b) (c_airport b);
           HttpLlm (Llm.answer_request systemPrompt prompt)].

(** A property name made of digits only.  The integer indices are among
    these names, and an object lists its integer indices before its other
    properties, whatever the order of insertion. *)
Definition digits_only (k : string) : bool :=
  negb (String.eqb k "") && forallb Str.is_digit (list_ascii_of_string k).

(** None of the names is made of digits only: an object that receives
    them lists them in the order of insertion. *)
Definition listed_by_insertion (ks : list string) : Prop :=
  Forall (fun k => digits_only k = false) ks.

(** The backend as the server of the frontend's client: the response that
    the endpoint sends for a posted body.  What the framework answers when
    an error escapes the middleware is not modelled. *)
Definition served (w : world) (JSON_parse : string -> option value)
           (analysisPrompt : string -> string -> string)
           (systemPrompt : string)
           (buildSupportUserPrompt :
              string -> processed -> string -> value -> value -> result string)
           (Number_ : value -> result (option Z)) (b : request_body)
  : option response :=
  match fst (post_query w JSON_parse analysisPrompt systemPrompt
               buildSupportUserPrompt Number_ b) with
  | Ok r => Some r
  | Throw _ => None
  end.

(** The values that the date dropdown of the form can hold: [null], or
    the value of one of its options. *)
Definition date_choice (v : value) : Prop :=
  v = VNull \/ exists label d, In (label, d) Frontend.dateOptions /\ v = VNum d.

(** The day that the form submits: [selectedDate || 1]. *)
Definition submitted_day (v : value) : Z :=
  match v with
  | VNum d => if (d =? 0)%Z then 1%Z else d
  | _ => 1%Z
  end.

(** The question contains one of the question words, in any case, or a
    question mark. *)
Definition asks (q : string) : bool :=
  existsb (fun word => Str.includes (Str.toLowerCase q) word)
          Llm.questionWords
  || Str.includes q "?".

(** The forms of the responses of the endpoint. *)
Inductive sent (w : world) : response -> Prop :=
| sent_rejected r :
    status r = 400%Z ->
    (exists msg, field (body r) "error" = VStr msg /\ msg <> "") ->
    sent w r
| sent_skipped cb ma : sent w (skipped_response w cb ma)
| sent_no_data cb raw : sent w (no_data_response cb raw)
| sent_answered cb ma p answer : sent w (answered_response w cb ma p answer)
| sent_error cb e : sent w (error_response w cb e).

(** The first group is no smaller than the second. *)
Definition no_smaller (a b : string * list value) : Prop :=
  List.length (snd b) <= List.length (snd a).

(** The entry of [topCountries] for a group. *)
Definition country_entry (e : string * list value) : value :=
  VObj [("country", VStr (fst e));
        ("count", VNum (Z.of_nat (List.length (snd e))))].

End Spec.

(* ===================================================================== *)
(** ** Sample worlds and payloads *)
(* ===================================================================== *)

Module Samples.

(** A chat-completion payload whose first choice carries [text]. *)
Definition reply (text : string) : value :=
  VObj [("choices",
          VArr [VObj [("message", VObj [("content", VStr text)])]])].

Definition world_of (llm : llm_request -> http_outcome)
           (flights : string -> string -> Z -> http_outcome) : world :=
  {| llm_post := llm;
     flight_get := flights;
     clock_start := 1000;
     clock_end := 1250;
     clock_iso := "2025-01-01T00:00:00.000Z" |}.

Definition network_down : js_error := Error "Network Error".

Definition http_status (n : Z) : js_error :=
  {| e_status := Some n;
     e_code := Some "ERR_BAD_REQUEST";
     e_message := "Request failed with status code " ++ Str.of_Z n |}.

(** The LLM is unreachable and the schedule API has nothing. *)
Definition llm_down : world :=
  world_of (fun _ => Rejected network_down) (fun _ _ _ => Resolved (VObj [])).

(** The LLM is unreachable and the schedule API answers 404. *)
Definition schedule_404 : world :=
  world_of (fun _ => Rejected network_down)
           (fun _ _ _ => Rejected (http_status 404)).

(** The LLM answers in prose. *)
Definition chatty : world :=
  world_of (fun _ => Resolved (reply "I would say departures."))
           (fun _ _ _ => Resolved (VObj [])).

(** A parser that rejects every text, a prompt that is the question, and
    [Number] on [null], the booleans, the integers and the objects; it
    does not parse strings and arrays, which count as NaN here. *)
Definition no_json (text : string) : option value := None.

Definition prompt (question airport : string) : string := question.

Definition data_prompt (question : string) (p : processed) (airport : string)
           (mode ma : value) : result string := Ok question.

Definition to_number (v : value) : result (option Z) :=
  match v with
  | VNum n => Ok (Some n)
  | VNull => Ok (Some 0%Z)
  | VBool true => Ok (Some 1%Z)
  | VBool false => Ok (Some 0%Z)
  | VArr _ | VObj _ =>
      if JS.printable v then Ok None else Throw TypeError_convert
  | _ => Ok None
  end.

Definition ask (code q : string) : clean_body :=
  {| c_airport := code; c_question := q; c_date := None |}.

Definition request (code q : value) : request_body :=
  {| airport := code; question := q; date := VUndef |}.

(** An object that has a [toString] of its own, which nothing can call. *)
Definition unprintable : value := VObj [("toString", VNum 1)].

(** An arrival whose airport has such an object for its name. *)
Definition odd_name : value :=
  VObj [("flight",
          VObj [("airport",
                  VObj [("origin", VObj [("name", unprintable)])])])].

(** An arrival from Frankfurt, a record without payload, and an arrival
    whose payload names nothing. *)
Definition from_frankfurt : value :=
  VObj [("flight",
          VObj [("airport",
                  VObj [("origin",
                          VObj [("name", VStr "Frankfurt");
                                ("position",
                                  VObj [("country",
                                          VObj [("name", VStr "Germany")])])])]);
                ("airline", VObj [("name", VStr "Lufthansa")])])].

Definition no_payload : value := VObj [("flight", VNull)].

Definition anonymous : value := VObj [("flight", VObj [])].

Definition schedule_of (arrivals departures : list value) : schedule :=
  {| s_airport := "DXB";
     s_dayParam := 1;
     s_dayLabel := "Today";
     s_arrivals := VArr arrivals;
     s_departures := VArr departures;
     s_rawResult := VObj [];
     s_metadata := VObj [] |}.

(** The run of the fetcher for arrivals at DXB when the LLM is down and
    the schedule API has nothing. *)
Definition classified : list event :=
  [CallClassifier "How many flights from Germany?" "DXB";
   HttpLlm (Llm.analysis_request prompt "How many flights from Germany?"
                                 "DXB")].

Definition nothing_fetched : schedule :=
  match fst (FlightApi.getAirportSchedule llm_down "DXB" 1 (VStr "arrivals")
               classified) with
  | Ok s => s
  | Throw _ => schedule_of [] []
  end.

Definition classified_and_fetched : list event :=
  snd (FlightApi.getAirportSchedule llm_down "DXB" 1 (VStr "arrivals")
         classified).

(** The payload of the schedule API for one direction, with the flight
    array under [airport.pluginData.schedule.<dir>.data]. *)
Definition schedule_payload (dir : string) (flights : list value) : value :=
  VObj [("airport",
          VObj [("pluginData",
                  VObj [("schedule",
                          VObj [(dir, VObj [("data", VArr flights)])])])])].

(** The classifier's call is rejected, the generator's call is answered,
    and the schedule API lists three arrivals. *)
Definition busy : world :=
  world_of (fun req => if (max_tokens req =? 200)%Z
                       then Rejected network_down
                       else Resolved (reply " Two flights carry data. "))
           (fun dir _ _ =>
              Resolved (schedule_payload dir
                          [from_frankfurt; no_payload; anonymous])).

(** A parsed analysis that says "irrelevant" and still names a mode, and a
    parser that always yields it. *)
Definition irrelevant_arrivals : value :=
  VObj [("relevant", VBool false);
        ("mode", VStr "arrivals");
        ("reasoning", VStr "Cooking question");
        ("confidence", VStr "high")].

Definition says_irrelevant (text : string) : option value :=
  Some irrelevant_arrivals.

(** The LLM service answers without choices; the schedule API has
    nothing. *)
Definition silent : world :=
  world_of (fun req => if (max_tokens req =? 200)%Z
                       then Resolved (VObj [])
                       else Resolved (VObj [("choices", VArr [])]))
           (fun _ _ _ => Resolved (VObj [])).

(** The aggregate of a list of arrivals at DXB. *)
Definition processed_of (arrivals : list value) : processed :=
  match FlightApi.processFlightData (schedule_of arrivals []) with
  | Ok p => p
  | Throw _ =>
      {| p_airport := "";
         p_dayParam := 1;
         p_dayLabel := "";
         p_summary :=
           {| totalArrivals := 0; totalDepartures := 0;
              arrivalCountries := 0; departureCountries := 0;
              arrivalCities := 0; departureCities := 0;
              uniqueAirlines := 0 |};
         p_arrivals := {| byCountry := []; byCity := []; airlines := [];
                          total := 0 |};
         p_departures := {| byCountry := []; byCity := []; airlines := [];
                            total := 0 |};
         p_metadata := VUndef;
         p_rawResult := VUndef |}
  end.

(** The classifier's call is rejected and the schedule API lists a [null]
    among the arrivals. *)
Definition broken_list : world :=
  world_of (fun _ => Rejected network_down)
           (fun dir _ _ =>
              Resolved (schedule_payload dir [from_frankfurt; VNull])).

(** The trace after the classifier, and what the fetcher and the
    aggregator return, for the question about Germany at an airport when
    the classifier falls back to arrivals. *)
Definition classified_at (code : string) : list event :=
  [CallClassifier "How many flights from Germany?" code;
   HttpLlm (Llm.analysis_request prompt "How many flights from Germany?" code)].

Definition fetched_at (w : world) (code : string) : schedule :=
  match fst (FlightApi.getAirportSchedule w code 1 (VStr "arrivals")
               (classified_at code)) with
  | Ok s => s
  | Throw _ => schedule_of [] []
  end.

Definition fetched_from (w : world) : schedule := fetched_at w "DXB".

Definition aggregated_at (w : world) (code : string) : processed :=
  match FlightApi.processFlightData (fetched_at w code) with
  | Ok p => p
  | Throw _ => processed_of []
  end.

(** A parsed analysis that names a mode the fetcher does not know, and a
    parser that always yields it. *)
Definition misspelt_mode : value :=
  VObj [("relevant", VBool true);
        ("mode", VStr "arrival");
        ("reasoning", VStr "Asks about incoming flights");
        ("confidence", VStr "high")].

Definition says_arrival (text : string) : option value := Some misspelt_mode.

End Samples.

(* ===================================================================== *)
(** ** Facts about the string builtins *)
(* ===================================================================== *)

Module StrFacts.

Import Str Spec.

Lemma prefix_app (p s : string) :
  String.prefix p s = true <-> exists t, s = p ++ t.
Proof.
  revert s; induction p as [|a p IH]; intros s; simpl.
  - destruct s; split; intros _; try reflexivity; eexists; reflexivity.
  - destruct s as [|b s]; simpl.
    + split; [discriminate|intros [t Ht]; discriminate].
    + destruct (ascii_dec a b) as [->|Hne].
      * rewrite IH. split; intros [t Ht]; exists t.
        -- now rewrite Ht.
        -- now inversion Ht.
      * split; [discriminate|]. intros [t Ht]. inversion Ht. congruence.
Qed.

Lemma includes_unfold (s sub : string) :
  includes s sub =
  if String.prefix sub s then true
  else match s with
       | EmptyString => false
       | String _ r => includes r sub
       end.
Proof. destruct s; reflexivity. Qed.

Lemma prefix_occurs (s sub : string) :
  String.prefix sub s = true -> occurs sub s.
Proof.
  intros Hp. apply prefix_app in Hp. destruct Hp as [t Ht].
  exists "", t. exact Ht.
Qed.

(** [includes] decides occurrence as a contiguous substring. *)
Lemma includes_occurs (s sub : string) :
  includes s sub = true <-> occurs sub s.
Proof.
  induction s as [|c s IH]; rewrite includes_unfold;
    destruct (String.prefix sub _) eqn:Hp;
    try (split; [intros _; now apply prefix_occurs|reflexivity]).
  - split; [discriminate|]. intros [pre [post H]].
    destruct pre; simpl in H; [|discriminate].
    assert (String.prefix sub "" = true)
      by (apply prefix_app; now exists post).
    congruence.
  - rewrite IH. split.
    + intros [pre [post H]]. exists (String c pre), post.
      simpl. now rewrite H.
    + intros [pre [post H]]. destruct pre as [|a pre]; simpl in H.
      * assert (String.prefix sub (String c s) = true)
          by (apply prefix_app; now exists post).
        congruence.
      * inversion H. now exists pre, post.
Qed.

Lemma includes_false (s sub : string) :
  includes s sub = false <-> ~ occurs sub s.
Proof.
  rewrite <- includes_occurs.
  destruct (includes s sub); intuition congruence.
Qed.

Lemma existsb_includes (words : list string) (s : string) :
  existsb (fun k => includes s k) words = true <-> any_occurs words s.
Proof.
  rewrite existsb_exists. unfold any_occurs.
  split; intros [k [Hin Hk]]; exists k; split; auto;
    now apply includes_occurs.
Qed.

Lemma existsb_includes_false (words : list string) (s : string) :
  existsb (fun k => includes s k) words = false <-> ~ any_occurs words s.
Proof.
  rewrite <- existsb_includes.
  destruct (existsb _ words); intuition congruence.
Qed.

Lemma lower_upper_char (c : ascii) : lower_char (upper_char c) = lower_char c.
Proof.
  destruct c as [[] [] [] [] [] [] [] []]; reflexivity.
Qed.

Lemma upper_lower_char (c : ascii) : upper_char (lower_char c) = upper_char c.
Proof.
  destruct c as [[] [] [] [] [] [] [] []]; reflexivity.
Qed.

Lemma lower_upper (s : string) : toLowerCase (toUpperCase s) = toLowerCase s.
Proof.
  induction s as [|c s IH]; simpl; [reflexivity|].
  unfold toLowerCase, toUpperCase in *. simpl.
  now rewrite lower_upper_char, IH.
Qed.

Lemma upper_lower (s : string) : toUpperCase (toLowerCase s) = toUpperCase s.
Proof.
  induction s as [|c s IH]; simpl; [reflexivity|].
  unfold toLowerCase, toUpperCase in *. simpl.
  now rewrite upper_lower_char, IH.
Qed.

End StrFacts.

(* ===================================================================== *)
(** ** The Mode Classifier *)
(* ===================================================================== *)

(** Unfolds the operations of [M] in the goal. *)
Ltac unfold_M :=
  cbv [run bind try_catch emit lift ret throw await Llm.chat
       FlightApi.schedule_call].

Ltac split_calls :=
  repeat match goal with
         | |- context [flight_get ?w ?a ?b ?c] =>
             destruct (flight_get w a b c)
         | |- context [template ?l] => destruct (template l) as [[]|?]
         end.

Lemma template_mode (code : string) (day : Z) (mode : value) :
  template [VStr code; VNum day; mode]
  = if JS.printable mode then Ok tt else Throw TypeError_convert.
Proof.
  unfold template. simpl. now rewrite andb_true_r.
Qed.

Lemma template_lengths (a b : value) (code label : string) :
  template [a; b; VStr code; VStr label]
  = if JS.printable a && JS.printable b then Ok tt
    else Throw TypeError_convert.
Proof.
  unfold template. simpl. now rewrite andb_true_r.
Qed.

Lemma template_one (v : value) :
  template [v] = if JS.printable v then Ok tt else Throw TypeError_convert.
Proof.
  unfold template. simpl. now rewrite andb_true_r.
Qed.

Module LlmFacts.

Import JS Str StrFacts Llm Spec.

Section Classifier.

Variable w : world.
Variable JSON_parse : string -> option value.
Variable analysisPrompt : string -> string -> string.

Let analyze := analyzeQuestionForMode w JSON_parse analysisPrompt.
Let request := analysis_request analysisPrompt.

(** The classifier issues exactly one upstream call and always returns a
    value. *)
Lemma analyze_returns (question airport : string) (tr : list event) :
  exists r,
    analyze question airport tr =
    (Ok r, (tr ++ [CallClassifier question airport;
                   HttpLlm (request question airport)])%list).
Proof.
  unfold analyze, request, analyzeQuestionForMode. unfold_M.
  rewrite <- app_assoc. simpl.
  destruct (llm_post w _) as [data|e]; [|eexists; reflexivity].
  destruct (trimmed_content_of data) as [text|e]; [|eexists; reflexivity].
  destruct (parse_analysis JSON_parse text); eexists; reflexivity.
Qed.

Lemma analyze_rejected (question airport : string) (e : js_error) :
  llm_post w (request question airport) = Rejected e ->
  run (analyze question airport) =
  (Ok default_analysis,
   [CallClassifier question airport; HttpLlm (request question airport)]).
Proof.
  intros H. unfold analyze, request, analyzeQuestionForMode in *. unfold_M.
  simpl. now rewrite H.
Qed.

Lemma analyze_fallback (question airport : string) (data : value)
      (text : string) :
  llm_post w (request question airport) = Resolved data ->
  trimmed_content_of data = Ok (VStr text) ->
  JSON_parse (json_text text) = None ->
  run (analyze question airport) =
  (Ok (keyword_fallback question),
   [CallClassifier question airport; HttpLlm (request question airport)]).
Proof.
  intros H1 H2 H3.
  unfold analyze, request, analyzeQuestionForMode in *. unfold_M.
  simpl. rewrite H1, H2. simpl. now rewrite H3.
Qed.

Lemma parse_mode_printable (text analysis : value) :
  parse_analysis JSON_parse text = Some analysis ->
  printable (field analysis "mode") = true.
Proof.
  unfold parse_analysis. destruct text; try discriminate.
  destruct (JSON_parse _) as [an|]; [|discriminate].
  destruct (nullish an); [discriminate|].
  unfold template. simpl forallb.
  destruct (printable (field an "relevant")); [|discriminate].
  destruct (printable (field an "mode")) eqn:Hm; [|discriminate].
  destruct (printable (field an "confidence")); [|discriminate].
  destruct (printable (field an "reasoning")); [|discriminate].
  simpl. destruct (is_false _); intros H; inversion H; subst;
    [reflexivity|exact Hm].
Qed.

Lemma keyword_fallback_mode_printable (question : string) :
  printable (field (keyword_fallback question) "mode") = true.
Proof.
  unfold keyword_fallback. destruct (negb _); [reflexivity|].
  repeat match goal with
         | |- context [if ?c then _ else _] => destruct c
         end; reflexivity.
Qed.

(** The mode of what the classifier returns can always be printed. *)
Lemma analyze_mode_printable (question airport : string)
      (tr tr' : list event) (ma : value) :
  analyze question airport tr = (Ok ma, tr') ->
  printable (field ma "mode") = true.
Proof.
  unfold analyze, analyzeQuestionForMode. unfold_M.
  destruct (llm_post w _) as [data|e];
    [|intros H; inversion H; reflexivity].
  destruct (trimmed_content_of data) as [text|e];
    [|intros H; inversion H; reflexivity].
  destruct (parse_analysis JSON_parse text) as [an|] eqn:Hp;
    intros H; inversion H; subst.
  - exact (parse_mode_printable _ _ Hp).
  - apply keyword_fallback_mode_printable.
Qed.

End Classifier.

Lemma destination_chain (s : string) :
  includes s "fly to" || includes s "go to" || includes s "destination"
  || includes s "departing" || includes s "leaving"
  = existsb (fun k => includes s k) destinationWords.
Proof.
  simpl. rewrite orb_false_r. now rewrite !orb_assoc.
Qed.

Lemma origin_chain (s : string) :
  includes s "from" || includes s "arriving"
  = existsb (fun k => includes s k) originWords.
Proof.
  simpl. now rewrite orb_false_r.
Qed.

(** The outcome of the keyword fallback, case by case. *)
Lemma keyword_fallback_cases (question : string) :
  let q := toLowerCase question in
  let r := keyword_fallback question in
  field r "confidence" = VStr "medium" /\
  (~ any_occurs aviationKeywords q ->
     field r "relevant" = VBool false /\
     field r "mode" = VStr "none" /\
     field r "shouldSkipAPI" = VBool true) /\
  (any_occurs aviationKeywords q ->
     field r "relevant" = VBool true /\
     (any_occurs destinationWords q -> field r "mode" = VStr "departures") /\
     (~ any_occurs destinationWords q -> any_occurs originWords q ->
        field r "mode" = VStr "arrivals") /\
     (~ any_occurs destinationWords q -> ~ any_occurs originWords q ->
        field r "mode" = VStr "both")).
Proof.
  intros q r. subst r. unfold keyword_fallback. fold q.
  rewrite destination_chain, origin_chain.
  destruct (existsb _ aviationKeywords) eqn:Hav.
  - apply existsb_includes in Hav.
    destruct (existsb _ destinationWords) eqn:Hd.
    + apply existsb_includes in Hd.
      simpl; repeat split; intros; try reflexivity; tauto.
    + apply existsb_includes_false in Hd.
      destruct (existsb _ originWords) eqn:Ho;
        [apply existsb_includes in Ho | apply existsb_includes_false in Ho];
        simpl; repeat split; intros; try reflexivity; tauto.
  - apply existsb_includes_false in Hav.
    simpl; repeat split; intros; try reflexivity; tauto.
Qed.

End LlmFacts.

(* ===================================================================== *)
(** ** The Schedule Fetcher *)
(* ===================================================================== *)

Module FetcherFacts.

Import JS FlightApi Spec.

Lemma fetch_trace (w : world) (code : string) (day : Z) (mode : value)
      (tr tr' : list event) (r : result schedule) :
  getAirportSchedule w code day mode tr = (r, tr') ->
  exists evs, tr' = (tr ++ evs)%list /\ Forall fetch_event evs.
Proof.
  unfold getAirportSchedule. unfold_M.
  set (m := match mode with VUndef => VStr "both" | _ => mode end).
  destruct (is_str m "both" || is_str m "arrivals");
    destruct (is_str m "both" || is_str m "departures");
    split_calls;
    intros H; inversion H; subst; clear H;
    rewrite <- ?app_assoc; simpl;
    eexists; (split; [reflexivity|]);
    repeat constructor.
Qed.

Lemma is_str_false (v : value) (lit : string) :
  v <> VStr lit -> is_str v lit = false.
Proof.
  intros H. destruct v; simpl; try reflexivity.
  destruct (String.eqb_spec s lit); [subst; congruence | reflexivity].
Qed.

Lemma unknown_mode_run (w : world) (code : string) (day : Z) (mode : value) :
  unknown_mode mode ->
  printable mode = true ->
  let validDay := if (day =? 0)%Z then 1%Z else day in
  run (getAirportSchedule w code day mode) =
  (Ok {| s_airport := Str.toUpperCase code;
         s_dayParam := validDay;
         s_dayLabel := getDayLabel validDay;
         s_arrivals := VArr [];
         s_departures := VArr [];
         s_rawResult := VObj [];
         s_metadata :=
           VObj [("totalArrivals", VNum 0);
                 ("totalDepartures", VNum 0);
                 ("fetchedAt", VStr (clock_iso w));
                 ("apiEndpoint", VStr "FlightAPI.io /schedule");
                 ("parameters",
                   VObj [("mode", mode);
                         ("iata", VStr (Str.toUpperCase code));
                         ("day", VNum validDay)])] |},
   [CallFetcher code day mode]).
Proof.
  intros (Hu & Ha & Hd & Hb) Hp validDay.
  unfold getAirportSchedule. unfold_M.
  assert (Hm : match mode with VUndef => VStr "both" | _ => mode end = mode)
    by (destruct mode; congruence).
  rewrite Hm, template_mode, Hp.
  rewrite (is_str_false _ _ Ha), (is_str_false _ _ Hd), (is_str_false _ _ Hb).
  reflexivity.
Qed.

End FetcherFacts.

(* ===================================================================== *)
(** ** The Query Orchestrator *)
(* ===================================================================== *)

Module RouteFacts.

Import JS Route Spec.

Section Handler.

Variable w : world.
Variable JSON_parse : string -> option value.
Variable analysisPrompt : string -> string -> string.
Variable systemPrompt : string.
Variable buildSupportUserPrompt :
  string -> processed -> string -> value -> value -> result string.

Let analyze := Llm.analyzeQuestionForMode w JSON_parse analysisPrompt.
Let handler :=
  query w JSON_parse analysisPrompt systemPrompt buildSupportUserPrompt.
Let generate := Llm.generateAnswer w systemPrompt buildSupportUserPrompt.

Lemma query_skipped (b : clean_body) (ma : value) (tr : list event) :
  run (analyze (c_question b) (c_airport b)) = (Ok ma, tr) ->
  skips ma = true ->
  run (handler b) = (Ok (skipped_response w b ma), tr).
Proof.
  unfold handler, analyze, query, run. intros H Hs.
  unfold bind at 1, try_catch. rewrite H, Hs. reflexivity.
Qed.

Lemma query_no_data (b : clean_body) (ma : value) (tr1 tr2 : list event)
      (raw : schedule) :
  run (analyze (c_question b) (c_airport b)) = (Ok ma, tr1) ->
  skips ma = false ->
  FlightApi.getAirportSchedule w (c_airport b) (dayParam_of b)
    (field ma "mode") tr1 = (Ok raw, tr2) ->
  no_flights raw = true ->
  run (handler b) = (Ok (no_data_response b raw), tr2).
Proof.
  unfold handler, analyze, query, run. intros H Hs Hf Hn.
  pose proof (LlmFacts.analyze_mode_printable w JSON_parse analysisPrompt
                _ _ _ _ _ H) as Hpr.
  unfold bind at 1, try_catch. rewrite H, Hs.
  unfold bind at 1, lift. rewrite template_one, Hpr.
  unfold bind at 1. rewrite Hf, Hn. reflexivity.
Qed.

Lemma query_fetch_failed (b : clean_body) (ma : value)
      (tr1 tr2 : list event) (err : js_error) :
  run (analyze (c_question b) (c_airport b)) = (Ok ma, tr1) ->
  skips ma = false ->
  FlightApi.getAirportSchedule w (c_airport b) (dayParam_of b)
    (field ma "mode") tr1 = (Throw err, tr2) ->
  run (handler b) = (Ok (error_response w b err), tr2).
Proof.
  unfold handler, analyze, query, run. intros H Hs Hf.
  pose proof (LlmFacts.analyze_mode_printable w JSON_parse analysisPrompt
                _ _ _ _ _ H) as Hpr.
  unfold bind at 1, try_catch. rewrite H, Hs.
  unfold bind at 1, lift. rewrite template_one, Hpr.
  unfold bind at 1. rewrite Hf. reflexivity.
Qed.

Lemma query_generate_failed (b : clean_body) (ma : value)
      (tr1 tr2 tr3 : list event) (raw : schedule) (p : processed)
      (err : js_error) :
  run (analyze (c_question b) (c_airport b)) = (Ok ma, tr1) ->
  skips ma = false ->
  FlightApi.getAirportSchedule w (c_airport b) (dayParam_of b)
    (field ma "mode") tr1 = (Ok raw, tr2) ->
  no_flights raw = false ->
  FlightApi.processFlightData raw = Ok p ->
  generate (c_question b) p (c_airport b) (field ma "mode") ma
    (tr2 ++ [CallAggregator])%list = (Throw err, tr3) ->
  run (handler b) = (Ok (error_response w b err), tr3).
Proof.
  unfold handler, generate, analyze, query, run. intros H Hs Hf Hn Hp Hg.
  pose proof (LlmFacts.analyze_mode_printable w JSON_parse analysisPrompt
                _ _ _ _ _ H) as Hpr.
  unfold bind at 1, try_catch. rewrite H, Hs.
  unfold bind at 1, lift. rewrite template_one, Hpr.
  unfold bind at 1. rewrite Hf, Hn.
  unfold bind at 1, emit. unfold bind at 1, lift. rewrite Hp.
  unfold bind at 1. rewrite Hg. reflexivity.
Qed.

End Handler.

End RouteFacts.

(* ===================================================================== *)
(** ** The Data Aggregator *)
(* ===================================================================== *)

Module AggregatorFacts.

Import JS FlightApi Spec.

(** *** One [Map] *)

Lemma same_value_zero_eq (a b : value) :
  same_value_zero a b = true -> a = b.
Proof.
  destruct a, b; simpl; try discriminate; try reflexivity; intros H.
  - apply Bool.eqb_prop in H. now subst.
  - apply Z.eqb_eq in H. now subst.
  - apply String.eqb_eq in H. now subst.
Qed.

Lemma group_push_total (k d : value) (m : groups) :
  group_total (group_push k d m) = S (group_total m).
Proof.
  unfold group_total.
  induction m as [|[k' g] r IH]; simpl; [reflexivity|].
  destruct (same_value_zero k' k); simpl.
  - rewrite length_app. simpl. lia.
  - rewrite IH. lia.
Qed.

Lemma group_push_names (k d : value) (m : groups) (x : string) :
  In x (names (group_push k d m)) -> In x (names m) \/ x = to_string k.
Proof.
  unfold names.
  induction m as [|[k' g] r IH]; simpl.
  - intros [H|[]]; auto.
  - destruct (same_value_zero k' k); simpl; intros [H|H]; auto.
    destruct (IH H); auto.
Qed.

Lemma group_push_string_keyed (k d : value) (m : groups) :
  is_string k = true -> string_keyed m -> string_keyed (group_push k d m).
Proof.
  intros Hk [Hs Hn]. unfold string_keyed, names in *.
  induction m as [|[k' g] r IH]; simpl.
  - split; repeat constructor; auto.
  - inversion Hs as [|? ? Hk' Hs']; subst.
    inversion Hn as [|? ? Hnotin Hn']; subst. simpl in *.
    destruct (same_value_zero k' k) eqn:E; simpl.
    + split; constructor; auto.
    + destruct (IH Hs' Hn') as [IH1 IH2].
      split; constructor; auto.
      intros Hin. apply group_push_names in Hin. destruct Hin as [Hin|Heq].
      * now apply Hnotin.
      * destruct k', k; simpl in *; try discriminate.
        subst. now rewrite String.eqb_refl in E.
Qed.

Lemma group_push_keeps (k d : value) (m : groups) (k0 : value)
      (g0 : list value) :
  In (k0, g0) m ->
  exists g, In (k0, g) (group_push k d m) /\ incl g0 g.
Proof.
  induction m as [|[k' g'] r IH]; simpl; [intros []|].
  intros [H|H].
  - inversion H; subst. destruct (same_value_zero k0 k).
    + exists (g0 ++ [d])%list. split; [now left|]. now apply incl_appl.
    + exists g0. split; [now left|]. apply incl_refl.
  - destruct (IH H) as [g [Hg Hi]].
    destruct (same_value_zero k' k).
    + exists g0. split; [now right|apply incl_refl].
    + exists g. split; [now right|assumption].
Qed.

Lemma group_push_adds (k d : value) (m : groups) :
  exists g, In (k, g) (group_push k d m) /\ In d g.
Proof.
  induction m as [|[k' g'] r IH]; simpl.
  - exists [d]. split; now left.
  - destruct (same_value_zero k' k) eqn:E.
    + apply same_value_zero_eq in E. subst.
      exists (g' ++ [d])%list. split; [now left|].
      apply in_or_app. right. now left.
    + destruct IH as [g [Hg Hd]]. exists g. split; [now right|assumption].
Qed.

(** *** A whole loop over one [Map] *)

Lemma push_all_total (kds : list (value * value)) (m : groups) :
  group_total (push_all kds m) = group_total m + List.length kds.
Proof.
  revert m; induction kds as [|kd kds IH]; intros m; simpl; [lia|].
  unfold push_all in *. rewrite IH, group_push_total. lia.
Qed.

Lemma push_all_string_keyed (kds : list (value * value)) (m : groups) :
  Forall (fun kd => is_string (fst kd) = true) kds ->
  string_keyed m -> string_keyed (push_all kds m).
Proof.
  revert m; induction kds as [|kd kds IH]; intros m Hk Hm; simpl; auto.
  inversion Hk; subst. apply IH; auto.
  now apply group_push_string_keyed.
Qed.

Lemma push_all_keeps (kds : list (value * value)) (m : groups)
      (k0 : value) (g0 : list value) :
  In (k0, g0) m ->
  exists g, In (k0, g) (push_all kds m) /\ incl g0 g.
Proof.
  revert m g0; induction kds as [|kd kds IH]; intros m g0 Hin; simpl.
  - exists g0. split; [assumption|apply incl_refl].
  - destruct (group_push_keeps (fst kd) (snd kd) m k0 g0 Hin) as [g1 [H1 I1]].
    destruct (IH _ _ H1) as [g [H2 I2]].
    exists g. split; [assumption|]. eapply incl_tran; eauto.
Qed.

Lemma push_all_adds (kds : list (value * value)) (m : groups)
      (k d : value) :
  In (k, d) kds ->
  exists g, In (k, g) (push_all kds m) /\ In d g.
Proof.
  revert m; induction kds as [|kd kds IH]; intros m; simpl; [intros []|].
  intros [H|H].
  - subst kd. simpl.
    destruct (group_push_adds k d m) as [g1 [H1 D1]].
    destruct (push_all_keeps kds _ _ _ H1) as [g [H2 I2]].
    exists g. split; [assumption|]. now apply I2.
  - now apply IH.
Qed.

(** *** From the [Map] to the object *)

Lemma set_prop_fresh {A} (k : string) (x : A) (o : list (string * A)) :
  ~ In k (map fst o) -> set_prop k x o = (o ++ [(k, x)])%list.
Proof.
  induction o as [|[k' v] r IH]; simpl; [reflexivity|].
  intros Hn. destruct (String.eqb_spec k k').
  - subst. exfalso. apply Hn. now left.
  - rewrite IH; [reflexivity|]. intros H. apply Hn. now right.
Qed.

Lemma fromEntries_fresh (m : groups) (o : list (string * list value)) :
  NoDup (map fst o ++ names m) ->
  fold_left (fun obj e => set_prop (to_string (fst e)) (snd e) obj) m o
  = (o ++ map as_property m)%list.
Proof.
  revert o; induction m as [|e m IH]; intros o Hn; simpl.
  - now rewrite app_nil_r.
  - simpl in Hn. rewrite set_prop_fresh.
    + rewrite IH.
      * rewrite <- app_assoc. reflexivity.
      * rewrite map_app. simpl. rewrite <- app_assoc. exact Hn.
    + apply NoDup_remove_2 in Hn. intros H. apply Hn.
      apply in_or_app. now left.
Qed.

Lemma fromEntries_string_keyed (m : groups) :
  string_keyed m -> fromEntries m = map as_property m.
Proof.
  intros [_ Hn]. unfold fromEntries.
  now rewrite fromEntries_fresh.
Qed.

Lemma object_total_fromEntries (m : groups) :
  string_keyed m -> object_total (fromEntries m) = group_total m.
Proof.
  intros H. rewrite (fromEntries_string_keyed m H).
  unfold object_total, group_total. now rewrite map_map.
Qed.



(** *** The two loops *)

(** On a list without [null] elements the loop runs to its end. *)
Lemma forEach_spec (side leg : string) (l : list value) (a : acc) :
  Forall (fun r => nullish r = false) l ->
  forEach side leg l a = Ok (loop_result side leg l a).
Proof.
  revert a; induction l as [|r l IH]; intros a Hl.
  - destruct a; reflexivity.
  - inversion Hl as [|? ? Hr Hl']; subst.
    unfold loop_result, country_pushes, city_pushes, airline_adds.
    simpl filter. simpl forEach. unfold visit. rewrite Hr.
    change (truthy (field r "flight")) with (carries_flight r).
    destruct (carries_flight r); simpl; rewrite IH by assumption;
      reflexivity.
Qed.

Lemma forEach_value_spec (what side leg : string) (l : list value) :
  Forall (fun r => nullish r = false) l ->
  forEach_value what side leg (VArr l) = Ok (loop_result side leg l empty_acc).
Proof.
  intros H. simpl. now apply forEach_spec.
Qed.

Lemma pushes_length (side leg : string) (l : list value) :
  List.length (country_pushes side leg l) = flight_count l /\
  List.length (city_pushes side leg l) = flight_count l.
Proof.
  unfold country_pushes, city_pushes, flight_count.
  now rewrite !length_map.
Qed.

Lemma flight_count_all (l : list value) :
  Forall (fun r => carries_flight r = true) l ->
  flight_count l = List.length l.
Proof.
  unfold flight_count. induction l as [|r l IH]; intros H; [reflexivity|].
  inversion H as [|? ? Hr Hl]; subst. simpl. rewrite Hr. simpl.
  now rewrite IH.
Qed.

Lemma pushes_string_keys (side leg : string) (l : list value) :
  Forall (keys_are_strings side) l ->
  Forall (fun kd => is_string (fst kd) = true) (country_pushes side leg l) /\
  Forall (fun kd => is_string (fst kd) = true) (city_pushes side leg l).
Proof.
  unfold country_pushes, city_pushes.
  induction l as [|r l IH]; intros H; simpl; [split; constructor|].
  inversion H as [|? ? Hr Hl]; subst.
  destruct (IH Hl) as [IH1 IH2].
  destruct (carries_flight r) eqn:E; simpl; [|now split].
  destruct (Hr E) as [H1 H2]. split; constructor; assumption.
Qed.

Lemma string_keyed_nil : string_keyed [].
Proof. split; constructor. Qed.

Lemma set_add_in (x : value) (s : list value) : In x (set_add x s).
Proof.
  induction s as [|y r IH]; simpl; [now left|].
  destruct (same_value_zero y x) eqn:E.
  - apply same_value_zero_eq in E. subst. now left.
  - now right.
Qed.

Lemma set_add_keeps (x y : value) (s : list value) :
  In y s -> In y (set_add x s).
Proof.
  induction s as [|z r IH]; simpl; [intros []|].
  destruct (same_value_zero z x); simpl; intuition.
Qed.

Lemma add_all_keeps (xs s : list value) (y : value) :
  In y s -> In y (add_all xs s).
Proof.
  revert s; induction xs as [|x xs IH]; intros s H; simpl; auto.
  apply IH. now apply set_add_keeps.
Qed.

Lemma add_all_in (xs s : list value) (x : value) :
  In x xs -> In x (add_all xs s).
Proof.
  revert s; induction xs as [|z xs IH]; intros s; simpl; [intros []|].
  intros [H|H].
  - subst. apply add_all_keeps. apply set_add_in.
  - now apply IH.
Qed.

(** *** One direction of the result *)

Lemma loop_string_keyed (side leg : string) (l : list value) :
  Forall (keys_are_strings side) l ->
  string_keyed (countryMap (loop_result side leg l empty_acc)) /\
  string_keyed (cityMap (loop_result side leg l empty_acc)).
Proof.
  intros H. destruct (pushes_string_keys side leg l H) as [H1 H2].
  split; simpl; apply push_all_string_keyed;
    auto using string_keyed_nil.
Qed.

Lemma direction_totals (side leg : string) (l : list value) :
  Forall (keys_are_strings side) l ->
  object_total (byCountry (direction_result side leg l)) = flight_count l /\
  object_total (byCity (direction_result side leg l)) = flight_count l.
Proof.
  intros H. destruct (loop_string_keyed side leg l H) as [H1 H2].
  destruct (pushes_length side leg l) as [L1 L2].
  unfold direction_result, direction_of; simpl byCountry; simpl byCity.
  rewrite !object_total_fromEntries by assumption.
  simpl. rewrite !push_all_total, L1, L2. split; reflexivity.
Qed.



(** *** The keys as property names *)

Lemma group_push_keys (P : value -> Prop) (k d : value) (m : groups) :
  P k -> Forall (fun e => P (fst e)) m ->
  Forall (fun e => P (fst e)) (group_push k d m).
Proof.
  intros Hk. induction m as [|[k' g] r IH]; intros H; simpl.
  - constructor; [exact Hk|constructor].
  - inversion H; subst. destruct (same_value_zero k' k).
    + constructor; assumption.
    + constructor; [assumption|]. now apply IH.
Qed.

Lemma push_all_keys (P : value -> Prop) (kds : list (value * value))
      (m : groups) :
  Forall (fun kd => P (fst kd)) kds ->
  Forall (fun e => P (fst e)) m ->
  Forall (fun e => P (fst e)) (push_all kds m).
Proof.
  revert m; induction kds as [|kd kds IH]; intros m Hk Hm; simpl; auto.
  inversion Hk; subst. apply IH; auto. now apply group_push_keys.
Qed.

Lemma direction_of_spec (side leg : string) (l : list value) :
  direction_of (loop_result side leg l empty_acc) (List.length l)
  = if keys_pass (loop_result side leg l empty_acc)
    then Ok (direction_result side leg l)
    else Throw TypeError_convert.
Proof.
  unfold direction_of, Object_fromEntries, keys_pass, direction_result.
  destruct (forallb _ (countryMap _)); [|reflexivity].
  destruct (forallb _ (cityMap _)); reflexivity.
Qed.

Lemma keys_pass_iff (side leg : string) (l : list value) :
  keys_pass (loop_result side leg l empty_acc) = true <-> keys_convert side l.
Proof.
  unfold keys_pass, keys_convert. rewrite andb_true_iff, !forallb_forall.
  rewrite Forall_forall. split.
  - intros [Hc Ht] r Hin Hf.
    assert (Hr : In r (filter carries_flight l))
      by (apply filter_In; now split).
    split.
    + destruct (push_all_adds (country_pushes side leg l) []
                  (country_of (counterpart side (field r "flight")))
                  (country_detail side leg (field r "flight")))
        as [g [Hg _]].
      { unfold country_pushes.
        now apply (in_map (fun r => (country_of (counterpart side (field r "flight")),
                                     country_detail side leg (field r "flight")))) in Hr. }
      exact (Hc _ Hg).
    + destruct (push_all_adds (city_pushes side leg l) []
                  (city_of (counterpart side (field r "flight")))
                  (city_detail side leg (field r "flight")))
        as [g [Hg _]].
      { unfold city_pushes.
        now apply (in_map (fun r => (city_of (counterpart side (field r "flight")),
                                     city_detail side leg (field r "flight")))) in Hr. }
      exact (Ht _ Hg).
  - intros H.
    assert (Hc : Forall (fun e => printable (fst e) = true)
                        (countryMap (loop_result side leg l empty_acc))).
    { simpl. apply (push_all_keys (fun k => printable k = true));
        [|constructor].
      unfold country_pushes. rewrite Forall_map, Forall_forall.
      intros r Hr. apply filter_In in Hr. destruct Hr as [Hin Hf].
      now apply (H r Hin Hf). }
    assert (Ht : Forall (fun e => printable (fst e) = true)
                        (cityMap (loop_result side leg l empty_acc))).
    { simpl. apply (push_all_keys (fun k => printable k = true));
        [|constructor].
      unfold city_pushes. rewrite Forall_map, Forall_forall.
      intros r Hr. apply filter_In in Hr. destruct Hr as [Hin Hf].
      now apply (H r Hin Hf). }
    rewrite Forall_forall in Hc, Ht. split; assumption.
Qed.

Lemma string_printable (v : value) : is_string v = true -> printable v = true.
Proof. destruct v; simpl; congruence. Qed.

Lemma strings_convert (side : string) (l : list value) :
  Forall (keys_are_strings side) l -> keys_convert side l.
Proof.
  unfold keys_convert. apply Forall_impl. intros r H Hf.
  destruct (H Hf) as [H1 H2]. split; now apply string_printable.
Qed.

(** The whole of [processFlightData] on two lists without [null]
    elements, whose keys can be property names. *)
Lemma processFlightData_lists (fd : schedule) (la ld : list value) :
  s_arrivals fd = VArr la -> s_departures fd = VArr ld ->
  Forall (fun r => nullish r = false) la ->
  Forall (fun r => nullish r = false) ld ->
  keys_convert "origin" la ->
  keys_convert "destination" ld ->
  exists p,
    processFlightData fd = Ok p /\
    p_arrivals p = direction_result "origin" "departure" la /\
    p_departures p = direction_result "destination" "arrival" ld.
Proof.
  intros Ha Hd Na Nd Ka Kd. unfold processFlightData.
  rewrite Ha, Hd, !forEach_value_spec by assumption. simpl rbind.
  simpl items_of. rewrite !direction_of_spec.
  apply (keys_pass_iff "origin" "departure") in Ka.
  apply (keys_pass_iff "destination" "arrival") in Kd. rewrite Ka, Kd.
  eexists. split; [reflexivity|]. split; reflexivity.
Qed.

(** On such lists, unless a key cannot be a property name. *)
Lemma processFlightData_keys (fd : schedule) (la ld : list value) :
  s_arrivals fd = VArr la -> s_departures fd = VArr ld ->
  Forall (fun r => nullish r = false) la ->
  Forall (fun r => nullish r = false) ld ->
  (exists p, processFlightData fd = Ok p) ->
  keys_convert "origin" la /\ keys_convert "destination" ld.
Proof.
  intros Ha Hd Na Nd [p H]. unfold processFlightData in H.
  rewrite Ha, Hd, !forEach_value_spec in H by assumption. simpl rbind in H.
  simpl items_of in H. rewrite !direction_of_spec in H.
  destruct (keys_pass (loop_result "origin" "departure" la empty_acc)) eqn:Ka;
    [|discriminate H].
  destruct (keys_pass (loop_result "destination" "arrival" ld empty_acc))
    eqn:Kd; [|discriminate H].
  split; [apply (keys_pass_iff "origin" "departure")
         |apply (keys_pass_iff "destination" "arrival")]; assumption.
Qed.

(** *** The fallback chains *)


Lemma truthy_not_nullish (v : value) : truthy v = true -> nullish v = false.
Proof. destruct v; simpl; congruence. Qed.






End AggregatorFacts.

(* ===================================================================== *)
(** ** Request validation *)
(* ===================================================================== *)

Module ValidationFacts.

Import JS Str StrFacts Route Spec.

Lemma validAirports_upper (c : string) :
  In c FlightApi.validAirports -> toUpperCase c = c.
Proof.
  simpl. intros H.
  repeat (destruct H as [H|H]; [subst; reflexivity|]). destruct H.
Qed.

Lemma isValidAirportCode_supported (s : string) :
  FlightApi.isValidAirportCode s = true <-> supported s.
Proof.
  unfold FlightApi.isValidAirportCode, supported, same_ignoring_case.
  rewrite existsb_exists. split; intros [c [Hin Hc]]; exists c; split; auto.
  - apply String.eqb_eq in Hc. rewrite <- Hc. now rewrite lower_upper.
  - apply String.eqb_eq.
    rewrite <- (upper_lower s), Hc, upper_lower.
    now apply validAirports_upper.
Qed.

Lemma isValidAirportCode_unsupported (s : string) :
  FlightApi.isValidAirportCode s = false <-> ~ supported s.
Proof.
  rewrite <- isValidAirportCode_supported.
  destruct (FlightApi.isValidAirportCode s); intuition congruence.
Qed.

Lemma truthy_string (s : string) : s <> "" -> truthy (VStr s) = true.
Proof.
  intros H. simpl. destruct (String.eqb_spec s ""); [contradiction|reflexivity].
Qed.

(** The airport that reaches the handler is one of the six codes. *)
Lemma validated_airport (Number_ : value -> result (option Z))
      (b : request_body) (cb : clean_body) :
  validateQueryRequest Number_ b = Ok (inr cb) ->
  In (c_airport cb) FlightApi.validAirports.
Proof.
  unfold validateQueryRequest, invalid_day.
  destruct (negb (truthy (airport b)) || negb (is_string (airport b)));
    [discriminate|].
  destruct (FlightApi.isValidAirportCode (string_of (airport b))) eqn:Hv;
    [|discriminate]. simpl.
  destruct (Number_ (date b)) as [n|e];
    repeat match goal with
           | |- context [if ?c then _ else _] =>
               destruct c; simpl; try discriminate
           end.
  all: intros H; inversion H; subst; clear H; simpl.
  all: unfold FlightApi.isValidAirportCode in Hv.
  all: apply existsb_exists in Hv; destruct Hv as [c [Hin Hc]].
  all: apply String.eqb_eq in Hc; rewrite Hc.
  all: simpl in Hin.
  all: repeat (destruct Hin as [Hin|Hin]; [subst c; simpl; tauto|]);
    destruct Hin.
Qed.

(** [isValidQuestion] on a non-empty string, in words. *)
Lemma isValidQuestion_string (q : string) :
  q <> "" ->
  (Llm.isValidQuestion (VStr q) = true <->
   (5 <= String.length (trim q) <= 500)%nat /\
   (any_occurs Llm.questionWords (toLowerCase (trim q))
    \/ occurs "?" (trim q))).
Proof.
  intros Hq. unfold Llm.isValidQuestion.
  destruct (String.eqb_spec q ""); [contradiction|].
  destruct (Nat.ltb_spec (String.length (trim q)) 5).
  - split; [discriminate|]. intros [[H1 _] _]. lia.
  - destruct (Nat.ltb_spec 500 (String.length (trim q))).
    + split; [discriminate|]. intros [[_ H1] _]. lia.
    + rewrite orb_true_iff, existsb_includes, includes_occurs.
      split; [intros Hor; split; [lia|assumption] | tauto].
Qed.

End ValidationFacts.

(* ===================================================================== *)
(** ** Error mapping *)
(* ===================================================================== *)

Module ErrorFacts.

Import JS Str StrFacts Route Spec.

Lemma answers_intro (w : world) (b : clean_body) (err : js_error)
      (st : Z) (code : string) :
  classify_error (e_message err) = (st, code) -> answers w b err st code.
Proof.
  intros H. unfold answers, error_response. cbn zeta. simpl status.
  simpl body. rewrite H. repeat split; reflexivity.
Qed.

(** An error without any of the four phrases that the handler looks for
    is an internal error. *)
Lemma classify_error_other (message : string) :
  ~ occurs "Invalid FlightAPI key" message ->
  ~ occurs "rate limit" message ->
  ~ occurs "timeout" message ->
  ~ occurs "Invalid OpenRouter" message ->
  classify_error message = (500%Z, "INTERNAL_ERROR").
Proof.
  intros H1 H2 H3 H4. unfold classify_error.
  apply includes_false in H1, H2, H3, H4.
  now rewrite H1, H2, H3, H4.
Qed.

(** The [catch] clause never answers 404. *)
Lemma error_response_not_404 (w : world) (b : clean_body) (err : js_error) :
  status (error_response w b err) <> 404%Z.
Proof.
  unfold error_response, classify_error. simpl.
  repeat match goal with
         | |- context [if ?c then _ else _] => destruct c
         end; simpl; discriminate.
Qed.

Lemma status_is_some (e : js_error) (n : Z) :
  e_status e = Some n -> FlightApi.status_is e n = true.
Proof.
  intros H. unfold FlightApi.status_is. rewrite H. apply Z.eqb_refl.
Qed.

Lemma status_is_other (e : js_error) (n m : Z) :
  e_status e = Some n -> n <> m -> FlightApi.status_is e m = false.
Proof.
  intros H Hne. unfold FlightApi.status_is. rewrite H.
  now apply Z.eqb_neq.
Qed.

Lemma status_is_not (e : js_error) (n : Z) :
  e_status e <> Some n -> FlightApi.status_is e n = false.
Proof.
  intros H. unfold FlightApi.status_is.
  destruct (e_status e) as [m|]; [|reflexivity].
  destruct (Z.eqb_spec m n); [subst; congruence|reflexivity].
Qed.

(** Whatever [getAirportSchedule] throws was made by its [catch]
    clause. *)
Lemma fetcher_throws_fetch_error (w : world) (code : string) (day : Z)
      (mode : value) (tr tr' : list event) (err : js_error) :
  FlightApi.getAirportSchedule w code day mode tr = (Throw err, tr') ->
  exists e, err = FlightApi.fetch_error code e.
Proof.
  unfold FlightApi.getAirportSchedule. unfold_M.
  set (m := match mode with VUndef => VStr "both" | _ => mode end).
  destruct (is_str m "both" || is_str m "arrivals");
    destruct (is_str m "both" || is_str m "departures");
    split_calls;
    intros H; inversion H; subst; clear H; eexists; reflexivity.
Qed.

(** Whatever [generateAnswer] throws was made by its [catch] clause. *)
Lemma generator_throws_llm_error (w : world) (systemPrompt : string)
      (build : string -> processed -> string -> value -> value
               -> result string)
      (question : string) (p : processed) (airport : string)
      (mode ma : value) (tr tr' : list event) (err : js_error) :
  Llm.generateAnswer w systemPrompt build question p airport mode ma tr
  = (Throw err, tr') ->
  exists e, err = Llm.llm_error e.
Proof.
  unfold Llm.generateAnswer. unfold_M.
  destruct (build question p airport mode ma) as [prompt|e0];
    [|intros H; inversion H; eexists; reflexivity].
  destruct (llm_post w _) as [data|e0];
    [|intros H; inversion H; eexists; reflexivity].
  destruct (Llm.content_of data) as [answer|e0];
    [|intros H; inversion H; eexists; reflexivity].
  destruct (truthy answer); simpl;
    [|intros H; inversion H; eexists; reflexivity].
  destruct answer; intros H; inversion H; eexists; reflexivity.
Qed.

End ErrorFacts.

(* ===================================================================== *)
(** ** The Data Aggregator: outcome and summary *)
(* ===================================================================== *)

Module SummaryFacts.

Import JS FlightApi Spec AggregatorFacts.

(** *** When the loops run to their end *)

Lemma forEach_ok_inv (side leg : string) (l : list value) (a a' : acc) :
  forEach side leg l a = Ok a' -> Forall (fun r => nullish r = false) l.
Proof.
  revert a; induction l as [|r l IH]; intros a H; [constructor|].
  simpl in H. unfold visit in H.
  destruct (nullish r) eqn:Hr; [discriminate H|].
  constructor; [exact Hr|].
  destruct (truthy (field r "flight")); simpl in H; eapply IH; exact H.
Qed.

Lemma forEach_value_ok_inv (what side leg : string) (v : value) (a : acc) :
  forEach_value what side leg v = Ok a ->
  exists l, v = VArr l /\ Forall (fun r => nullish r = false) l.
Proof.
  destruct v; simpl; try discriminate.
  intros H. exists items. split; [reflexivity|].
  eapply forEach_ok_inv; exact H.
Qed.

Lemma processFlightData_ok_inv (fd : schedule) (p : processed) :
  processFlightData fd = Ok p ->
  exists la ld,
    s_arrivals fd = VArr la /\ s_departures fd = VArr ld /\
    Forall (fun r => nullish r = false) la /\
    Forall (fun r => nullish r = false) ld.
Proof.
  unfold processFlightData. intros H.
  destruct (forEach_value "arrivals" "origin" "departure" (s_arrivals fd))
    as [arr|e] eqn:Ea; [|discriminate H].
  destruct (forEach_value "departures" "destination" "arrival"
              (s_departures fd)) as [dep|e] eqn:Ed; [|discriminate H].
  destruct (forEach_value_ok_inv _ _ _ _ _ Ea) as [la [Ha Na]].
  destruct (forEach_value_ok_inv _ _ _ _ _ Ed) as [ld [Hd Nd]].
  exists la, ld. auto.
Qed.

(** The result, once the two lists are known. *)
Lemma processFlightData_ok (fd : schedule) (p : processed) :
  processFlightData fd = Ok p ->
  exists la ld,
    s_arrivals fd = VArr la /\ s_departures fd = VArr ld /\
    p_arrivals p = direction_result "origin" "departure" la /\
    p_departures p = direction_result "destination" "arrival" ld /\
    p_summary p =
    {| totalArrivals := List.length la;
       totalDepartures := List.length ld;
       arrivalCountries :=
         List.length (countryMap (loop_result "origin" "departure" la empty_acc));
       departureCountries :=
         List.length
           (countryMap (loop_result "destination" "arrival" ld empty_acc));
       arrivalCities :=
         List.length (cityMap (loop_result "origin" "departure" la empty_acc));
       departureCities :=
         List.length
           (cityMap (loop_result "destination" "arrival" ld empty_acc));
       uniqueAirlines :=
         List.length
           (add_all (airlines (direction_result "origin" "departure" la)
                     ++ airlines (direction_result "destination" "arrival" ld))
                    []) |}.
Proof.
  intros H.
  destruct (processFlightData_ok_inv fd p H) as (la & ld & Ha & Hd & Na & Nd).
  exists la, ld. split; [exact Ha|]. split; [exact Hd|].
  unfold processFlightData in H.
  rewrite Ha, Hd, !forEach_value_spec in H by assumption.
  simpl rbind in H. simpl items_of in H. rewrite !direction_of_spec in H.
  destruct (keys_pass (loop_result "origin" "departure" la empty_acc));
    [|discriminate H].
  destruct (keys_pass (loop_result "destination" "arrival" ld empty_acc));
    [|discriminate H].
  simpl rbind in H. inversion H; subst p; clear H.
  repeat split.
Qed.

(** *** Groups are never empty *)

Lemma group_push_nonempty (k d : value) (m : groups) :
  Forall (fun e => snd e <> []) m ->
  Forall (fun e => snd e <> []) (group_push k d m).
Proof.
  induction m as [|[k' g] r IH]; intros H; simpl.
  - repeat constructor. discriminate.
  - inversion H; subst.
    destruct (same_value_zero k' k); constructor; auto.
    simpl. destruct g; discriminate.
Qed.

Lemma push_all_nonempty (kds : list (value * value)) (m : groups) :
  Forall (fun e => snd e <> []) m ->
  Forall (fun e => snd e <> []) (push_all kds m).
Proof.
  revert m; induction kds as [|kd kds IH]; intros m H; simpl; auto.
  apply IH. now apply group_push_nonempty.
Qed.

Lemma set_prop_values {A} (P : A -> Prop) (k : string) (x : A)
      (o : list (string * A)) :
  P x -> Forall (fun e => P (snd e)) o ->
  Forall (fun e => P (snd e)) (set_prop k x o).
Proof.
  intros Hx. induction o as [|[k' v] r IH]; intros H; simpl.
  - repeat constructor. exact Hx.
  - inversion H; subst.
    destruct (String.eqb k k'); constructor; auto.
Qed.

Lemma fold_set_prop_values (P : list value -> Prop) (m : groups)
      (o : list (string * list value)) :
  Forall (fun e => P (snd e)) m -> Forall (fun e => P (snd e)) o ->
  Forall (fun e => P (snd e))
         (fold_left (fun obj e => set_prop (to_string (fst e)) (snd e) obj) m o).
Proof.
  revert o; induction m as [|e m IH]; intros o Hm Ho; simpl; auto.
  inversion Hm; subst. apply IH; auto. now apply set_prop_values.
Qed.

Lemma fromEntries_values (P : list value -> Prop) (m : groups) :
  Forall (fun e => P (snd e)) m ->
  Forall (fun e => P (snd e)) (fromEntries m).
Proof.
  intros H. unfold fromEntries. apply fold_set_prop_values; auto.
Qed.

(** *** Sizes *)

Lemma set_prop_length {A} (k : string) (x : A) (o : list (string * A)) :
  List.length (set_prop k x o) <= S (List.length o).
Proof.
  induction o as [|[k' v] r IH]; simpl; [lia|].
  destruct (String.eqb k k'); simpl; lia.
Qed.

Lemma fold_set_prop_length (m : groups) (o : list (string * list value)) :
  List.length
    (fold_left (fun obj e => set_prop (to_string (fst e)) (snd e) obj) m o)
  <= List.length o + List.length m.
Proof.
  revert o; induction m as [|e m IH]; intros o; simpl; [lia|].
  specialize (IH (set_prop (to_string (fst e)) (snd e) o)).
  pose proof (set_prop_length (to_string (fst e)) (snd e) o). lia.
Qed.

Lemma fromEntries_length (m : groups) :
  List.length (fromEntries m) <= List.length m.
Proof.
  unfold fromEntries. pose proof (fold_set_prop_length m []). simpl in *. lia.
Qed.

Lemma nonempty_length_total (m : groups) :
  Forall (fun e => snd e <> []) m -> List.length m <= group_total m.
Proof.
  unfold group_total. induction m as [|[k g] r IH]; intros H; simpl; [lia|].
  inversion H; subst. simpl in *. specialize (IH H3).
  destruct g; [congruence|]. simpl. lia.
Qed.

Lemma flight_count_le (l : list value) : flight_count l <= List.length l.
Proof. unfold flight_count. apply filter_length_le. Qed.

Lemma loop_sizes (side leg : string) (l : list value) :
  List.length (countryMap (loop_result side leg l empty_acc)) <= flight_count l
  /\ List.length (cityMap (loop_result side leg l empty_acc)) <= flight_count l.
Proof.
  destruct (pushes_length side leg l) as [L1 L2]. simpl. split.
  - pose proof (nonempty_length_total _
                  (push_all_nonempty (country_pushes side leg l) []
                                     (Forall_nil _))) as H.
    rewrite push_all_total, L1 in H. exact H.
  - pose proof (nonempty_length_total _
                  (push_all_nonempty (city_pushes side leg l) []
                                     (Forall_nil _))) as H.
    rewrite push_all_total, L2 in H. exact H.
Qed.

(** *** Property names *)

Lemma set_prop_keys {A} (k k0 : string) (x : A) (o : list (string * A)) :
  In k0 (map fst (set_prop k x o)) -> k0 = k \/ In k0 (map fst o).
Proof.
  induction o as [|[k' v] r IH]; simpl.
  - intros [H|[]]; auto.
  - destruct (String.eqb_spec k k'); simpl; intros [H|H]; subst; auto.
    destruct (IH H); auto.
Qed.

Lemma set_prop_NoDup {A} (k : string) (x : A) (o : list (string * A)) :
  NoDup (map fst o) -> NoDup (map fst (set_prop k x o)).
Proof.
  induction o as [|[k' v] r IH]; intros H; simpl.
  - repeat constructor. intros [].
  - inversion H; subst.
    destruct (String.eqb_spec k k'); simpl.
    + subst. constructor; assumption.
    + constructor; [|now apply IH].
      intros Hin. apply set_prop_keys in Hin. destruct Hin; [congruence|auto].
Qed.

Lemma fold_set_prop_NoDup (m : groups) (o : list (string * list value)) :
  NoDup (map fst o) ->
  NoDup (map fst
           (fold_left (fun obj e => set_prop (to_string (fst e)) (snd e) obj)
                      m o)).
Proof.
  revert o; induction m as [|e m IH]; intros o H; simpl; auto.
  apply IH. now apply set_prop_NoDup.
Qed.

Lemma fromEntries_NoDup (m : groups) : NoDup (map fst (fromEntries m)).
Proof. unfold fromEntries. apply fold_set_prop_NoDup. constructor. Qed.

Lemma group_push_names_eq (k d : value) (m : groups) :
  is_string k = true ->
  Forall (fun e => is_string (fst e) = true) m ->
  names (group_push k d m)
  = if existsb (String.eqb (to_string k)) (names m) then names m
    else (names m ++ [to_string k])%list.
Proof.
  intros Hk Hm. unfold names.
  induction m as [|[k' g] r IH]; simpl; [reflexivity|].
  inversion Hm as [|? ? Hk' Hr]; subst. simpl in Hk'.
  destruct k; try discriminate Hk. destruct k'; try discriminate Hk'.
  simpl. rewrite (String.eqb_sym s s0).
  destruct (String.eqb s0 s); simpl; [reflexivity|].
  rewrite (IH Hr). simpl.
  destruct (existsb _ _); reflexivity.
Qed.

Lemma push_all_names (kds : list (value * value)) (m : groups) :
  Forall (fun kd => is_string (fst kd) = true) kds ->
  string_keyed m ->
  names (push_all kds m)
  = (names m ++ first_seen (names m) (map (fun kd => to_string (fst kd)) kds))%list.
Proof.
  revert m; induction kds as [|kd kds IH]; intros m Hk Hm; simpl.
  - now rewrite app_nil_r.
  - inversion Hk as [|? ? Hkd Hkds]; subst.
    change (push_all (kd :: kds) m)
      with (push_all kds (group_push (fst kd) (snd kd) m)).
    rewrite IH; [|assumption|now apply group_push_string_keyed].
    rewrite (group_push_names_eq _ _ _ Hkd (proj1 Hm)).
    destruct (existsb _ (names m)); [reflexivity|].
    now rewrite <- app_assoc.
Qed.

Lemma direction_names (side leg : string) (l : list value) :
  Forall (keys_are_strings side) l ->
  map fst (byCountry (direction_result side leg l))
  = first_seen [] (country_names side l) /\
  map fst (byCity (direction_result side leg l))
  = first_seen [] (city_names side l).
Proof.
  intros H.
  destruct (loop_string_keyed side leg l H) as [H1 H2].
  destruct (pushes_string_keys side leg l H) as [K1 K2].
  unfold direction_result, direction_of; simpl byCountry; simpl byCity.
  rewrite !fromEntries_string_keyed by assumption.
  split.
  - transitivity (names (countryMap (loop_result side leg l empty_acc))).
    + unfold names, as_property. rewrite map_map. reflexivity.
    + simpl. rewrite (push_all_names _ _ K1 string_keyed_nil). simpl.
      unfold country_names, country_pushes. now rewrite map_map.
  - transitivity (names (cityMap (loop_result side leg l empty_acc))).
    + unfold names, as_property. rewrite map_map. reflexivity.
    + simpl. rewrite (push_all_names _ _ K2 string_keyed_nil). simpl.
      unfold city_names, city_pushes. now rewrite map_map.
Qed.

Lemma direction_sizes_string_keyed (side leg : string) (l : list value) :
  Forall (keys_are_strings side) l ->
  List.length (byCountry (direction_result side leg l))
  = List.length (countryMap (loop_result side leg l empty_acc)) /\
  List.length (byCity (direction_result side leg l))
  = List.length (cityMap (loop_result side leg l empty_acc)).
Proof.
  intros H. destruct (loop_string_keyed side leg l H) as [H1 H2].
  unfold direction_result, direction_of; simpl byCountry; simpl byCity.
  rewrite !fromEntries_string_keyed by assumption.
  now rewrite !length_map.
Qed.

End SummaryFacts.

(* ===================================================================== *)
(** ** The Data Aggregator: airlines *)
(* ===================================================================== *)

Module AirlineFacts.

Import JS FlightApi Spec AggregatorFacts.

Lemma same_value_zero_string (x : value) :
  is_string x = true -> same_value_zero x x = true.
Proof.
  destruct x; simpl; try discriminate. intros _. apply String.eqb_refl.
Qed.

Lemma set_add_inv (x y : value) (s : list value) :
  In y (set_add x s) -> y = x \/ In y s.
Proof.
  induction s as [|z r IH]; simpl.
  - intros [H|[]]; auto.
  - destruct (same_value_zero z x); simpl; intros [H|H]; auto.
    destruct (IH H); auto.
Qed.

Lemma set_add_NoDup (x : value) (s : list value) :
  is_string x = true -> NoDup s -> NoDup (set_add x s).
Proof.
  intros Hx. induction s as [|z r IH]; intros H; simpl.
  - repeat constructor. intros [].
  - inversion H; subst.
    destruct (same_value_zero z x) eqn:E; [assumption|].
    constructor; [|now apply IH].
    intros Hin. apply set_add_inv in Hin. destruct Hin as [->|Hin]; auto.
    rewrite (same_value_zero_string x Hx) in E. discriminate.
Qed.

Lemma add_all_inv (xs s : list value) (y : value) :
  In y (add_all xs s) -> In y s \/ In y xs.
Proof.
  revert s; induction xs as [|x xs IH]; intros s; simpl; auto.
  intros H. destruct (IH _ H) as [H1|H1]; auto.
  apply set_add_inv in H1. destruct H1; auto.
Qed.

Lemma add_all_NoDup (xs s : list value) :
  Forall (fun x => is_string x = true) xs -> NoDup s -> NoDup (add_all xs s).
Proof.
  revert s; induction xs as [|x xs IH]; intros s Hx Hs; simpl; auto.
  inversion Hx; subst. apply IH; auto. now apply set_add_NoDup.
Qed.

Lemma add_all_strings (xs s : list value) :
  Forall (fun x => is_string x = true) xs ->
  Forall (fun x => is_string x = true) s ->
  Forall (fun x => is_string x = true) (add_all xs s).
Proof.
  intros Hx Hs. apply Forall_forall. intros y Hy.
  apply add_all_inv in Hy. rewrite Forall_forall in Hx, Hs.
  destruct Hy; auto.
Qed.

(** The airlines of one direction: each airline once. *)
Lemma direction_airlines (side leg : string) (l : list value) :
  airlines_are_strings l ->
  NoDup (airlines (direction_result side leg l)) /\
  Forall (fun x => is_string x = true) (airlines (direction_result side leg l))
  /\ forall x, In x (airlines (direction_result side leg l))
               <-> In x (airline_adds l).
Proof.
  intros H. simpl. split; [|split].
  - apply add_all_NoDup; [exact H|constructor].
  - apply add_all_strings; [exact H|constructor].
  - intros x. split.
    + intros Hin. apply add_all_inv in Hin. destruct Hin as [[]|Hin]; auto.
    + apply add_all_in.
Qed.

(** The size of the union of two sets of airlines. *)
Lemma union_size (a d : list value) :
  NoDup a -> NoDup d ->
  Forall (fun x => is_string x = true) a ->
  Forall (fun x => is_string x = true) d ->
  let u := add_all (a ++ d) [] in
  NoDup u /\
  (forall x, In x u <-> In x a \/ In x d) /\
  Nat.max (List.length a) (List.length d) <= List.length u
  <= List.length a + List.length d.
Proof.
  intros Na Nd Sa Sd u.
  assert (Hu : NoDup u)
    by (apply add_all_NoDup; [apply Forall_app; auto|constructor]).
  assert (Hin : forall x, In x u <-> In x a \/ In x d).
  { intros x. split.
    - intros H. apply add_all_inv in H. destruct H as [[]|H].
      now apply in_app_or.
    - intros H. apply add_all_in. now apply in_or_app. }
  split; [exact Hu|]. split; [exact Hin|]. split.
  - apply Nat.max_lub; apply NoDup_incl_length; auto;
      intros x Hx; apply Hin; auto.
  - rewrite <- length_app. apply NoDup_incl_length; auto.
    intros x Hx. apply in_or_app. now apply Hin.
Qed.

End AirlineFacts.

(* ===================================================================== *)
(** ** The Schedule Fetcher: runs *)
(* ===================================================================== *)

Module FetchRunFacts.

Import JS FlightApi Spec.

(** Reduces the tests on the mode once the mode is known. *)
Ltac split_mode m :=
  destruct (String.eqb_spec m "both") as [->|Nb];
  [|destruct (String.eqb_spec m "arrivals") as [->|Na];
    [|destruct (String.eqb_spec m "departures") as [->|Nd]]].

Lemma flights_in_truthy (dir : string) (raw : value) :
  truthy (flights_in dir raw) = true.
Proof.
  unfold flights_in, or.
  destruct (truthy (opt_field _ "data")) eqn:E; [exact E|reflexivity].
Qed.

(** Every result of the fetcher, whatever the payloads were. *)
Lemma fetched_shape (w : world) (code : string) (day : Z) (mode : value)
      (tr tr' : list event) (s : schedule) :
  getAirportSchedule w code day mode tr = (Ok s, tr') ->
  s_airport s = Str.toUpperCase code /\
  s_dayParam s = valid_day_of day /\
  s_dayLabel s = getDayLabel (valid_day_of day) /\
  s_arrivals s = flights_in "arrivals" (s_rawResult s) /\
  s_departures s = flights_in "departures" (s_rawResult s) /\
  field (s_metadata s) "totalArrivals" = length_of (s_arrivals s) /\
  field (s_metadata s) "totalDepartures" = length_of (s_departures s).
Proof.
  unfold getAirportSchedule. unfold_M.
  set (m := match mode with VUndef => VStr "both" | _ => mode end).
  destruct (is_str m "both" || is_str m "arrivals");
    destruct (is_str m "both" || is_str m "departures");
    split_calls;
    intros H; inversion H; subst; clear H; simpl; repeat split.
Qed.

(** The four kinds of mode. *)
Lemma mode_cases (mode : value) :
  (requested mode = ["arrivals"; "departures"] /\
   (match mode with VUndef => VStr "both" | _ => mode end) = VStr "both") \/
  (requested mode = ["arrivals"] /\ mode = VStr "arrivals") \/
  (requested mode = ["departures"] /\ mode = VStr "departures") \/
  (requested mode = [] /\ unknown_mode mode).
Proof.
  destruct mode; simpl;
    try (right; right; right; split; [reflexivity|];
         repeat split; discriminate);
    try (left; split; reflexivity).
  split_mode s; simpl; auto.
  right; right; right. split; [reflexivity|].
  repeat split; congruence.
Qed.

Ltac split_run :=
  repeat first
    [ rewrite template_mode
    | rewrite template_lengths
    | match goal with
      | |- context [flight_get ?w ?a ?b ?c] =>
          let E := fresh "E" in destruct (flight_get w a b c) eqn:E
      | |- context [if printable ?v && printable ?u then _ else _] =>
          let P := fresh "P" in destruct (printable v && printable u) eqn:P
      | |- context [if printable ?v then _ else _] =>
          let P := fresh "P" in destruct (printable v) eqn:P
      end ].

(** A result of the fetcher comes after every call that the mode asks
    for, each answered, and the mode and the two lengths can be
    printed. *)
Lemma fetch_ok (w : world) (code : string) (day : Z) (mode : value)
      (tr tr' : list event) (s : schedule) :
  getAirportSchedule w code day mode tr = (Ok s, tr') ->
  tr' = (tr ++ CallFetcher code day mode :: schedule_calls code day mode)%list
  /\
  printable mode = true /\
  printable (length_of (s_arrivals s)) = true /\
  printable (length_of (s_departures s)) = true /\
  (forall dir, In dir (requested mode) ->
               flight_get w dir (Str.toUpperCase code) (valid_day_of day)
               = Resolved (field (s_rawResult s) dir)).
Proof.
  unfold schedule_calls, valid_day_of.
  destruct (mode_cases mode) as [[Hr Hm]|[[Hr Hm]|[[Hr Hm]|[Hr Hm]]]];
    rewrite Hr; unfold getAirportSchedule;
    [rewrite Hm| rewrite Hm | rewrite Hm |].
  - unfold_M. simpl. split_run; intros H; inversion H; subst; clear H.
    apply andb_true_iff in P. destruct P as [P1 P2]. simpl.
    rewrite <- !app_assoc. simpl.
    split; [reflexivity|]. split; [destruct mode; try discriminate; reflexivity|].
    split; [exact P1|]. split; [exact P2|].
    intros dir [<-|[<-|[]]]; assumption.
  - unfold_M. simpl. split_run; intros H; inversion H; subst; clear H.
    apply andb_true_iff in P. destruct P as [P1 P2]. simpl.
    rewrite <- !app_assoc. simpl.
    split; [reflexivity|]. split; [reflexivity|].
    split; [exact P1|]. split; [exact P2|].
    intros dir [<-|[]]; assumption.
  - unfold_M. simpl. split_run; intros H; inversion H; subst; clear H.
    apply andb_true_iff in P. destruct P as [P1 P2]. simpl.
    rewrite <- !app_assoc. simpl.
    split; [reflexivity|]. split; [reflexivity|].
    split; [exact P1|]. split; [exact P2|].
    intros dir [<-|[]]; assumption.
  - destruct Hm as (Hu & Ha & Hd & Hb).
    assert (Hm : match mode with VUndef => VStr "both" | _ => mode end = mode)
      by (destruct mode; congruence).
    rewrite Hm. unfold_M.
    rewrite (FetcherFacts.is_str_false _ _ Ha),
            (FetcherFacts.is_str_false _ _ Hd),
            (FetcherFacts.is_str_false _ _ Hb).
    simpl. split_run; intros H; inversion H; subst; clear H. simpl.
    split; [reflexivity|]. split; [reflexivity|].
    split; [reflexivity|]. split; [reflexivity|]. intros dir [].
Qed.

(** A throw of the fetcher comes from the first call that is rejected, or
    from a value that a log line cannot print: the mode, before any call,
    or a length, after the last call.  No call is issued twice. *)
Lemma fetch_throw (w : world) (code : string) (day : Z) (mode : value)
      (tr tr' : list event) (err : js_error) :
  getAirportSchedule w code day mode tr = (Throw err, tr') ->
  exists calls rest,
    tr' = (tr ++ CallFetcher code day mode :: calls)%list /\
    schedule_calls code day mode = (calls ++ rest)%list /\
    ((exists dir e pre,
         calls = (pre ++ [HttpFlight dir (Str.toUpperCase code)
                                     (valid_day_of day)])%list /\
         flight_get w dir (Str.toUpperCase code) (valid_day_of day)
         = Rejected e /\
         err = fetch_error code e)
     \/
     (err = fetch_error code TypeError_convert /\
      ((printable mode = false /\ calls = []) \/
       (printable mode = true /\ rest = [])))).
Proof.
  unfold schedule_calls, valid_day_of.
  destruct (mode_cases mode) as [[Hr Hm]|[[Hr Hm]|[[Hr Hm]|[Hr Hm]]]];
    rewrite Hr; unfold getAirportSchedule;
    [rewrite Hm| rewrite Hm | rewrite Hm |].
  1-3: unfold_M; simpl; split_run; intros H; inversion H; subst; clear H;
    rewrite <- ?app_assoc; simpl;
    eexists; eexists; (split; [reflexivity|]); simpl;
    (split; [reflexivity|]);
    first
      [ left;
        match goal with
        | E : flight_get _ ?dir _ _ = Rejected ?e |- _ =>
            first
              [ exists dir, e, (@nil event);
                split; [reflexivity|split; [exact E|reflexivity]]
              | exists dir, e; eexists (cons _ nil);
                split; [reflexivity|split; [exact E|reflexivity]] ]
        end
      | right; split; [reflexivity|]; right; split;
        [first [reflexivity|destruct mode; try discriminate; reflexivity]
        |reflexivity] ].
  destruct Hm as (Hu & Ha & Hd & Hb).
  assert (Hm : match mode with VUndef => VStr "both" | _ => mode end = mode)
    by (destruct mode; congruence).
  rewrite Hm. unfold_M.
  rewrite (FetcherFacts.is_str_false _ _ Ha),
          (FetcherFacts.is_str_false _ _ Hd),
          (FetcherFacts.is_str_false _ _ Hb).
  simpl. split_run; intros H; inversion H; subst; clear H.
  exists [], []. split; [reflexivity|]. split; [reflexivity|].
  right. split; [reflexivity|]. left. split; reflexivity.
Qed.

End FetchRunFacts.

(* ===================================================================== *)
(** ** The Mode Classifier and the Answer Generator: runs *)
(* ===================================================================== *)

Module LlmRunFacts.

Import JS Str StrFacts Llm Spec.

Section Runs.

Variable w : world.
Variable JSON_parse : string -> option value.
Variable analysisPrompt : string -> string -> string.
Variable systemPrompt : string.
Variable buildSupportUserPrompt :
  string -> processed -> string -> value -> value -> result string.

Let analyze := analyzeQuestionForMode w JSON_parse analysisPrompt.
Let request := analysis_request analysisPrompt.
Let generate := generateAnswer w systemPrompt buildSupportUserPrompt.

Lemma analyze_resolved (question airport : string) (data : value) :
  llm_post w (request question airport) = Resolved data ->
  run (analyze question airport) =
  (Ok match trimmed_content_of data with
      | Ok analysisText =>
          match parse_analysis JSON_parse analysisText with
          | Some analysis => analysis
          | None => keyword_fallback question
          end
      | Throw _ => default_analysis
      end,
   [CallClassifier question airport; HttpLlm (request question airport)]).
Proof.
  intros H. unfold analyze, request, analyzeQuestionForMode in *. unfold_M.
  simpl. rewrite H.
  destruct (trimmed_content_of data) as [text|e]; [|reflexivity].
  destruct (parse_analysis JSON_parse text); reflexivity.
Qed.

Lemma keyword_fallback_not_nullish (question : string) :
  nullish (keyword_fallback question) = false.
Proof.
  unfold keyword_fallback. destruct (negb _); reflexivity.
Qed.

(** The analysis is an object or whatever non-null value the reply parsed
    to; never [null] or [undefined]. *)
Lemma analyze_not_nullish (question airport : string) (r : value)
      (tr : list event) :
  run (analyze question airport) = (Ok r, tr) -> nullish r = false.
Proof.
  pose proof (keyword_fallback_not_nullish question) as Hk.
  unfold analyze, analyzeQuestionForMode. unfold_M. simpl.
  destruct (llm_post w _) as [data|e];
    [|intros H; inversion H; reflexivity].
  destruct (trimmed_content_of data) as [text|e];
    [|intros H; inversion H; reflexivity].
  unfold parse_analysis.
  destruct text as [| |b|n|s|items|props];
    try (intros H; inversion H; subst; exact Hk).
  destruct (JSON_parse (json_text s)) as [analysis|];
    [|intros H; inversion H; subst; exact Hk].
  destruct (nullish analysis) eqn:En;
    [intros H; inversion H; subst; exact Hk|].
  destruct (template _) as [[]|e];
    [|intros H; inversion H; subst; exact Hk].
  destruct (is_false (field analysis "relevant"));
    intros H; inversion H; subst; [reflexivity|exact En].
Qed.

(** The trace of the generator: its entry, then at most one request. *)
Lemma generate_trace (question : string) (p : processed) (airport : string)
      (mode ma : value) (tr tr' : list event) (r : result string) :
  generate question p airport mode ma tr = (r, tr') ->
  tr' = (tr ++ [CallGenerator question airport])%list \/
  exists prompt,
    buildSupportUserPrompt question p airport mode ma = Ok prompt /\
    tr' = (tr ++ [CallGenerator question airport;
                  HttpLlm (answer_request systemPrompt prompt)])%list.
Proof.
  unfold generate, generateAnswer. unfold_M.
  destruct (buildSupportUserPrompt question p airport mode ma)
    as [prompt|e0] eqn:Eb;
    [|intros H; inversion H; left; reflexivity].
  rewrite <- app_assoc. simpl.
  intros H. right. exists prompt. split; [reflexivity|].
  destruct (llm_post w _) as [data|e0]; [|inversion H; reflexivity].
  destruct (content_of data) as [answer|e0]; [|inversion H; reflexivity].
  destruct (truthy answer); simpl in H; [|inversion H; reflexivity].
  destruct answer; inversion H; reflexivity.
Qed.

Lemma generate_resolved (question : string) (p : processed) (airport : string)
      (mode ma : value) (prompt : string) (data : value) :
  buildSupportUserPrompt question p airport mode ma = Ok prompt ->
  llm_post w (answer_request systemPrompt prompt) = Resolved data ->
  run (generate question p airport mode ma) =
  (match content_of data with
   | Ok answer =>
       if truthy answer then
         match answer with
         | VStr s => Ok (trim s)
         | _ => Throw (llm_error (TypeError_call "answer.trim"))
         end
       else Throw (llm_error (Error "No answer generated by LLM"))
   | Throw e => Throw (llm_error e)
   end,
   [CallGenerator question airport;
    HttpLlm (answer_request systemPrompt prompt)]).
Proof.
  intros Hb Hp. unfold generate, generateAnswer. unfold_M. simpl.
  rewrite Hb, Hp.
  destruct (content_of data) as [answer|e0]; [|reflexivity].
  destruct (truthy answer); simpl; [|reflexivity].
  destruct answer; reflexivity.
Qed.

End Runs.

(** *** The text between the braces *)

Lemma upto_last_close_app (body post : string) :
  ~ occurs "}" post ->
  upto_last_close (body ++ "}" ++ post) = Some (body ++ "}").
Proof.
  intros Hpost.
  assert (Hp : upto_last_close post = None).
  { induction post as [|c post IH]; [reflexivity|].
    simpl. rewrite IH.
    - destruct (Ascii.eqb_spec c "}"); [|reflexivity].
      subst. exfalso. apply Hpost. exists "", post. reflexivity.
    - intros [pre [q Hq]]. apply Hpost. exists (String c pre), q.
      simpl. now rewrite Hq. }
  induction body as [|c body IH]; simpl in *.
  - now rewrite Hp.
  - now rewrite IH.
Qed.

Lemma match_braces_none (s : string) :
  ~ occurs "{" s -> match_braces s = None.
Proof.
  induction s as [|c s IH]; intros H; [reflexivity|]. simpl.
  destruct (Ascii.eqb_spec c "{").
  - subst. exfalso. apply H. exists "", s. reflexivity.
  - apply IH. intros [pre [q Hq]]. apply H. exists (String c pre), q.
    simpl. now rewrite Hq.
Qed.

Lemma match_braces_app (pre body post : string) :
  ~ occurs "{" pre -> ~ occurs "}" post ->
  match_braces (pre ++ "{" ++ body ++ "}" ++ post)
  = Some ("{" ++ body ++ "}").
Proof.
  intros Hpre Hpost.
  pose proof (upto_last_close_app body post Hpost) as E. simpl in E.
  induction pre as [|c pre IH]; simpl.
  - now rewrite E.
  - destruct (Ascii.eqb_spec c "{").
    + subst. exfalso. apply Hpre. exists "", pre. reflexivity.
    + apply IH. intros [p [q Hq]]. apply Hpre. exists (String c p), q.
      simpl. now rewrite Hq.
Qed.

End LlmRunFacts.

(* ===================================================================== *)
(** ** sanitizeQuestion *)
(* ===================================================================== *)

Module SanitizeFacts.

Import JS Str Spec.

Lemma substring_0_length (n : nat) (s : string) :
  String.length (String.substring 0 n s) <= n.
Proof.
  revert s; induction n as [|n IH]; intros s.
  - destruct s; simpl; lia.
  - destruct s as [|c s]; simpl; [lia|]. specialize (IH s). lia.
Qed.

Lemma substring_0_chars (P : ascii -> Prop) (n : nat) (s : string) :
  all_chars P s -> all_chars P (String.substring 0 n s).
Proof.
  unfold all_chars. revert s; induction n as [|n IH]; intros s H.
  - destruct s; constructor.
  - destruct s as [|c s]; simpl; [constructor|].
    simpl in H. inversion H; subst. constructor; auto.
Qed.

Lemma filter_chars_passed (p : ascii -> bool) (s : string) :
  all_chars (fun c => p c = true) (filter_chars p s).
Proof.
  unfold all_chars. induction s as [|c s IH]; simpl; [constructor|].
  destruct (p c) eqn:E; simpl; [constructor; assumption|assumption].
Qed.

Lemma filter_chars_keeps (P : ascii -> Prop) (p : ascii -> bool) (s : string) :
  all_chars P s -> all_chars P (filter_chars p s).
Proof.
  unfold all_chars. induction s as [|c s IH]; simpl; intros H; [constructor|].
  inversion H; subst.
  destruct (p c); simpl; [constructor; auto|auto].
Qed.

Lemma collapse_spaces_unfold (c : ascii) (r : string) :
  collapse_spaces (String c r)
  = if is_space c then
      match r with
      | String d _ => if is_space d then collapse_spaces r
                      else String " " (collapse_spaces r)
      | EmptyString => String " " EmptyString
      end
    else String c (collapse_spaces r).
Proof. reflexivity. Qed.

(** After [replace(/\s+/g, ' ')] the only white space left is the
    space. *)
Lemma collapse_spaces_plain (s : string) :
  all_chars (fun c => is_space c = true -> c = " "%char) (collapse_spaces s).
Proof.
  unfold all_chars. induction s as [|c s IH]; [constructor|].
  rewrite collapse_spaces_unfold.
  destruct (is_space c) eqn:Ec.
  - destruct s as [|d s'].
    + repeat constructor.
    + destruct (is_space d); [exact IH|].
      simpl. constructor; [reflexivity|exact IH].
  - simpl. constructor; [congruence|exact IH].
Qed.

Lemma all_chars_and (P Q : ascii -> Prop) (s : string) :
  all_chars P s -> all_chars Q s -> all_chars (fun c => P c /\ Q c) s.
Proof.
  unfold all_chars. intros HP HQ. rewrite Forall_forall in *. auto.
Qed.

Lemma sanitize_plain (q : value) :
  String.length (Llm.sanitizeQuestion q) <= 500 /\
  all_chars plain_char (Llm.sanitizeQuestion q).
Proof.
  unfold Llm.sanitizeQuestion.
  destruct q; try (split; [simpl; lia|constructor]).
  destruct (String.eqb s ""); [split; [simpl; lia|constructor]|].
  unfold take. split; [apply substring_0_length|].
  apply substring_0_chars. unfold plain_char.
  apply all_chars_and.
  - apply filter_chars_passed.
  - apply filter_chars_keeps. apply collapse_spaces_plain.
Qed.

End SanitizeFacts.

(* ===================================================================== *)
(** ** The Query Orchestrator: every run *)
(* ===================================================================== *)

Module HandlerFacts.

Import JS Route Spec.

Lemma is_false_spec (v : value) : is_false v = true <-> v = VBool false.
Proof.
  destruct v as [| |[|]| | | |]; simpl; split; congruence.
Qed.

(** The status chosen by the [catch] clause is one of four. *)
Lemma classify_error_statuses (message : string) :
  In (fst (classify_error message)) [429%Z; 500%Z; 502%Z; 504%Z].
Proof.
  unfold classify_error.
  repeat match goal with
         | |- context [if ?c then _ else _] => destruct c
         end; simpl; tauto.
Qed.

(** The precise trace of the fetcher. *)
Lemma fetch_calls (w : world) (code : string) (day : Z) (mode : value)
      (tr tr' : list event) (r : result schedule) :
  FlightApi.getAirportSchedule w code day mode tr = (r, tr') ->
  exists calls,
    tr' = (tr ++ CallFetcher code day mode :: calls)%list /\
    issued calls (schedule_calls code day mode).
Proof.
  intros H. destruct r as [s|err].
  - destruct (FetchRunFacts.fetch_ok w code day mode tr tr' s H) as [Htr _].
    exists (schedule_calls code day mode). split; [exact Htr|].
    exists []. now rewrite app_nil_r.
  - destruct (FetchRunFacts.fetch_throw w code day mode tr tr' err H)
      as (calls & rest & Htr & Hc & _).
    exists calls. split; [exact Htr|]. exists rest. exact Hc.
Qed.

Section Handler.

Variable w : world.
Variable JSON_parse : string -> option value.
Variable analysisPrompt : string -> string -> string.
Variable systemPrompt : string.
Variable buildSupportUserPrompt :
  string -> processed -> string -> value -> value -> result string.

Let analyze := Llm.analyzeQuestionForMode w JSON_parse analysisPrompt.
Let handler :=
  query w JSON_parse analysisPrompt systemPrompt buildSupportUserPrompt.
Let generate := Llm.generateAnswer w systemPrompt buildSupportUserPrompt.

Lemma query_aggregate_failed (b : clean_body) (ma : value)
      (tr1 tr2 : list event) (raw : schedule) (err : js_error) :
  run (analyze (c_question b) (c_airport b)) = (Ok ma, tr1) ->
  skips ma = false ->
  FlightApi.getAirportSchedule w (c_airport b) (dayParam_of b)
    (field ma "mode") tr1 = (Ok raw, tr2) ->
  no_flights raw = false ->
  FlightApi.processFlightData raw = Throw err ->
  run (handler b) = (Ok (error_response w b err), (tr2 ++ [CallAggregator])%list).
Proof.
  unfold handler, analyze, query, run. intros H Hs Hf Hn Hp.
  pose proof (LlmFacts.analyze_mode_printable w JSON_parse analysisPrompt
                _ _ _ _ _ H) as Hpr.
  unfold bind at 1, try_catch. rewrite H, Hs.
  unfold bind at 1, lift. rewrite template_one, Hpr.
  unfold bind at 1. rewrite Hf, Hn.
  unfold bind at 1, emit. unfold bind at 1, lift. rewrite Hp. reflexivity.
Qed.

Lemma query_answered (b : clean_body) (ma : value)
      (tr1 tr2 tr3 : list event) (raw : schedule) (p : processed)
      (answer : string) :
  run (analyze (c_question b) (c_airport b)) = (Ok ma, tr1) ->
  skips ma = false ->
  FlightApi.getAirportSchedule w (c_airport b) (dayParam_of b)
    (field ma "mode") tr1 = (Ok raw, tr2) ->
  no_flights raw = false ->
  FlightApi.processFlightData raw = Ok p ->
  generate (c_question b) p (c_airport b) (field ma "mode") ma
    (tr2 ++ [CallAggregator])%list = (Ok answer, tr3) ->
  run (handler b) = (Ok (answered_response w b ma p answer), tr3).
Proof.
  unfold handler, generate, analyze, query, run. intros H Hs Hf Hn Hp Hg.
  pose proof (LlmFacts.analyze_mode_printable w JSON_parse analysisPrompt
                _ _ _ _ _ H) as Hpr.
  unfold bind at 1, try_catch. rewrite H, Hs.
  unfold bind at 1, lift. rewrite template_one, Hpr.
  unfold bind at 1. rewrite Hf, Hn.
  unfold bind at 1, emit. unfold bind at 1, lift. rewrite Hp.
  unfold bind at 1. rewrite Hg. reflexivity.
Qed.

(** Every run of the handler, stage by stage. *)
Lemma query_cases (b : clean_body) :
  exists ma tr1,
    run (analyze (c_question b) (c_airport b)) = (Ok ma, tr1) /\
    tr1 = [CallClassifier (c_question b) (c_airport b);
           HttpLlm (Llm.analysis_request analysisPrompt (c_question b)
                                         (c_airport b))] /\
    ((skips ma = true /\
      run (handler b) = (Ok (skipped_response w b ma), tr1))
     \/
     (skips ma = false /\
      exists fr tr2,
        FlightApi.getAirportSchedule w (c_airport b) (dayParam_of b)
          (field ma "mode") tr1 = (fr, tr2) /\
        match fr with
        | Throw e => run (handler b) = (Ok (error_response w b e), tr2)
        | Ok raw =>
            (no_flights raw = true /\
             run (handler b) = (Ok (no_data_response b raw), tr2))
            \/
            (no_flights raw = false /\
             match FlightApi.processFlightData raw with
             | Throw e =>
                 run (handler b)
                 = (Ok (error_response w b e), (tr2 ++ [CallAggregator])%list)
             | Ok p =>
                 exists gr tr3,
                   generate (c_question b) p (c_airport b) (field ma "mode") ma
                     (tr2 ++ [CallAggregator])%list = (gr, tr3) /\
                   match gr with
                   | Throw e =>
                       run (handler b) = (Ok (error_response w b e), tr3)
                   | Ok answer =>
                       run (handler b)
                       = (Ok (answered_response w b ma p answer), tr3)
                   end
             end)
        end)).
Proof.
  destruct (LlmFacts.analyze_returns w JSON_parse analysisPrompt
              (c_question b) (c_airport b) []) as [ma Hma].
  simpl in Hma. fold analyze in Hma.
  change (analyze (c_question b) (c_airport b) [])
    with (run (analyze (c_question b) (c_airport b))) in Hma.
  exists ma. eexists. split; [exact Hma|]. split; [reflexivity|].
  destruct (skips ma) eqn:Hs.
  { left. split; [reflexivity|].
    exact (RouteFacts.query_skipped w JSON_parse analysisPrompt systemPrompt
             buildSupportUserPrompt b ma _ Hma Hs). }
  right. split; [reflexivity|].
  destruct (FlightApi.getAirportSchedule w (c_airport b) (dayParam_of b)
              (field ma "mode") _) as [fr tr2] eqn:Hf.
  exists fr, tr2. split; [reflexivity|].
  destruct fr as [raw|e].
  2:{ exact (RouteFacts.query_fetch_failed w JSON_parse analysisPrompt
               systemPrompt buildSupportUserPrompt b ma _ tr2 e Hma Hs Hf). }
  destruct (no_flights raw) eqn:Hn.
  { left. split; [reflexivity|].
    exact (RouteFacts.query_no_data w JSON_parse analysisPrompt systemPrompt
             buildSupportUserPrompt b ma _ tr2 raw Hma Hs Hf Hn). }
  right. split; [reflexivity|].
  destruct (FlightApi.processFlightData raw) as [p|e] eqn:Hp.
  2:{ exact (query_aggregate_failed b ma _ tr2 raw e Hma Hs Hf Hn Hp). }
  destruct (generate (c_question b) p (c_airport b) (field ma "mode") ma
              (tr2 ++ [CallAggregator])%list) as [gr tr3] eqn:Hg.
  exists gr, tr3. split; [reflexivity|].
  destruct gr as [answer|e].
  - exact (query_answered b ma _ tr2 tr3 raw p answer Hma Hs Hf Hn Hp Hg).
  - exact (RouteFacts.query_generate_failed w JSON_parse analysisPrompt
             systemPrompt buildSupportUserPrompt b ma _ tr2 tr3 raw p e
             Hma Hs Hf Hn Hp Hg).
Qed.

End Handler.

(** What [processFlightData] throws is answered with 500. *)
Lemma aggregation_error_is_internal (fd : schedule) (e : js_error) :
  FlightApi.processFlightData fd = Throw e ->
  classify_error (e_message e) = (500%Z, "INTERNAL_ERROR").
Proof.
  assert (Hloop : forall side leg l a e0,
             FlightApi.forEach side leg l a = Throw e0 ->
             classify_error (e_message e0) = (500%Z, "INTERNAL_ERROR")).
  { intros side leg l. induction l as [|r l IH]; intros a e0 H;
      [discriminate H|].
    simpl in H. unfold FlightApi.visit in H.
    destruct (nullish r) eqn:Hr.
    - simpl in H. inversion H; subst.
      destruct r; try discriminate Hr; reflexivity.
    - destruct (truthy (field r "flight")); simpl in H; eapply IH; exact H. }
  assert (Hval : forall what side leg v e0,
             (what = "arrivals" \/ what = "departures") ->
             FlightApi.forEach_value what side leg v = Throw e0 ->
             classify_error (e_message e0) = (500%Z, "INTERNAL_ERROR")).
  { intros what side leg v e0 Hw H.
    destruct v; simpl in H;
      try (inversion H; subst; destruct Hw; subst; reflexivity).
    eapply Hloop; exact H. }
  unfold FlightApi.processFlightData. intros H.
  destruct (FlightApi.forEach_value "arrivals" _ _ _) as [arr|e1] eqn:Ea.
  - destruct (FlightApi.forEach_value "departures" _ _ _) as [dep|e2] eqn:Ed.
    + simpl in H.
      unfold FlightApi.direction_of, Object_fromEntries in H.
      repeat match type of H with
             | context [if ?c then _ else _] => destruct c; simpl in H
             end;
        try discriminate H; inversion H; subst; reflexivity.
    + simpl in H. inversion H; subst.
      eapply Hval; [right; reflexivity|exact Ed].
  - simpl in H. inversion H; subst. eapply Hval; [left; reflexivity|exact Ea].
Qed.

(** *** The middleware *)

Lemma validated_body (Number_ : value -> result (option Z))
      (b : request_body) (cb : clean_body) :
  Number_ VNull = Ok (Some 0%Z) -> Number_ VUndef = Ok None ->
  validateQueryRequest Number_ b = Ok (inr cb) ->
  exists code q,
    airport b = VStr code /\ question b = VStr q /\
    FlightApi.isValidAirportCode code = true /\
    Llm.isValidQuestion (VStr q) = true /\
    c_airport cb = Str.trim (Str.toUpperCase code) /\
    c_question cb = Llm.sanitizeQuestion (VStr q) /\
    In (dayParam_of cb) [(-1)%Z; 1%Z; 2%Z] /\
    (nullish (date b) = true -> dayParam_of cb = 1%Z) /\
    (nullish (date b) = false ->
     Number_ (date b) = Ok (Some (dayParam_of cb))).
Proof.
  intros Hnull Hundef. unfold validateQueryRequest.
  destruct (negb (truthy (airport b)) || negb (is_string (airport b))) eqn:E1;
    [discriminate|].
  apply orb_false_elim in E1. destruct E1 as [_ E1].
  apply negb_false_iff in E1.
  destruct (airport b) as [| | | |code| |] eqn:Ha; try discriminate E1.
  cbn [string_of].
  destruct (FlightApi.isValidAirportCode code) eqn:Hv; [|discriminate].
  cbn [negb].
  destruct (negb (truthy (question b)) || negb (is_string (question b)))
           eqn:E2; [discriminate|].
  apply orb_false_elim in E2. destruct E2 as [_ E2].
  apply negb_false_iff in E2.
  destruct (question b) as [| | | |q| |] eqn:Hq; try discriminate E2.
  destruct (Llm.isValidQuestion (VStr q)) eqn:Hvq; [|discriminate].
  cbn [negb].
  destruct (nullish (date b)) eqn:En.
  - assert (Hd : Number_ (date b) = Ok (Some 0%Z) \/
                 Number_ (date b) = Ok None).
    { destruct (date b); try discriminate En; auto. }
    cbn [rbind].
    destruct Hd as [Hd|Hd]; rewrite Hd; cbn [rbind];
      intros H; inversion H; subst cb; clear H;
      exists code, q; (split; [reflexivity|]); (split; [reflexivity|]);
      (split; [exact Hv|]); (split; [exact Hvq|]);
      (split; [reflexivity|]); (split; [reflexivity|]);
      unfold dayParam_of; cbn [c_date]; simpl;
      (split; [tauto|]); (split; [reflexivity|intros X; discriminate X]).
  - unfold invalid_day.
    destruct (Number_ (date b)) as [n|e]; cbn [rbind]; [|discriminate].
    destruct (valid_day n) eqn:E3; cbn [negb rbind]; [|discriminate].
    intros H. inversion H; subst cb; clear H.
    exists code, q. split; [reflexivity|]. split; [reflexivity|].
    split; [exact Hv|]. split; [exact Hvq|].
    split; [reflexivity|]. split; [reflexivity|].
    unfold dayParam_of. cbn [c_date].
    unfold valid_day in E3.
    destruct n as [d|]; [|discriminate].
    assert (Hd : d = (-1)%Z \/ d = 1%Z \/ d = 2%Z).
    { apply orb_true_iff in E3. destruct E3 as [E3|E3].
      - apply orb_true_iff in E3. destruct E3 as [E3|E3];
          apply Z.eqb_eq in E3; auto.
      - apply Z.eqb_eq in E3; auto. }
    split; [|split; [intros X; discriminate X|]];
      destruct Hd as [-> | [-> | ->]]; simpl; tauto.
Qed.

(** The outcomes of the middleware. *)
Lemma validate_outcomes (Number_ : value -> result (option Z))
      (b : request_body) :
  (exists r, validateQueryRequest Number_ b = Ok (inl r) /\
             status r = 400%Z /\
             exists msg, field (body r) "error" = VStr msg /\ msg <> "") \/
  (exists cb, validateQueryRequest Number_ b = Ok (inr cb)) \/
  (exists e, validateQueryRequest Number_ b = Throw e /\
             Number_ (date b) = Throw e /\
             FlightApi.isValidAirportCode (string_of (airport b)) = true /\
             Llm.isValidQuestion (question b) = true).
Proof.
  unfold validateQueryRequest, invalid_day.
  destruct (negb (truthy (airport b)) || negb (is_string (airport b)));
    [left; eexists; split; [reflexivity|]; split; [reflexivity|];
     eexists; split; [reflexivity|discriminate]|].
  destruct (FlightApi.isValidAirportCode (string_of (airport b))); cbn [negb];
    [|left; eexists; split; [reflexivity|]; split; [reflexivity|];
      eexists; split; [reflexivity|discriminate]].
  destruct (negb (truthy (question b)) || negb (is_string (question b)));
    [left; eexists; split; [reflexivity|]; split; [reflexivity|];
     eexists; split; [reflexivity|discriminate]|].
  destruct (Llm.isValidQuestion (question b)); cbn [negb];
    [|left; eexists; split; [reflexivity|]; split; [reflexivity|];
      eexists; split; [reflexivity|discriminate]].
  destruct (Number_ (date b)) as [n|e] eqn:En.
  - destruct (nullish (date b)); cbn [rbind];
      [right; left; eexists; reflexivity|].
    destruct (valid_day n); cbn [negb rbind].
    + right; left; eexists; reflexivity.
    + left; eexists; split; [reflexivity|]; split; [reflexivity|];
        eexists; split; [reflexivity|discriminate].
  - right. right. exists e.
    destruct (nullish (date b)); cbn [rbind]; repeat split; reflexivity.
Qed.

End HandlerFacts.

(* ===================================================================== *)
(** ** The endpoint *)
(* ===================================================================== *)

Module EndpointFacts.

Import JS Route Spec.

Lemma validate_rejects_400 (Number_ : value -> result (option Z))
      (b : request_body) (r : response) :
  validateQueryRequest Number_ b = Ok (inl r) -> status r = 400%Z.
Proof.
  intros H.
  destruct (HandlerFacts.validate_outcomes Number_ b)
    as [(r' & H' & Hs & _)|[(cb & H')|(e & H' & _)]];
    rewrite H' in H; inversion H; subst; exact Hs.
Qed.

Lemma trim_supported (c : string) :
  In c FlightApi.validAirports -> Str.trim c = c.
Proof.
  simpl. intros H.
  repeat (destruct H as [H|H]; [subst; reflexivity|]). destruct H.
Qed.

Lemma upper_supported (code : string) :
  FlightApi.isValidAirportCode code = true ->
  In (Str.toUpperCase code) FlightApi.validAirports.
Proof.
  unfold FlightApi.isValidAirportCode. intros H.
  apply existsb_exists in H. destruct H as [c [Hin Hc]].
  apply String.eqb_eq in Hc. now rewrite Hc.
Qed.

End EndpointFacts.

(* ===================================================================== *)
(** ** The frontend *)
(* ===================================================================== *)

Module FrontendFacts.

Import JS Route Spec.

Lemma trimEnd_cons (c : ascii) (r : string) :
  Str.trimEnd (String c r)
  = match Str.trimEnd r with
    | EmptyString =>
        if Str.is_space c then EmptyString else String c EmptyString
    | r' => String c r'
    end.
Proof. reflexivity. Qed.

Lemma trimEnd_idem (s : string) : Str.trimEnd (Str.trimEnd s) = Str.trimEnd s.
Proof.
  induction s as [|c r IH]; [reflexivity|].
  rewrite trimEnd_cons. destruct (Str.trimEnd r) as [|d r'] eqn:E.
  - destruct (Str.is_space c) eqn:Hc; [reflexivity|].
    rewrite trimEnd_cons. simpl. now rewrite Hc.
  - rewrite trimEnd_cons, IH. reflexivity.
Qed.

Lemma trimStart_head (s : string) :
  Str.trimStart s = "" \/
  exists c r, Str.trimStart s = String c r /\ Str.is_space c = false.
Proof.
  induction s as [|c r IH]; [left; reflexivity|].
  simpl. destruct (Str.is_space c) eqn:Hc; [exact IH|].
  right. exists c, r. split; [reflexivity|exact Hc].
Qed.

Lemma trimEnd_head (c : ascii) (r : string) :
  Str.is_space c = false ->
  exists r', Str.trimEnd (String c r) = String c r'.
Proof.
  intros Hc. simpl. destruct (Str.trimEnd r) as [|d r'].
  - rewrite Hc. eexists; reflexivity.
  - eexists; reflexivity.
Qed.

Lemma trim_idem (s : string) : Str.trim (Str.trim s) = Str.trim s.
Proof.
  unfold Str.trim.
  destruct (trimStart_head s) as [E|(c & r & E & Hc)]; rewrite E.
  - reflexivity.
  - destruct (trimEnd_head c r Hc) as [r' E'].
    rewrite E'. cbn [Str.trimStart]. rewrite Hc.
    rewrite <- E'. apply trimEnd_idem.
Qed.

Lemma eqb_empty_length (s : string) :
  String.eqb s "" = (String.length s =? 0)%nat.
Proof. destruct s; reflexivity. Qed.

Lemma validateForm_ok (f : form) :
  snd (Frontend.validateForm f) = true <->
  truthy (selectedAirport f) = true /\
  (5 <= String.length (Str.trim (f_question f)) <= 500)%nat.
Proof.
  unfold Frontend.validateForm. cbn [truthy].
  rewrite eqb_empty_length.
  set (n := String.length (Str.trim (f_question f))).
  destruct (truthy (selectedAirport f));
    destruct (Nat.eqb_spec n 0); destruct (Nat.ltb_spec n 5);
    destruct (Nat.ltb_spec 500 n); simpl; split;
    try (intros H; discriminate H); try lia;
    try (intros [H1 H2]; try discriminate H1; lia);
    try (intros _; split; [reflexivity|lia]).
Qed.

Lemma canSubmit_ok (f : form) :
  truthy (Frontend.canSubmit f) = true <->
  truthy (selectedAirport f) = true /\
  (5 <= String.length (Str.trim (f_question f)) <= 500)%nat.
Proof.
  unfold Frontend.canSubmit, Frontend.and.
  set (n := String.length (Str.trim (f_question f))).
  destruct (truthy (selectedAirport f)) eqn:Hs.
  - cbn [truthy].
    destruct (Nat.leb_spec 5 n); cbn [truthy];
      destruct (Nat.leb_spec n 500); cbn [truthy]; split;
      try (intros H'; discriminate H'); try (intros [_ H']; lia);
      try (intros _; split; [reflexivity|lia]).
  - repeat (rewrite Hs; cbn iota).
    split; [intros H; discriminate H|intros [H _]; discriminate H].
Qed.

Lemma validate_rejects (Number_ : value -> result (option Z))
      (b : request_body) (r : response) :
  validateQueryRequest Number_ b = Ok (inl r) ->
  status r = 400%Z /\
  exists msg, field (body r) "error" = VStr msg /\ msg <> "".
Proof.
  intros H.
  destruct (HandlerFacts.validate_outcomes Number_ b)
    as [(r' & H' & Hs & Hm)|[(cb & H')|(e & H' & _)]];
    rewrite H' in H; inversion H; subst; split; assumption.
Qed.

Lemma post_query_sent (w : world) (JSON_parse : string -> option value)
      (analysisPrompt : string -> string -> string) (systemPrompt : string)
      (buildSupportUserPrompt :
         string -> processed -> string -> value -> value -> result string)
      (Number_ : value -> result (option Z)) (b : request_body)
      (resp0 : response) (tr : list event) :
  post_query w JSON_parse analysisPrompt systemPrompt buildSupportUserPrompt
             Number_ b = (Ok resp0, tr) ->
  exists resp, Ok resp0 = Ok resp /\ sent w resp.
Proof.
  unfold post_query.
  destruct (validateQueryRequest Number_ b) as [[r0|cb]|e0] eqn:Hv;
    [| |intros H; discriminate H].
  - intros H. inversion H; subst. exists resp0. split; [reflexivity|].
    destruct (validate_rejects Number_ b resp0 Hv) as [H1 H2].
    now apply sent_rejected.
  - intros H.
    destruct (HandlerFacts.query_cases w JSON_parse analysisPrompt
                systemPrompt buildSupportUserPrompt cb)
      as (ma & tr1 & Hma & Htr1 & [[Hs Hrun]|[Hs Hrest]]).
    + rewrite Hrun in H. inversion H; subst.
      eexists. split; [reflexivity|apply sent_skipped].
    + destruct Hrest as (fr & tr2 & Hf & Hcase).
      destruct fr as [raw|e].
      * destruct Hcase as [[Hn Hrun]|[Hn Hcase]].
        -- rewrite Hrun in H. inversion H; subst.
           eexists. split; [reflexivity|apply sent_no_data].
        -- destruct (FlightApi.processFlightData raw) as [p|e].
           ++ destruct Hcase as (gr & tr3 & Hg & Hcase).
              destruct gr as [answer|e]; rewrite Hcase in H;
                inversion H; subst;
                (eexists; split;
                 [reflexivity|apply sent_answered || apply sent_error]).
           ++ rewrite Hcase in H. inversion H; subst.
              eexists. split; [reflexivity|apply sent_error].
      * rewrite Hcase in H. inversion H; subst.
        eexists. split; [reflexivity|apply sent_error].
Qed.

End FrontendFacts.

(* ===================================================================== *)
(** ** The backend seen from the frontend *)
(* ===================================================================== *)

Module ClientFacts.

Import JS Route Spec.

Lemma length_not_empty (s : string) :
  (5 <= String.length s)%nat -> String.eqb s "" = false.
Proof. destruct s; simpl; [lia|reflexivity]. Qed.

Lemma isValidQuestion_trimmed (q : string) :
  (5 <= String.length (Str.trim q) <= 500)%nat ->
  Llm.isValidQuestion (VStr (Str.trim q)) = asks (Str.trim q).
Proof.
  intros [H1 H2]. unfold Llm.isValidQuestion, asks.
  rewrite FrontendFacts.trim_idem.
  rewrite (length_not_empty _ H1).
  destruct (Nat.ltb_spec (String.length (Str.trim q)) 5); [lia|].
  destruct (Nat.ltb_spec 500 (String.length (Str.trim q))); [lia|].
  reflexivity.
Qed.

Lemma form_airport (code : string) :
  In code (map fst Frontend.airports) ->
  Str.toUpperCase code = code /\
  Str.trim code = code /\
  String.eqb code "" = false /\
  FlightApi.isValidAirportCode code = true.
Proof.
  simpl. intros H.
  repeat (destruct H as [H|H]; [subst; repeat split; reflexivity|]).
  destruct H.
Qed.

Lemma form_date (Number_ : value -> result (option Z)) (v : value) :
  (forall n, Number_ (VNum n) = Ok (Some n)) ->
  date_choice v ->
  exists d,
    or v (VNum 1) = VNum d /\ d = submitted_day v /\
    valid_day (Some d) = true /\ (d =? 0)%Z = false.
Proof.
  intros HN [H|(label & d & Hin & H)]; subst v.
  - exists 1%Z. repeat split; reflexivity.
  - exists d. simpl in Hin.
    repeat (destruct Hin as [Hin|Hin];
            [inversion Hin; subst; repeat split; reflexivity|]).
    destruct Hin.
Qed.

(** What [transformError] makes of the responses of the endpoint. *)
Lemma transform_sent (w : world) (resp : response) :
  sent w resp ->
  status resp <> 200%Z ->
  exists m,
    Frontend.transformError (Some resp) = Ok (Error m) /\ m <> "" /\
    ((200 <=? status resp)%Z && (status resp <? 300)%Z = false) /\
    (status resp = 400%Z \/ status resp = 404%Z ->
     field (body resp) "error" = VStr m) /\
    (status resp = 500%Z ->
     field (body resp) "error" = VStr m \/
     (field (body resp) "error" = VStr "" /\
      m = "Server error. Please try again later.")) /\
    (status resp = 429%Z ->
     m = "Rate limit exceeded. Please try again later.") /\
    (status resp = 502%Z ->
     m = "External service unavailable. Please try again later.") /\
    (status resp = 504%Z -> m = "Request timeout. Please try again.").
Proof.
  intros Hs Hn. destruct Hs as [r H400 [msg [Hmsg Hne]]|cb ma|cb raw|cb ma p a|cb e].
  - exists msg. unfold Frontend.transformError. rewrite H400. cbn [Z.eqb Pos.eqb].
    unfold Frontend.error_or, Frontend.data_error.
    destruct (body r) as [| | | | | |ps] eqn:Hb; try discriminate Hmsg.
    cbn [nullish rbind]. rewrite Hmsg. unfold or. cbn [truthy].
    destruct (String.eqb_spec msg ""); [contradiction|].
    cbn [negb to_string].
    repeat split; try (intros X; discriminate X); auto.
  - exfalso. apply Hn. reflexivity.
  - eexists. split; [reflexivity|].
    split; [intros X; discriminate X|].
    split; [reflexivity|].
    repeat split; try (intros X; discriminate X).
  - exfalso. apply Hn. reflexivity.
  - unfold Frontend.transformError, error_response. cbn [status body].
    unfold classify_error.
    repeat match goal with
           | |- context [if Str.includes ?a ?b then _ else _] =>
               destruct (Str.includes a b)
           end; cbn [fst snd Z.eqb Pos.eqb];
      try (eexists; split; [reflexivity|];
           split; [intros X; discriminate X|];
           split; [reflexivity|];
           repeat split; try (intros X; discriminate X);
           try (intros [X|X]; discriminate X); reflexivity).
    unfold Frontend.error_or, Frontend.data_error.
    cbn [nullish rbind field lookup String.eqb Ascii.eqb Bool.eqb].
    unfold or. cbn [truthy].
    destruct (String.eqb_spec (e_message e) "") as [E|E]; cbn [negb to_string].
    + eexists. split; [reflexivity|].
      split; [intros X; discriminate X|].
      split; [reflexivity|].
      repeat split; try (intros X; discriminate X);
        try (intros [X|X]; discriminate X).
      intros _. right. rewrite E. split; reflexivity.
    + exists (e_message e). split; [reflexivity|].
      split; [exact E|].
      split; [reflexivity|].
      repeat split; try (intros X; discriminate X);
        try (intros [X|X]; discriminate X).
      intros _. left. reflexivity.
Qed.

Lemma served_response (w : world) (JSON_parse : string -> option value)
      (analysisPrompt : string -> string -> string) (systemPrompt : string)
      (buildSupportUserPrompt :
         string -> processed -> string -> value -> value -> result string)
      (Number_ : value -> result (option Z)) (b : request_body)
      (resp : response) (tr : list event) :
  post_query w JSON_parse analysisPrompt systemPrompt buildSupportUserPrompt
             Number_ b = (Ok resp, tr) ->
  served w JSON_parse analysisPrompt systemPrompt buildSupportUserPrompt
         Number_ b = Some resp.
Proof.
  intros H. unfold served. rewrite H. reflexivity.
Qed.

(** Sorting by count: a permutation, in decreasing order. *)
Lemma insert_by_count_perm (x : string * list value)
      (l : list (string * list value)) :
  Permutation (x :: l) (insert_by_count x l).
Proof.
  induction l as [|y r IH]; simpl; [apply Permutation_refl|].
  destruct (List.length (snd y) <=? List.length (snd x))%nat.
  - apply Permutation_refl.
  - eapply perm_trans; [apply perm_swap|]. apply perm_skip. exact IH.
Qed.

Lemma sort_by_count_perm (l : list (string * list value)) :
  Permutation l (sort_by_count l).
Proof.
  induction l as [|x r IH]; simpl; [apply perm_nil|].
  eapply perm_trans; [apply perm_skip; exact IH|].
  apply insert_by_count_perm.
Qed.

Lemma insert_by_count_sorted (x : string * list value)
      (l : list (string * list value)) :
  StronglySorted no_smaller l ->
  StronglySorted no_smaller (insert_by_count x l).
Proof.
  induction 1 as [|y r Hr IH Hy]; simpl.
  - constructor; constructor.
  - destruct (Nat.leb_spec (List.length (snd y)) (List.length (snd x))).
    + constructor; [constructor; assumption|].
      constructor; [exact H|].
      eapply Forall_impl; [|exact Hy].
      intros a Ha. unfold no_smaller in *. lia.
    + constructor; [exact IH|].
      eapply Permutation_Forall; [apply insert_by_count_perm|].
      constructor; [unfold no_smaller; lia|exact Hy].
Qed.

Lemma sort_by_count_sorted (l : list (string * list value)) :
  StronglySorted no_smaller (sort_by_count l).
Proof.
  induction l as [|x r IH]; simpl; [constructor|].
  now apply insert_by_count_sorted.
Qed.

Lemma sorted_split (l : list (string * list value)) (n : nat) :
  StronglySorted no_smaller l ->
  StronglySorted no_smaller (firstn n l) /\
  forall t r, In t (firstn n l) -> In r (skipn n l) -> no_smaller t r.
Proof.
  intros H. revert n.
  induction H as [|y r Hr IH Hy]; intros n.
  - rewrite firstn_nil, skipn_nil. split; [constructor|].
    intros t r Ht. destruct Ht.
  - destruct n as [|n]; simpl.
    + split; [constructor|]. intros t r0 Ht. destruct Ht.
    + destruct (IH n) as [S1 S2]. split.
      * constructor; [exact S1|].
        rewrite Forall_forall in *. intros a Ha. apply Hy.
        rewrite <- (firstn_skipn n r). apply in_or_app. now left.
      * intros t r0 [Ht|Ht] Hr0.
        -- subst t. rewrite Forall_forall in Hy. apply Hy.
           rewrite <- (firstn_skipn n r). apply in_or_app. now right.
        -- now apply S2.
Qed.

End ClientFacts.

(* ===================================================================== *)
(** ** Validation, then sanitising *)
(* ===================================================================== *)

Module SurvivalFacts.

Import JS Str Spec.

Lemma includes_head (s : string) (a : ascii) (w : string) :
  includes s (String a w) = true -> In a (list_ascii_of_string s).
Proof.
  induction s as [|c r IH]; rewrite StrFacts.includes_unfold.
  - simpl. discriminate.
  - destruct (String.prefix (String a w) (String c r)) eqn:Hp.
    + intros _. apply StrFacts.prefix_app in Hp. destruct Hp as [t Ht].
      simpl in Ht. inversion Ht. left. reflexivity.
    + intros H. right. exact (IH H).
Qed.

Lemma lower_letter (c : ascii) :
  is_lower (lower_char c) = true -> is_upper c || is_lower c = true.
Proof.
  unfold lower_char. destruct (is_upper c); [reflexivity|]. simpl. auto.
Qed.

Lemma letter_kept (c : ascii) :
  is_upper c || is_lower c = true -> is_kept c = true /\ is_space c = false.
Proof.
  destruct c as [[] [] [] [] [] [] [] []]; simpl; intros H;
    try discriminate H; split; reflexivity.
Qed.

Lemma In_lower (s : string) (a : ascii) :
  In a (list_ascii_of_string (toLowerCase s)) ->
  exists c, In c (list_ascii_of_string s) /\ lower_char c = a.
Proof.
  induction s as [|d r IH]; simpl; [intros []|].
  intros [E|H].
  - exists d. split; [left; reflexivity|exact E].
  - destruct (IH H) as [c [Hc E]]. exists c. split; [right; exact Hc|exact E].
Qed.

Lemma collapse_keeps (s : string) (c : ascii) :
  is_space c = false ->
  In c (list_ascii_of_string s) ->
  In c (list_ascii_of_string (collapse_spaces s)).
Proof.
  intros Hc. induction s as [|d r IH]; [intros []|].
  rewrite SanitizeFacts.collapse_spaces_unfold. intros [E|H].
  - subst d. rewrite Hc. left. reflexivity.
  - destruct (is_space d).
    + destruct r as [|e r']; [destruct H|].
      destruct (is_space e); [exact (IH H)|right; exact (IH H)].
    + right. exact (IH H).
Qed.

Lemma filter_keeps_in (p : ascii -> bool) (s : string) (c : ascii) :
  p c = true ->
  In c (list_ascii_of_string s) ->
  In c (list_ascii_of_string (filter_chars p s)).
Proof.
  intros Hc. induction s as [|d r IH]; [intros []|].
  simpl. intros [E|H].
  - subst d. rewrite Hc. left. reflexivity.
  - destruct (p d); [right|]; exact (IH H).
Qed.

Lemma take_nonempty (n : nat) (s : string) (c : ascii) :
  In c (list_ascii_of_string s) -> take (S n) s <> "".
Proof.
  destruct s as [|d r]; [intros []|]. intros _. unfold take. simpl.
  discriminate.
Qed.

(** A question that holds a question word or a question mark holds a
    character that sanitising keeps. *)
Lemma asks_kept (t : string) :
  asks t = true ->
  exists c, In c (list_ascii_of_string t) /\
            is_kept c = true /\ is_space c = false.
Proof.
  unfold asks. intros H. apply orb_true_iff in H. destruct H as [H|H].
  - apply existsb_exists in H. destruct H as [word [Hin Hw]].
    assert (Hhead : exists a w, word = String a w /\ is_lower a = true).
    { simpl in Hin.
      repeat (destruct Hin as [Hin|Hin];
              [subst word; eexists; eexists; split; reflexivity|]).
      destruct Hin. }
    destruct Hhead as (a & w & E & Ha). subst word.
    apply includes_head, In_lower in Hw. destruct Hw as [c [Hc El]].
    exists c. split; [exact Hc|].
    apply letter_kept, lower_letter. now rewrite El.
  - apply includes_head in H. exists "?"%char.
    split; [exact H|split; reflexivity].
Qed.

End SurvivalFacts.

(* ===================================================================== *)
(** ** The mode, from the classifier to the fetcher *)
(* ===================================================================== *)

Module ModeFacts.

Import JS FlightApi Spec.

Lemma unknown_mode_at (w : world) (code : string) (day : Z) (mode : value)
      (tr : list event) :
  unknown_mode mode ->
  printable mode = true ->
  exists raw,
    getAirportSchedule w code day mode tr
    = (Ok raw, (tr ++ [CallFetcher code day mode])%list) /\
    Route.no_flights raw = true.
Proof.
  intros (Hu & Ha & Hd & Hb) Hp.
  unfold getAirportSchedule. unfold_M.
  assert (Hm : match mode with VUndef => VStr "both" | _ => mode end = mode)
    by (destruct mode; congruence).
  rewrite Hm, template_mode, Hp.
  rewrite (FetcherFacts.is_str_false _ _ Ha),
          (FetcherFacts.is_str_false _ _ Hd),
          (FetcherFacts.is_str_false _ _ Hb).
  eexists. split; reflexivity.
Qed.

End ModeFacts.

(* ===================================================================== *)
(** ** The model on concrete inputs *)
(* ===================================================================== *)

Module Examples.

Import JS.

Example trim_spaces : Str.trim "  hi? " = "hi?".
Proof. reflexivity. Qed.

Example trim_keeps_inner : Str.trim " a  b " = "a  b".
Proof. reflexivity. Qed.

Example lower_case : Str.toLowerCase "Which Cities?" = "which cities?".
Proof. reflexivity. Qed.

Example includes_word :
  Str.includes "how many flights today" "flight" = true /\
  Str.includes "how many flights today" "Flight" = false.
Proof. split; reflexivity. Qed.

Example braces_greedy :
  Str.match_braces "Sure: {a: {b}} done } x" = Some "{a: {b}} done }".
Proof. reflexivity. Qed.

Example braces_need_order : Str.match_braces "} {" = None.
Proof. reflexivity. Qed.

Example sanitize_markup :
  Llm.sanitizeQuestion (VStr "  What   is <b>this</b>?  ") = "What is bthisb?".
Proof. reflexivity. Qed.

Example day_labels :
  FlightApi.getDayLabel (-1) = "Yesterday" /\
  FlightApi.getDayLabel 1 = "Today" /\
  FlightApi.getDayLabel 2 = "Tomorrow" /\
  FlightApi.getDayLabel 7 = "Today".
Proof. repeat split; reflexivity. Qed.

Example airport_codes :
  FlightApi.isValidAirportCode "dxb" = true /\
  FlightApi.isValidAirportCode "JFK" = false /\
  FlightApi.isValidAirportCode " DXB" = false.
Proof. repeat split; reflexivity. Qed.

Example weather_is_irrelevant :
  let r := Llm.keyword_fallback "What's the weather like?" in
  field r "relevant" = VBool false /\
  field r "mode" = VStr "none" /\
  field r "shouldSkipAPI" = VBool true.
Proof. repeat split; reflexivity. Qed.

Example flights_from_germany :
  field (Llm.keyword_fallback "How many flights arrived from Germany?") "mode"
  = VStr "arrivals".
Proof. reflexivity. Qed.

Example question_checks :
  Llm.isValidQuestion (VStr "How many flights?") = true /\
  Llm.isValidQuestion (VStr "Flights to Paris?") = true /\
  Llm.isValidQuestion (VStr "why?") = false /\
  Llm.isValidQuestion (VStr "") = false /\
  Llm.isValidQuestion (VNum 5) = false.
Proof. repeat split; reflexivity. Qed.

Example sort_is_stable :
  map fst (Route.sort_by_count
             [("A", [VNull]); ("B", [VNull; VNull]); ("C", [VNull]);
              ("D", [VNull; VNull])])
  = ["B"; "D"; "A"; "C"].
Proof. reflexivity. Qed.

Example groups_of_three_arrivals :
  exists p,
    FlightApi.processFlightData
      (Samples.schedule_of
         [Samples.from_frankfurt; Samples.no_payload; Samples.anonymous] [])
    = Ok p /\
    map (fun e => (fst e, List.length (snd e))) (byCountry (p_arrivals p))
    = [("Germany", 1); ("Unknown Country", 1)] /\
    map (fun e => (fst e, List.length (snd e))) (byCity (p_arrivals p))
    = [("Frankfurt", 1); ("Unknown City", 1)] /\
    airlines (p_arrivals p) = [VStr "Lufthansa"; VStr "Unknown Airline"] /\
    total (p_arrivals p) = 3.
Proof. eexists. split; [reflexivity|]. repeat split. Qed.

Example null_element_throws :
  FlightApi.processFlightData (Samples.schedule_of [VNull] [])
  = Throw (Error "Cannot read properties of null (reading 'flight')").
Proof. reflexivity. Qed.

(** A whole request: the classifier falls back to its default (arrivals),
    the fetcher calls the schedule API once, the aggregator and the
    generator run, and the answer is trimmed. *)
Example answered_request :
  exists resp,
    Route.post_query Samples.busy Samples.no_json Samples.prompt "persona"
      Samples.data_prompt Samples.to_number
      (Samples.request (VStr "lhr") (VStr "How many flights from Germany?"))
    = (Ok resp,
       [CallClassifier "How many flights from Germany?" "LHR";
        HttpLlm (Llm.analysis_request Samples.prompt
                   "How many flights from Germany?" "LHR");
        CallFetcher "LHR" 1 (VStr "arrivals");
        HttpFlight "arrivals" "LHR" 1;
        CallAggregator;
        CallGenerator "How many flights from Germany?" "LHR";
        HttpLlm (Llm.answer_request "persona"
                   "How many flights from Germany?")]) /\
    status resp = 200%Z /\
    field (body resp) "answer" = VStr "Two flights carry data." /\
    field (field (field (body resp) "data") "arrivals") "total" = VNum 3 /\
    field (field (body resp) "metadata") "responseTime" = VStr "250ms".
Proof.
  eexists. split; [vm_compute; reflexivity|]. repeat split.
Qed.

Example conversions :
  printable (VObj [("name", VStr "x")]) = true /\
  to_string (VObj [("name", VStr "x")]) = "[object Object]" /\
  printable Samples.unprintable = false /\
  printable (VArr [VNull; Samples.unprintable]) = false /\
  printable (VArr [VNull; VArr [VNum 1]]) = true.
Proof. repeat split; reflexivity. Qed.

Example unprintable_mode_is_caught :
  run (FlightApi.getAirportSchedule Samples.llm_down "dxb" 1
         Samples.unprintable)
  = (Throw (Error "Failed to fetch flight data: Cannot convert object to primitive value"),
     [CallFetcher "dxb" 1 Samples.unprintable]).
Proof. reflexivity. Qed.

Example unprintable_key_throws :
  FlightApi.processFlightData (Samples.schedule_of [Samples.odd_name] [])
  = Throw TypeError_convert.
Proof. reflexivity. Qed.

Example unprintable_date_escapes :
  Route.post_query Samples.llm_down Samples.no_json Samples.prompt "persona"
    Samples.data_prompt Samples.to_number
    {| airport := VStr "DXB";
       question := VStr "How many flights today?";
       date := Samples.unprintable |}
  = (Throw TypeError_convert, []).
Proof. reflexivity. Qed.

Example unprintable_analysis_falls_back :
  Llm.parse_analysis (fun _ => Some (VObj [("mode", Samples.unprintable)]))
                     (VStr "{}")
  = None.
Proof. reflexivity. Qed.

End Examples.

(* ===================================================================== *)
(** ** The properties *)
(* ===================================================================== *)

Import JS.

(** C1, as amended: for every pair of input lists without [null] elements
    whose records are filed under string keys, the flight-detail counts of
    the country groups, and those of the city groups, of each direction sum
    to the number of records of that direction's list that carry a [flight]
    payload, which is the length of the list when every record carries
    one; [total] is the length of the list in any case. *)
Theorem group_sizes_count_flight_payloads :
  forall (flightData : schedule) (arrivals departures : list value),
    s_arrivals flightData = VArr arrivals ->
    s_departures flightData = VArr departures ->
    Forall (fun r => nullish r = false) arrivals ->
    Forall (fun r => nullish r = false) departures ->
    Forall (Spec.keys_are_strings "origin") arrivals ->
    Forall (Spec.keys_are_strings "destination") departures ->
    exists p,
      FlightApi.processFlightData flightData = Ok p /\
      Spec.object_total (byCountry (p_arrivals p))
      = Spec.flight_count arrivals /\
      Spec.object_total (byCity (p_arrivals p))
      = Spec.flight_count arrivals /\
      Spec.object_total (byCountry (p_departures p))
      = Spec.flight_count departures /\
      Spec.object_total (byCity (p_departures p))
      = Spec.flight_count departures /\
      total (p_arrivals p) = List.length arrivals /\
      total (p_departures p) = List.length departures /\
      (Forall (fun r => Spec.carries_flight r = true) arrivals ->
       Spec.flight_count arrivals = List.length arrivals) /\
      (Forall (fun r => Spec.carries_flight r = true) departures ->
       Spec.flight_count departures = List.length departures).
Proof.
  intros fd la ld Ha Hd Na Nd Ka Kd.
  destruct (AggregatorFacts.processFlightData_lists fd la ld Ha Hd Na Nd
              (AggregatorFacts.strings_convert _ _ Ka)
              (AggregatorFacts.strings_convert _ _ Kd))
    as [p [Hp [Pa Pd]]].
  exists p. split; [exact Hp|]. rewrite Pa, Pd.
  destruct (AggregatorFacts.direction_totals "origin" "departure" la Ka)
    as [A1 A2].
  destruct (AggregatorFacts.direction_totals "destination" "arrival" ld Kd)
    as [D1 D2].
  repeat split; try assumption; try reflexivity;
    apply AggregatorFacts.flight_count_all.
Qed.

Lemma group_sizes_count_flight_payloads_witness :
  exists p,
    FlightApi.processFlightData
      (Samples.schedule_of
         [Samples.from_frankfurt; Samples.no_payload; Samples.anonymous]
         [Samples.anonymous]) = Ok p /\
    Spec.object_total (byCountry (p_arrivals p)) = 2 /\
    Spec.object_total (byCity (p_arrivals p)) = 2 /\
    Spec.object_total (byCountry (p_departures p)) = 1 /\
    total (p_arrivals p) = 3.
Proof.
  destruct (group_sizes_count_flight_payloads
              (Samples.schedule_of
                 [Samples.from_frankfurt; Samples.no_payload; Samples.anonymous]
                 [Samples.anonymous])
              [Samples.from_frankfurt; Samples.no_payload; Samples.anonymous]
              [Samples.anonymous] eq_refl eq_refl)
    as [p (Hp & A1 & A2 & D1 & _ & T & _)].
  - repeat constructor.
  - repeat constructor.
  - repeat constructor; intros H; try discriminate H; split; reflexivity.
  - repeat constructor; intros H; try discriminate H; split; reflexivity.
  - exists p. split; [exact Hp|]. repeat split; assumption.
Defined.

(** C1, the claim as stated fails: a record without [flight] payload is in
    the list and in no group. *)
Lemma record_without_payload_is_dropped :
  exists p,
    FlightApi.processFlightData
      (Samples.schedule_of [Samples.from_frankfurt; Samples.no_payload] [])
    = Ok p /\
    Spec.object_total (byCountry (p_arrivals p)) = 1 /\
    Spec.object_total (byCity (p_arrivals p)) = 1 /\
    List.length [Samples.from_frankfurt; Samples.no_payload] = 2 /\
    Spec.object_total (byCountry (p_arrivals p))
    <> List.length [Samples.from_frankfurt; Samples.no_payload].
Proof.
  eexists. split; [reflexivity|]. repeat split. discriminate.
Qed.



(** C3, as amended: the [catch] clause of the handler maps an upstream
    authentication failure to 502, rate limiting to 429 and a timeout to
    504; a not-found answer of the schedule API is not told apart and
    falls, with quota exhaustion, an empty generation and every error whose
    message has none of the four phrases, to 500 [INTERNAL_ERROR]; the body
    carries [error], [code], [airport], [question] and the metadata
    [responseTime] and [timestamp].  Every error thrown by the fetcher or by
    the generator is one made by their own [catch] clauses. *)
Theorem catch_handler_error_mapping :
  forall (w : world) (b : clean_body),
    In (c_airport b) FlightApi.validAirports ->
    let fetch := FlightApi.fetch_error (c_airport b) in
    let gen := Llm.llm_error in
    (forall day mode tr tr' err,
        FlightApi.getAirportSchedule w (c_airport b) day mode tr
        = (Throw err, tr') -> exists e, err = fetch e) /\
    (forall sp bp q p mode ma tr tr' err,
        Llm.generateAnswer w sp bp q p (c_airport b) mode ma tr
        = (Throw err, tr') -> exists e, err = gen e) /\
    (forall e, e_status e = Some 401%Z ->
        Spec.answers w b (fetch e) 502 "FLIGHT_API_ERROR" /\
        Spec.answers w b (gen e) 502 "LLM_API_ERROR") /\
    (forall e, e_status e = Some 429%Z ->
        Spec.answers w b (fetch e) 429 "RATE_LIMIT_EXCEEDED" /\
        Spec.answers w b (gen e) 429 "RATE_LIMIT_EXCEEDED") /\
    (forall e, e_status e = Some 404%Z ->
        Spec.answers w b (fetch e) 500 "INTERNAL_ERROR") /\
    (forall e, e_status e = Some 402%Z ->
        Spec.answers w b (gen e) 500 "INTERNAL_ERROR") /\
    (forall e, e_code e = Some "ECONNABORTED" ->
        e_status e <> Some 401%Z -> e_status e <> Some 429%Z ->
        (e_status e <> Some 404%Z ->
         Spec.answers w b (fetch e) 504 "REQUEST_TIMEOUT") /\
        (e_status e <> Some 402%Z ->
         Spec.answers w b (gen e) 504 "REQUEST_TIMEOUT")) /\
    Spec.answers w b (gen (Error "No answer generated by LLM"))
      500 "INTERNAL_ERROR" /\
    (forall err,
        ~ Str.occurs "Invalid FlightAPI key" (e_message err) ->
        ~ Str.occurs "rate limit" (e_message err) ->
        ~ Str.occurs "timeout" (e_message err) ->
        ~ Str.occurs "Invalid OpenRouter" (e_message err) ->
        Spec.answers w b err 500 "INTERNAL_ERROR") /\
    (forall err, status (Route.error_response w b err) <> 404%Z).
Proof.
  intros w b Hin fetch gen. subst fetch gen.
  split; [intros; eapply ErrorFacts.fetcher_throws_fetch_error; eauto|].
  split; [intros; eapply ErrorFacts.generator_throws_llm_error; eauto|].
  split; [|split; [|split; [|split; [|split; [|split; [|split]]]]]].
  - intros e He. unfold FlightApi.fetch_error, Llm.llm_error.
    rewrite (ErrorFacts.status_is_some e 401 He).
    split; apply ErrorFacts.answers_intro; reflexivity.
  - intros e He. unfold FlightApi.fetch_error, Llm.llm_error.
    rewrite (ErrorFacts.status_is_other e 429 401 He) by lia.
    rewrite (ErrorFacts.status_is_some e 429 He).
    split; apply ErrorFacts.answers_intro; reflexivity.
  - intros e He. unfold FlightApi.fetch_error.
    rewrite (ErrorFacts.status_is_other e 404 401 He) by lia.
    rewrite (ErrorFacts.status_is_other e 404 429 He) by lia.
    rewrite (ErrorFacts.status_is_some e 404 He).
    apply ErrorFacts.answers_intro.
    simpl in Hin.
    repeat (destruct Hin as [Hin|Hin]; [rewrite <- Hin; reflexivity|]).
    destruct Hin.
  - intros e He. unfold Llm.llm_error.
    rewrite (ErrorFacts.status_is_other e 402 401 He) by lia.
    rewrite (ErrorFacts.status_is_other e 402 429 He) by lia.
    rewrite (ErrorFacts.status_is_some e 402 He).
    apply ErrorFacts.answers_intro; reflexivity.
  - intros e Hc H401 H429.
    assert (S401 : FlightApi.status_is e 401 = false)
      by (apply ErrorFacts.status_is_not; assumption).
    assert (S429 : FlightApi.status_is e 429 = false)
      by (apply ErrorFacts.status_is_not; assumption).
    assert (Hcode : FlightApi.code_is e "ECONNABORTED" = true)
      by (unfold FlightApi.code_is; now rewrite Hc).
    split; intros Hs; unfold FlightApi.fetch_error, Llm.llm_error;
      rewrite S401, S429, (ErrorFacts.status_is_not e _ Hs), Hcode;
      apply ErrorFacts.answers_intro; reflexivity.
  - apply ErrorFacts.answers_intro; reflexivity.
  - intros err H1 H2 H3 H4. apply ErrorFacts.answers_intro.
    now apply ErrorFacts.classify_error_other.
  - intros err. apply ErrorFacts.error_response_not_404.
Qed.

Lemma catch_handler_error_mapping_witness :
  Spec.answers Samples.schedule_404
    (Samples.ask "DXB" "How many flights from Germany?")
    (FlightApi.fetch_error "DXB" (Samples.http_status 401))
    502 "FLIGHT_API_ERROR" /\
  Spec.answers Samples.schedule_404
    (Samples.ask "DXB" "How many flights from Germany?")
    (FlightApi.fetch_error "DXB" (Samples.http_status 404))
    500 "INTERNAL_ERROR".
Proof.
  destruct (catch_handler_error_mapping Samples.schedule_404
              (Samples.ask "DXB" "How many flights from Germany?"))
    as (_ & _ & H401 & _ & H404 & _).
  - simpl. tauto.
  - split.
    + apply (H401 (Samples.http_status 401)). reflexivity.
    + apply (H404 (Samples.http_status 404)). reflexivity.
Defined.

(** C3, the claim as stated fails: the schedule API answers 404 for a
    supported airport, the fetcher throws its not-found error, and the
    endpoint answers 500 [INTERNAL_ERROR], not 404. *)
Lemma upstream_not_found_answers_500 :
  flight_get Samples.schedule_404 "arrivals" "DXB" 1
  = Rejected (Samples.http_status 404) /\
  exists resp tr,
    Route.post_query Samples.schedule_404 Samples.no_json Samples.prompt
      "persona" Samples.data_prompt Samples.to_number
      (Samples.request (VStr "DXB") (VStr "How many flights from Germany?"))
    = (Ok resp, tr) /\
    In (HttpFlight "arrivals" "DXB" 1) tr /\
    field (body resp) "error"
    = VStr "Airport DXB not found or no data available." /\
    status resp = 500%Z /\
    field (body resp) "code" = VStr "INTERNAL_ERROR" /\
    status resp <> 404%Z.
Proof.
  split; [reflexivity|].
  eexists. eexists. split; [vm_compute; reflexivity|].
  split; [simpl; tauto|].
  repeat split. discriminate.
Qed.

(** C4: whenever the classifier's result has [shouldSkipAPI] set or
    [relevant] equal to [false], the handler answers at once (status 200)
    with the canned text, [analysis.relevant = false] and
    [metadata.flightApiCalled = false], and the trace of the request holds
    no invocation of the Schedule Fetcher and no call of the schedule
    API. *)
Theorem irrelevant_question_skips_fetcher :
  forall (w : world) (JSON_parse : string -> option value)
         (analysisPrompt : string -> string -> string)
         (systemPrompt : string)
         (buildSupportUserPrompt :
            string -> processed -> string -> value -> value -> result string)
         (b : clean_body) (modeAnalysis : value) (tr : list event),
    run (Llm.analyzeQuestionForMode w JSON_parse analysisPrompt
           (c_question b) (c_airport b)) = (Ok modeAnalysis, tr) ->
    truthy (field modeAnalysis "shouldSkipAPI") = true
    \/ field modeAnalysis "relevant" = VBool false ->
    exists resp,
      run (Route.query w JSON_parse analysisPrompt systemPrompt
             buildSupportUserPrompt b) = (Ok resp, tr) /\
      status resp = 200%Z /\
      field (body resp) "answer" = VStr Route.cannedAnswer /\
      field (field (body resp) "analysis") "relevant" = VBool false /\
      field (field (body resp) "metadata") "flightApiCalled" = VBool false /\
      Forall (fun ev => ~ Spec.fetch_event ev) tr.
Proof.
  intros w JP AP SP BP b ma tr Hrun Hskip.
  assert (Hs : Route.skips ma = true).
  { unfold Route.skips. destruct Hskip as [H|H]; rewrite H; simpl;
      [reflexivity|apply orb_true_r]. }
  exists (Route.skipped_response w b ma). split.
  - exact (@RouteFacts.query_skipped w JP AP SP BP b ma tr Hrun Hs).
  - repeat split; try reflexivity.
    destruct (LlmFacts.analyze_returns w JP AP (c_question b) (c_airport b) [])
      as [r Hr].
    unfold run in Hrun. rewrite Hr in Hrun. inversion Hrun; subst.
    simpl. repeat constructor; simpl; tauto.
Qed.

Lemma irrelevant_question_skips_fetcher_witness :
  exists resp tr,
    run (Route.query Samples.chatty Samples.no_json Samples.prompt
           "persona" Samples.data_prompt
           (Samples.ask "DXB" "What is the weather like?")) = (Ok resp, tr) /\
    field (body resp) "answer" = VStr Route.cannedAnswer /\
    field (field (body resp) "metadata") "flightApiCalled" = VBool false /\
    Forall (fun ev => ~ Spec.fetch_event ev) tr.
Proof.
  destruct (irrelevant_question_skips_fetcher Samples.chatty Samples.no_json
              Samples.prompt "persona" Samples.data_prompt
              (Samples.ask "DXB" "What is the weather like?")
              (Llm.keyword_fallback "What is the weather like?")
              [CallClassifier "What is the weather like?" "DXB";
               HttpLlm (Llm.analysis_request Samples.prompt
                          "What is the weather like?" "DXB")]
              eq_refl (or_introl eq_refl))
    as [resp [Hrun [_ [Ha [_ [Hm Htr]]]]]].
  exists resp. eexists. split; [exact Hrun|]. split; [exact Ha|].
  split; [exact Hm|exact Htr].
Defined.

(** C5: when the classification call itself is rejected (network or LLM
    error), [analyzeQuestionForMode] does not throw: it returns the default
    analysis, whose mode is ['arrivals'], whose confidence is ['low'], whose
    reasoning names the error fallback, and which has no [relevant]
    field. *)
Theorem classifier_failure_yields_default :
  forall (w : world) (JSON_parse : string -> option value)
         (analysisPrompt : string -> string -> string)
         (question airport : string) (e : js_error),
    llm_post w (Llm.analysis_request analysisPrompt question airport)
    = Rejected e ->
    exists r tr,
      run (Llm.analyzeQuestionForMode w JSON_parse analysisPrompt
             question airport) = (Ok r, tr) /\
      field r "mode" = VStr "arrivals" /\
      field r "confidence" = VStr "low" /\
      field r "reasoning" = VStr "Default fallback due to analysis error" /\
      field r "relevant" = VUndef.
Proof.
  intros w JP AP q a e H.
  exists Llm.default_analysis. eexists. split.
  - exact (@LlmFacts.analyze_rejected w JP AP q a e H).
  - repeat split; reflexivity.
Qed.

Lemma classifier_failure_yields_default_witness :
  exists r tr,
    run (Llm.analyzeQuestionForMode Samples.llm_down Samples.no_json
           Samples.prompt "How many flights from Germany?" "DXB") = (Ok r, tr) /\
    field r "mode" = VStr "arrivals" /\
    field r "confidence" = VStr "low" /\
    field r "reasoning" = VStr "Default fallback due to analysis error" /\
    field r "relevant" = VUndef.
Proof.
  apply (classifier_failure_yields_default Samples.llm_down Samples.no_json
           Samples.prompt "How many flights from Germany?" "DXB"
           Samples.network_down).
  reflexivity.
Defined.

(** C6: when [JSON.parse] fails on the reply of the classifier's LLM, the
    result is that of the keyword fallback on the lower-cased question: its
    confidence is ['medium']; if no aviation keyword occurs it is
    irrelevant, with mode ['none'] and [shouldSkipAPI] set; otherwise the
    mode is ['departures'] if a destination word occurs, else ['arrivals']
    if an origin word occurs, else ['both']. *)
Theorem keyword_fallback_on_parse_failure :
  forall (w : world) (JSON_parse : string -> option value)
         (analysisPrompt : string -> string -> string)
         (question airport : string) (data : value) (text : string),
    llm_post w (Llm.analysis_request analysisPrompt question airport)
    = Resolved data ->
    Llm.trimmed_content_of data = Ok (VStr text) ->
    JSON_parse (Llm.json_text text) = None ->
    exists r tr,
      run (Llm.analyzeQuestionForMode w JSON_parse analysisPrompt
             question airport) = (Ok r, tr) /\
      let q := Str.toLowerCase question in
      field r "confidence" = VStr "medium" /\
      (~ Spec.any_occurs Llm.aviationKeywords q ->
         field r "relevant" = VBool false /\
         field r "mode" = VStr "none" /\
         field r "shouldSkipAPI" = VBool true) /\
      (Spec.any_occurs Llm.aviationKeywords q ->
         field r "relevant" = VBool true /\
         (Spec.any_occurs Spec.destinationWords q ->
            field r "mode" = VStr "departures") /\
         (~ Spec.any_occurs Spec.destinationWords q ->
          Spec.any_occurs Spec.originWords q ->
            field r "mode" = VStr "arrivals") /\
         (~ Spec.any_occurs Spec.destinationWords q ->
          ~ Spec.any_occurs Spec.originWords q ->
            field r "mode" = VStr "both")).
Proof.
  intros w JP AP q a data text H1 H2 H3.
  exists (Llm.keyword_fallback q). eexists. split.
  - exact (@LlmFacts.analyze_fallback w JP AP q a data text H1 H2 H3).
  - apply LlmFacts.keyword_fallback_cases.
Qed.

Lemma keyword_fallback_on_parse_failure_witness :
  exists r tr,
    run (Llm.analyzeQuestionForMode Samples.chatty Samples.no_json
           Samples.prompt "Which airline cities does BA fly to?" "LHR")
    = (Ok r, tr) /\
    field r "confidence" = VStr "medium" /\
    field r "mode" = VStr "departures".
Proof.
  destruct (keyword_fallback_on_parse_failure Samples.chatty Samples.no_json
              Samples.prompt "Which airline cities does BA fly to?" "LHR"
              (Samples.reply "I would say departures.")
              "I would say departures."
              eq_refl eq_refl eq_refl) as [r [tr [Hrun [Hc [_ Hrel]]]]].
  exists r, tr. split; [exact Hrun|]. split; [exact Hc|].
  apply Hrel.
  - exists "airline". split; [simpl; tauto|].
    exists "which ", " cities does ba fly to?". reflexivity.
  - exists "fly to". split; [simpl; tauto|].
    exists "which airline cities does ba ", "?". reflexivity.
Defined.

(** C7: when the fetcher returns an empty arrivals list and an empty
    departures list, the handler answers 404 with code [NO_FLIGHT_DATA],
    the airport, [dayParam] and [dayLabel], and the trace of the request
    holds no invocation of the Aggregator or of the Answer Generator. *)
Theorem empty_schedule_answers_404 :
  forall (w : world) (JSON_parse : string -> option value)
         (analysisPrompt : string -> string -> string)
         (systemPrompt : string)
         (buildSupportUserPrompt :
            string -> processed -> string -> value -> value -> result string)
         (b : clean_body) (modeAnalysis : value) (raw : schedule)
         (tr1 tr2 : list event),
    run (Llm.analyzeQuestionForMode w JSON_parse analysisPrompt
           (c_question b) (c_airport b)) = (Ok modeAnalysis, tr1) ->
    Route.skips modeAnalysis = false ->
    FlightApi.getAirportSchedule w (c_airport b) (Route.dayParam_of b)
      (field modeAnalysis "mode") tr1 = (Ok raw, tr2) ->
    s_arrivals raw = VArr [] ->
    s_departures raw = VArr [] ->
    exists resp,
      run (Route.query w JSON_parse analysisPrompt systemPrompt
             buildSupportUserPrompt b) = (Ok resp, tr2) /\
      status resp = 404%Z /\
      field (body resp) "code" = VStr "NO_FLIGHT_DATA" /\
      field (body resp) "airport" = VStr (c_airport b) /\
      field (body resp) "dayParam" = VNum (s_dayParam raw) /\
      field (body resp) "dayLabel" = VStr (s_dayLabel raw) /\
      Forall (fun ev => ev <> CallAggregator /\
                        forall q a, ev <> CallGenerator q a) tr2.
Proof.
  intros w JP AP SP BP b ma raw tr1 tr2 Hrun Hs Hf Ha Hd.
  assert (Hn : Route.no_flights raw = true)
    by (unfold Route.no_flights; now rewrite Ha, Hd).
  exists (Route.no_data_response b raw). split.
  - exact (@RouteFacts.query_no_data w JP AP SP BP b ma tr1 tr2 raw
             Hrun Hs Hf Hn).
  - repeat split; try reflexivity.
    destruct (LlmFacts.analyze_returns w JP AP (c_question b) (c_airport b) [])
      as [r Hr].
    unfold run in Hrun. rewrite Hr in Hrun. inversion Hrun; subst.
    destruct (@FetcherFacts.fetch_trace _ _ _ _ _ _ _ Hf) as [evs [-> Hevs]].
    apply Forall_app. split.
    + repeat constructor; try discriminate.
    + eapply Forall_impl; [|exact Hevs].
      intros ev Hev. destruct ev; simpl in Hev; try contradiction;
        split; try discriminate; intros; discriminate.
Qed.

Lemma empty_schedule_answers_404_witness :
  exists resp tr,
    run (Route.query Samples.llm_down Samples.no_json Samples.prompt
           "persona" Samples.data_prompt
           (Samples.ask "DXB" "How many flights from Germany?"))
    = (Ok resp, tr) /\
    status resp = 404%Z /\
    field (body resp) "code" = VStr "NO_FLIGHT_DATA" /\
    Forall (fun ev => ev <> CallAggregator /\
                      forall q a, ev <> CallGenerator q a) tr.
Proof.
  destruct (empty_schedule_answers_404 Samples.llm_down Samples.no_json
              Samples.prompt "persona" Samples.data_prompt
              (Samples.ask "DXB" "How many flights from Germany?")
              Llm.default_analysis Samples.nothing_fetched
              Samples.classified Samples.classified_and_fetched
              eq_refl eq_refl eq_refl eq_refl eq_refl)
    as [resp [Hrun [Hst [Hcode [_ [_ [_ Htr]]]]]]].
  exists resp. eexists. split; [exact Hrun|].
  split; [exact Hst|]. split; [exact Hcode|exact Htr].
Defined.

(** C8, as amended: for every request whose airport is a non-empty ASCII
    string that is not, up to case, one of the six supported codes, the
    endpoint answers 400 with code [UNSUPPORTED_AIRPORT]; a missing, empty
    or non-string airport is answered 400 with code [INVALID_AIRPORT]; in
    both cases the trace of the request is empty: neither the Classifier,
    nor the Fetcher, nor the Generator is called. *)
Theorem unsupported_airport_rejected :
  forall (w : world) (JSON_parse : string -> option value)
         (analysisPrompt : string -> string -> string)
         (systemPrompt : string)
         (buildSupportUserPrompt :
            string -> processed -> string -> value -> value -> result string)
         (Number_ : value -> result (option Z)) (b : request_body),
    let outcome :=
      Route.post_query w JSON_parse analysisPrompt systemPrompt
        buildSupportUserPrompt Number_ b in
    (forall code,
        airport b = VStr code -> code <> "" -> Spec.ascii_only code ->
        ~ Spec.supported code ->
        exists resp,
          outcome = (Ok resp, []) /\
          status resp = 400%Z /\
          field (body resp) "code" = VStr "UNSUPPORTED_AIRPORT") /\
    (truthy (airport b) = false \/ is_string (airport b) = false ->
     exists resp,
       outcome = (Ok resp, []) /\
       status resp = 400%Z /\
       field (body resp) "code" = VStr "INVALID_AIRPORT").
Proof.
  intros w JP AP SP BP N b outcome. subst outcome.
  unfold Route.post_query, Route.validateQueryRequest. split.
  - intros code Ha Hne _ Hu.
    apply ValidationFacts.isValidAirportCode_unsupported in Hu.
    rewrite Ha, (ValidationFacts.truthy_string code Hne). simpl.
    rewrite Hu. simpl.
    eexists. split; [reflexivity|]. split; reflexivity.
  - intros [H|H]; rewrite H; simpl; rewrite ?orb_true_r;
      eexists; (split; [reflexivity|]); split; reflexivity.
Qed.

Lemma unsupported_airport_rejected_witness :
  exists resp,
    Route.post_query Samples.chatty Samples.no_json Samples.prompt "persona"
      Samples.data_prompt Samples.to_number
      (Samples.request (VStr "jfk") (VStr "How many flights today?"))
    = (Ok resp, []) /\
    status resp = 400%Z /\
    field (body resp) "code" = VStr "UNSUPPORTED_AIRPORT".
Proof.
  apply (proj1 (unsupported_airport_rejected Samples.chatty Samples.no_json
                  Samples.prompt "persona" Samples.data_prompt
                  Samples.to_number
                  (Samples.request (VStr "jfk")
                                   (VStr "How many flights today?")))
               "jfk").
  - reflexivity.
  - discriminate.
  - reflexivity.
  - apply ValidationFacts.isValidAirportCode_unsupported. reflexivity.
Defined.

(** C8, the claim as stated fails: the empty string is not one of the six
    codes, yet the request is answered with [INVALID_AIRPORT], not
    [UNSUPPORTED_AIRPORT]; so is a request that names no airport at
    all. *)
Lemma empty_airport_is_invalid_not_unsupported :
  ~ Spec.supported "" /\
  (exists resp,
      Route.post_query Samples.chatty Samples.no_json Samples.prompt "persona"
        Samples.data_prompt Samples.to_number
        (Samples.request (VStr "") (VStr "How many flights today?"))
      = (Ok resp, []) /\
      status resp = 400%Z /\
      field (body resp) "code" = VStr "INVALID_AIRPORT" /\
      field (body resp) "code" <> VStr "UNSUPPORTED_AIRPORT") /\
  (exists resp,
      Route.post_query Samples.chatty Samples.no_json Samples.prompt "persona"
        Samples.data_prompt Samples.to_number
        (Samples.request VUndef (VStr "How many flights today?"))
      = (Ok resp, []) /\
      status resp = 400%Z /\
      field (body resp) "code" = VStr "INVALID_AIRPORT" /\
      field (body resp) "code" <> VStr "UNSUPPORTED_AIRPORT").
Proof.
  split; [|split].
  - apply ValidationFacts.isValidAirportCode_unsupported. reflexivity.
  - eexists. split; [reflexivity|]. repeat split. discriminate.
  - eexists. split; [reflexivity|]. repeat split. discriminate.
Qed.

(** C9, as amended: a non-empty ASCII string question passes
    [isValidQuestion] if and only if its trimmed length is between 5 and
    500 and it holds a question word or a question mark; once an ASCII
    airport has passed, a non-empty question of that kind that fails the
    check is answered 400 with code [INVALID_QUESTION_FORMAT], the empty
    question 400 with code [INVALID_QUESTION], and nothing downstream is
    called. *)
Theorem question_format_validation :
  forall (w : world) (JSON_parse : string -> option value)
         (analysisPrompt : string -> string -> string)
         (systemPrompt : string)
         (buildSupportUserPrompt :
            string -> processed -> string -> value -> value -> result string)
         (Number_ : value -> result (option Z)) (b : request_body) (code q : string),
    airport b = VStr code -> code <> "" -> Spec.ascii_only code ->
    Spec.supported code ->
    question b = VStr q -> Spec.ascii_only q ->
    let outcome :=
      Route.post_query w JSON_parse analysisPrompt systemPrompt
        buildSupportUserPrompt Number_ b in
    (q <> "" ->
     (Llm.isValidQuestion (VStr q) = true <->
      (5 <= String.length (Str.trim q) <= 500)%nat /\
      (Spec.any_occurs Llm.questionWords (Str.toLowerCase (Str.trim q))
       \/ Str.occurs "?" (Str.trim q)))) /\
    (q <> "" -> Llm.isValidQuestion (VStr q) = false ->
     exists resp,
       outcome = (Ok resp, []) /\
       status resp = 400%Z /\
       field (body resp) "code" = VStr "INVALID_QUESTION_FORMAT") /\
    (q = "" ->
     exists resp,
       outcome = (Ok resp, []) /\
       status resp = 400%Z /\
       field (body resp) "code" = VStr "INVALID_QUESTION").
Proof.
  intros w JP AP SP BP N b code q Ha Hne _ Hs Hq _ outcome. subst outcome.
  apply ValidationFacts.isValidAirportCode_supported in Hs.
  unfold Route.post_query, Route.validateQueryRequest.
  rewrite Ha, Hq. cbn [Route.string_of]. rewrite Hs.
  rewrite (ValidationFacts.truthy_string code Hne).
  cbn [negb orb is_string].
  split; [|split].
  - intros Hqne. now apply ValidationFacts.isValidQuestion_string.
  - intros Hqne Hbad. rewrite Hbad.
    rewrite (ValidationFacts.truthy_string q Hqne). cbn [negb orb].
    eexists. split; [reflexivity|]. split; reflexivity.
  - intros ->. simpl.
    eexists. split; [reflexivity|]. split; reflexivity.
Qed.

Lemma question_format_validation_witness :
  exists resp,
    Route.post_query Samples.chatty Samples.no_json Samples.prompt "persona"
      Samples.data_prompt Samples.to_number
      (Samples.request (VStr "dxb") (VStr "  hi? "))
    = (Ok resp, []) /\
    status resp = 400%Z /\
    field (body resp) "code" = VStr "INVALID_QUESTION_FORMAT".
Proof.
  destruct (question_format_validation Samples.chatty Samples.no_json
              Samples.prompt "persona" Samples.data_prompt Samples.to_number
              (Samples.request (VStr "dxb") (VStr "  hi? ")) "dxb" "  hi? ")
    as (_ & Hformat & _).
  - reflexivity.
  - discriminate.
  - reflexivity.
  - apply ValidationFacts.isValidAirportCode_supported. reflexivity.
  - reflexivity.
  - reflexivity.
  - apply Hformat; [discriminate|reflexivity].
Defined.

(** C9, the claim as stated fails: a question whose trimmed length is
    within 5 and 500 is rejected when it has neither a question word nor a
    question mark. *)
Lemma length_alone_does_not_validate :
  (5 <= String.length (Str.trim "hello world") <= 500)%nat /\
  Llm.isValidQuestion (VStr "hello world") = false /\
  exists resp,
    Route.post_query Samples.chatty Samples.no_json Samples.prompt "persona"
      Samples.data_prompt Samples.to_number
      (Samples.request (VStr "DXB") (VStr "hello world"))
    = (Ok resp, []) /\
    status resp = 400%Z /\
    field (body resp) "code" = VStr "INVALID_QUESTION_FORMAT".
Proof.
  split; [simpl; lia|]. split; [reflexivity|].
  eexists. split; [reflexivity|]. split; reflexivity.
Qed.

(** C10: called with a mode that is none of ['arrivals'], ['departures'],
    ['both'] (and that is passed, that is, not [undefined]) and that the
    first log line can print, as it can every string,
    [getAirportSchedule] issues no upstream call and returns a result with
    empty arrivals and departures, an empty raw result, the day, its label
    and zero totals; it does not throw. *)
Theorem unknown_mode_fetches_nothing :
  forall (w : world) (airportCode : string) (dayParam : Z) (mode : value),
    Spec.unknown_mode mode ->
    printable mode = true ->
    exists s,
      run (FlightApi.getAirportSchedule w airportCode dayParam mode)
      = (Ok s, [CallFetcher airportCode dayParam mode]) /\
      s_arrivals s = VArr [] /\
      s_departures s = VArr [] /\
      s_rawResult s = VObj [] /\
      s_airport s = Str.toUpperCase airportCode /\
      s_dayParam s = (if (dayParam =? 0)%Z then 1%Z else dayParam) /\
      s_dayLabel s = FlightApi.getDayLabel (s_dayParam s) /\
      field (s_metadata s) "totalArrivals" = VNum 0 /\
      field (s_metadata s) "totalDepartures" = VNum 0 /\
      field (field (s_metadata s) "parameters") "mode" = mode.
Proof.
  intros w code day mode Hm Hp.
  eexists. split.
  - exact (@FetcherFacts.unknown_mode_run w code day mode Hm Hp).
  - repeat split; reflexivity.
Qed.

Lemma unknown_mode_fetches_nothing_witness :
  exists s,
    run (FlightApi.getAirportSchedule Samples.schedule_404 "dxb" 2 (VStr "none"))
    = (Ok s, [CallFetcher "dxb" 2 (VStr "none")]) /\
    s_arrivals s = VArr [] /\
    s_departures s = VArr [].
Proof.
  destruct (unknown_mode_fetches_nothing Samples.schedule_404 "dxb" 2
              (VStr "none"))
    as [s [Hrun [Ha [Hd _]]]].
  - repeat split; discriminate.
  - reflexivity.
  - exists s. split; [exact Hrun|]. split; [exact Ha|exact Hd].
Defined.

(* ===================================================================== *)
(** ** Further properties *)
(* ===================================================================== *)

(** X1: [processFlightData] returns a result exactly when [arrivals] and
    [departures] are both arrays without [null] or [undefined] elements
    and the country and the city under which each record with a payload is
    filed can be converted to property names; on anything else it
    throws. *)
Theorem aggregation_succeeds_iff_lists_are_clean :
  forall (flightData : schedule),
    (exists p, FlightApi.processFlightData flightData = Ok p) <->
    (exists arrivals departures,
        s_arrivals flightData = VArr arrivals /\
        s_departures flightData = VArr departures /\
        Forall (fun r => nullish r = false) arrivals /\
        Forall (fun r => nullish r = false) departures /\
        Spec.keys_convert "origin" arrivals /\
        Spec.keys_convert "destination" departures).
Proof.
  intros fd. split.
  - intros [p Hp].
    destruct (SummaryFacts.processFlightData_ok_inv fd p Hp)
      as (la & ld & Ha & Hd & Na & Nd).
    destruct (AggregatorFacts.processFlightData_keys fd la ld Ha Hd Na Nd
                (ex_intro _ p Hp)) as [Ka Kd].
    exists la, ld. auto 10.
  - intros (la & ld & Ha & Hd & Na & Nd & Ka & Kd).
    destruct (AggregatorFacts.processFlightData_lists fd la ld Ha Hd Na Nd
                Ka Kd) as [p [Hp _]].
    exists p. exact Hp.
Qed.

(** X2: no group of the result is empty: every country and every city
    listed for a direction holds at least one flight detail, whatever the
    keys are. *)
Theorem groups_are_never_empty :
  forall (flightData : schedule) (p : processed),
    FlightApi.processFlightData flightData = Ok p ->
    Forall (fun e => snd e <> []) (byCountry (p_arrivals p)) /\
    Forall (fun e => snd e <> []) (byCity (p_arrivals p)) /\
    Forall (fun e => snd e <> []) (byCountry (p_departures p)) /\
    Forall (fun e => snd e <> []) (byCity (p_departures p)).
Proof.
  intros fd p H.
  destruct (SummaryFacts.processFlightData_ok fd p H)
    as (la & ld & _ & _ & Pa & Pd & _).
  rewrite Pa, Pd. simpl.
  repeat split;
    apply (SummaryFacts.fromEntries_values (fun g => g <> []));
    apply SummaryFacts.push_all_nonempty; constructor.
Qed.

Lemma groups_are_never_empty_witness :
  exists p,
    FlightApi.processFlightData
      (Samples.schedule_of
         [Samples.from_frankfurt; Samples.no_payload; Samples.anonymous]
         [Samples.anonymous]) = Ok p /\
    Forall (fun e => snd e <> []) (byCountry (p_arrivals p)) /\
    Forall (fun e => snd e <> []) (byCity (p_departures p)).
Proof.
  eexists. split; [reflexivity|].
  destruct (groups_are_never_empty
              (Samples.schedule_of
                 [Samples.from_frankfurt; Samples.no_payload; Samples.anonymous]
                 [Samples.anonymous]) _ eq_refl) as (H1 & _ & _ & H4).
  split; [exact H1|exact H4].
Defined.

(** X3: the counts of the summary are consistent for every input: in
    each direction there are no more listed groups than distinct keys, no
    more distinct keys than records, and [total] is the number of
    records. *)
Theorem summary_counts_are_bounded :
  forall (flightData : schedule) (p : processed),
    FlightApi.processFlightData flightData = Ok p ->
    let s := p_summary p in
    (List.length (byCountry (p_arrivals p)) <= arrivalCountries s
     <= totalArrivals s) /\
    (List.length (byCity (p_arrivals p)) <= arrivalCities s
     <= totalArrivals s) /\
    (List.length (byCountry (p_departures p)) <= departureCountries s
     <= totalDepartures s) /\
    (List.length (byCity (p_departures p)) <= departureCities s
     <= totalDepartures s) /\
    total (p_arrivals p) = totalArrivals s /\
    total (p_departures p) = totalDepartures s.
Proof.
  intros fd p H s. subst s.
  destruct (SummaryFacts.processFlightData_ok fd p H)
    as (la & ld & _ & _ & Pa & Pd & Ps).
  rewrite Pa, Pd, Ps. simpl.
  destruct (SummaryFacts.loop_sizes "origin" "departure" la) as [A1 A2].
  destruct (SummaryFacts.loop_sizes "destination" "arrival" ld) as [D1 D2].
  pose proof (SummaryFacts.flight_count_le la).
  pose proof (SummaryFacts.flight_count_le ld).
  simpl in A1, A2, D1, D2.
  repeat split; try (apply SummaryFacts.fromEntries_length); lia.
Qed.

Lemma summary_counts_are_bounded_witness :
  exists p,
    FlightApi.processFlightData
      (Samples.schedule_of
         [Samples.from_frankfurt; Samples.no_payload; Samples.anonymous] [])
    = Ok p /\
    arrivalCountries (p_summary p) <= totalArrivals (p_summary p) /\
    total (p_arrivals p) = totalArrivals (p_summary p).
Proof.
  eexists. split; [reflexivity|].
  destruct (summary_counts_are_bounded
              (Samples.schedule_of
                 [Samples.from_frankfurt; Samples.no_payload; Samples.anonymous]
                 []) _ eq_refl) as ([_ H1] & _ & _ & _ & H5 & _).
  split; [exact H1|exact H5].
Defined.

(** X4: the property names of every grouping are pairwise distinct; when
    the keys of a direction are strings, the counts of the summary are
    the numbers of listed groups, and the countries (the cities) are listed
    in the order in which they first appear in the input, provided none of
    these names is made of digits only (an object lists its integer
    indices first). *)
Theorem groups_are_listed_in_first_seen_order :
  forall (flightData : schedule) (p : processed)
         (arrivals departures : list value),
    FlightApi.processFlightData flightData = Ok p ->
    s_arrivals flightData = VArr arrivals ->
    s_departures flightData = VArr departures ->
    (NoDup (map fst (byCountry (p_arrivals p))) /\
     NoDup (map fst (byCity (p_arrivals p))) /\
     NoDup (map fst (byCountry (p_departures p))) /\
     NoDup (map fst (byCity (p_departures p)))) /\
    (Forall (Spec.keys_are_strings "origin") arrivals ->
     arrivalCountries (p_summary p) = List.length (byCountry (p_arrivals p)) /\
     arrivalCities (p_summary p) = List.length (byCity (p_arrivals p)) /\
     (Spec.listed_by_insertion (Spec.country_names "origin" arrivals) ->
      map fst (byCountry (p_arrivals p))
      = Spec.first_seen [] (Spec.country_names "origin" arrivals)) /\
     (Spec.listed_by_insertion (Spec.city_names "origin" arrivals) ->
      map fst (byCity (p_arrivals p))
      = Spec.first_seen [] (Spec.city_names "origin" arrivals))) /\
    (Forall (Spec.keys_are_strings "destination") departures ->
     departureCountries (p_summary p)
     = List.length (byCountry (p_departures p)) /\
     departureCities (p_summary p) = List.length (byCity (p_departures p)) /\
     (Spec.listed_by_insertion (Spec.country_names "destination" departures) ->
      map fst (byCountry (p_departures p))
      = Spec.first_seen [] (Spec.country_names "destination" departures)) /\
     (Spec.listed_by_insertion (Spec.city_names "destination" departures) ->
      map fst (byCity (p_departures p))
      = Spec.first_seen [] (Spec.city_names "destination" departures))).
Proof.
  intros fd p la0 ld0 H Ha0 Hd0.
  destruct (SummaryFacts.processFlightData_ok fd p H)
    as (la & ld & Ha & Hd & Pa & Pd & Ps).
  assert (la = la0) by congruence. assert (ld = ld0) by congruence.
  subst la0 ld0. rewrite Pa, Pd, Ps.
  split; [|split].
  - simpl. repeat split; apply SummaryFacts.fromEntries_NoDup.
  - intros K.
    destruct (SummaryFacts.direction_names "origin" "departure" la K)
      as [N1 N2].
    destruct (SummaryFacts.direction_sizes_string_keyed
                "origin" "departure" la K) as [S1 S2].
    repeat split; auto.
  - intros K.
    destruct (SummaryFacts.direction_names "destination" "arrival" ld K)
      as [N1 N2].
    destruct (SummaryFacts.direction_sizes_string_keyed
                "destination" "arrival" ld K) as [S1 S2].
    repeat split; auto.
Qed.

Lemma groups_are_listed_in_first_seen_order_witness :
  exists p,
    FlightApi.processFlightData
      (Samples.schedule_of
         [Samples.anonymous; Samples.from_frankfurt; Samples.anonymous] [])
    = Ok p /\
    map fst (byCountry (p_arrivals p)) = ["Unknown Country"; "Germany"] /\
    arrivalCountries (p_summary p) = 2.
Proof.
  eexists. split; [reflexivity|].
  destruct (groups_are_listed_in_first_seen_order
              (Samples.schedule_of
                 [Samples.anonymous; Samples.from_frankfurt; Samples.anonymous]
                 [])
              _ [Samples.anonymous; Samples.from_frankfurt; Samples.anonymous]
              [] eq_refl eq_refl eq_refl) as (_ & Harr & _).
  destruct Harr as (C1 & _ & N1 & _).
  - repeat constructor; intros H; try discriminate H; split; reflexivity.
  - split; [|exact C1]. apply N1. repeat constructor.
Defined.

(** X5: when the airlines of the records are strings, each direction
    lists every airline of its records exactly once, and
    [uniqueAirlines] is the size of the union of the two lists: at least
    the longer of them and at most their sum. *)
Theorem airlines_are_listed_once :
  forall (flightData : schedule) (p : processed)
         (arrivals departures : list value),
    FlightApi.processFlightData flightData = Ok p ->
    s_arrivals flightData = VArr arrivals ->
    s_departures flightData = VArr departures ->
    Spec.airlines_are_strings arrivals ->
    Spec.airlines_are_strings departures ->
    NoDup (airlines (p_arrivals p)) /\
    NoDup (airlines (p_departures p)) /\
    (forall x, In x (airlines (p_arrivals p))
               <-> In x (Spec.airline_adds arrivals)) /\
    (forall x, In x (airlines (p_departures p))
               <-> In x (Spec.airline_adds departures)) /\
    Nat.max (List.length (airlines (p_arrivals p)))
            (List.length (airlines (p_departures p)))
    <= uniqueAirlines (p_summary p)
    <= List.length (airlines (p_arrivals p))
       + List.length (airlines (p_departures p)).
Proof.
  intros fd p la0 ld0 H Ha0 Hd0 Sa Sd.
  destruct (SummaryFacts.processFlightData_ok fd p H)
    as (la & ld & Ha & Hd & Pa & Pd & Ps).
  assert (la = la0) by congruence. assert (ld = ld0) by congruence.
  subst la0 ld0. rewrite Pa, Pd, Ps.
  destruct (AirlineFacts.direction_airlines "origin" "departure" la Sa)
    as (Na & Fa & Ia).
  destruct (AirlineFacts.direction_airlines "destination" "arrival" ld Sd)
    as (Nd & Fd & Id).
  destruct (AirlineFacts.union_size _ _ Na Nd Fa Fd) as (_ & _ & Hsize).
  split; [exact Na|]. split; [exact Nd|].
  split; [exact Ia|]. split; [exact Id|]. exact Hsize.
Qed.

Lemma airlines_are_listed_once_witness :
  exists p,
    FlightApi.processFlightData
      (Samples.schedule_of
         [Samples.from_frankfurt; Samples.from_frankfurt; Samples.anonymous]
         [Samples.from_frankfurt]) = Ok p /\
    NoDup (airlines (p_arrivals p)) /\
    Nat.max (List.length (airlines (p_arrivals p)))
            (List.length (airlines (p_departures p)))
    <= uniqueAirlines (p_summary p)
    <= List.length (airlines (p_arrivals p))
       + List.length (airlines (p_departures p)).
Proof.
  eexists. split; [reflexivity|].
  destruct (airlines_are_listed_once
              (Samples.schedule_of
                 [Samples.from_frankfurt; Samples.from_frankfurt;
                  Samples.anonymous]
                 [Samples.from_frankfurt])
              _ [Samples.from_frankfurt; Samples.from_frankfurt;
                 Samples.anonymous]
              [Samples.from_frankfurt] eq_refl eq_refl eq_refl)
    as (N & _ & _ & _ & Hsize).
  - repeat constructor.
  - repeat constructor.
  - split; [exact N|exact Hsize].
Defined.


(** X6: whatever the schedule API sends, a result of [getAirportSchedule]
    has an upper-cased airport, a day that is never 0 (0 counts as 1) with
    its label, and flight lists that are never [null] or [undefined]: the
    value under [airport.pluginData.schedule.<direction>.data] when there
    is a truthy one, the empty array otherwise; the totals of the metadata
    are the lengths of these lists. *)
Theorem fetched_schedule_is_well_formed :
  forall (w : world) (airportCode : string) (dayParam : Z) (mode : value)
         (s : schedule) (tr : list event),
    run (FlightApi.getAirportSchedule w airportCode dayParam mode) = (Ok s, tr) ->
    let found dir :=
      Spec.path (s_rawResult s)
                [dir; "airport"; "pluginData"; "schedule"; dir; "data"] in
    s_airport s = Str.toUpperCase airportCode /\
    s_dayParam s <> 0%Z /\
    (dayParam <> 0%Z -> s_dayParam s = dayParam) /\
    s_dayLabel s = FlightApi.getDayLabel (s_dayParam s) /\
    s_arrivals s
    = (if truthy (found "arrivals") then found "arrivals" else VArr []) /\
    s_departures s
    = (if truthy (found "departures") then found "departures" else VArr []) /\
    nullish (s_arrivals s) = false /\
    nullish (s_departures s) = false /\
    field (s_metadata s) "totalArrivals" = length_of (s_arrivals s) /\
    field (s_metadata s) "totalDepartures" = length_of (s_departures s).
Proof.
  intros w code day mode s tr H found.
  destruct (FetchRunFacts.fetched_shape w code day mode [] tr s H)
    as (Hair & Hday & Hlab & Harr & Hdep & Hta & Htd).
  assert (Hraw : exists ps, s_rawResult s = VObj ps).
  { revert H. unfold run, FlightApi.getAirportSchedule. unfold_M.
    repeat match goal with
           | |- context [if ?c then _ else _] => destruct c
           | |- context [flight_get ?w ?a ?b ?c] => destruct (flight_get w a b c)
           | |- context [template ?l] => destruct (template l) as [[]|?]
           end; intros H; inversion H; subst; simpl; eexists; reflexivity. }
  destruct Hraw as [ps Hps].
  assert (Hfound : forall dir,
             FlightApi.flights_in dir (s_rawResult s)
             = if truthy (found dir) then found dir else VArr []).
  { intros dir. subst found. rewrite Hps. reflexivity. }
  split; [exact Hair|]. split.
  { rewrite Hday. unfold Spec.valid_day_of.
    destruct (Z.eqb_spec day 0); [discriminate|assumption]. }
  split.
  { intros Hz. rewrite Hday. unfold Spec.valid_day_of.
    destruct (Z.eqb_spec day 0); [contradiction|reflexivity]. }
  split; [rewrite Hlab, Hday; reflexivity|].
  split; [rewrite Harr; apply Hfound|].
  split; [rewrite Hdep; apply Hfound|].
  split.
  { rewrite Harr. apply AggregatorFacts.truthy_not_nullish.
    apply FetchRunFacts.flights_in_truthy. }
  split.
  { rewrite Hdep. apply AggregatorFacts.truthy_not_nullish.
    apply FetchRunFacts.flights_in_truthy. }
  split; assumption.
Qed.

Lemma fetched_schedule_is_well_formed_witness :
  exists s tr,
    run (FlightApi.getAirportSchedule Samples.llm_down "dxb" 0 (VStr "both"))
    = (Ok s, tr) /\
    s_airport s = "DXB" /\
    s_dayParam s <> 0%Z /\
    s_arrivals s = VArr [] /\
    nullish (s_departures s) = false.
Proof.
  eexists. eexists. split; [reflexivity|].
  destruct (fetched_schedule_is_well_formed Samples.llm_down "dxb" 0
              (VStr "both") _ _ eq_refl)
    as (Ha & Hd & _ & _ & Harr & _ & _ & Hn & _).
  split; [exact Ha|]. split; [exact Hd|]. split; [exact Harr|exact Hn].
Defined.

(** X7: [getAirportSchedule] fails fast and retries nothing: when it
    throws, its trace is its entry followed by the first of the calls that
    the mode asks for, each direction at most once and arrivals first, and
    the error is the one that its [catch] clause makes either of the
    rejection of the last call issued, or of the TypeError of a log line
    that cannot print the mode (then no call was issued) or a length (then
    every call asked for was issued and answered). *)
Theorem fetcher_fails_fast :
  forall (w : world) (airportCode : string) (dayParam : Z) (mode : value)
         (err : js_error) (tr : list event),
    run (FlightApi.getAirportSchedule w airportCode dayParam mode)
    = (Throw err, tr) ->
    exists calls rest,
      tr = CallFetcher airportCode dayParam mode :: calls /\
      Spec.schedule_calls airportCode dayParam mode = (calls ++ rest)%list /\
      ((exists dir e pre,
           calls = (pre ++ [HttpFlight dir (Str.toUpperCase airportCode)
                                       (Spec.valid_day_of dayParam)])%list /\
           flight_get w dir (Str.toUpperCase airportCode)
                      (Spec.valid_day_of dayParam) = Rejected e /\
           err = FlightApi.fetch_error airportCode e)
       \/
       (err = FlightApi.fetch_error airportCode TypeError_convert /\
        ((printable mode = false /\ calls = []) \/
         (printable mode = true /\ rest = [])))).
Proof.
  intros w code day mode err tr H.
  destruct (FetchRunFacts.fetch_throw w code day mode [] tr err H)
    as (calls & rest & Htr & Hc & Hcase).
  exists calls, rest. simpl in Htr. auto.
Qed.

Lemma fetcher_fails_fast_witness :
  exists calls rest,
    snd (run (FlightApi.getAirportSchedule Samples.schedule_404 "dxb" 2
                (VStr "both")))
    = CallFetcher "dxb" 2 (VStr "both") :: calls /\
    [HttpFlight "arrivals" "DXB" 2; HttpFlight "departures" "DXB" 2]
    = (calls ++ rest)%list.
Proof.
  destruct (fetcher_fails_fast Samples.schedule_404 "dxb" 2 (VStr "both")
              (FlightApi.fetch_error "dxb" (Samples.http_status 404))
              [CallFetcher "dxb" 2 (VStr "both"); HttpFlight "arrivals" "DXB" 2]
              eq_refl) as (calls & rest & Htr & Hc & _).
  exists calls, rest. split; [exact Htr|exact Hc].
Defined.

(** X8: the mode decides which directions are asked for: both for
    ['both'] and for a missing mode, one for ['arrivals'] and for
    ['departures'], none otherwise.  When the mode can be printed and the
    calls asked for are answered with payloads whose flight lists have a
    length that can be printed (as every array has), the calls are issued
    once each, arrivals first, and the raw result holds the payload of
    each direction asked for and nothing for the other, whose flight list
    is empty. *)
Theorem fetcher_asks_for_requested_directions :
  forall (w : world) (airportCode : string) (dayParam : Z) (mode : value),
    let iata := Str.toUpperCase airportCode in
    let day := Spec.valid_day_of dayParam in
    printable mode = true ->
    (forall dir, In dir (Spec.requested mode) ->
                 exists d,
                   flight_get w dir iata day = Resolved d /\
                   printable (length_of (Spec.flights_of dir d)) = true) ->
    exists s,
      run (FlightApi.getAirportSchedule w airportCode dayParam mode)
      = (Ok s, CallFetcher airportCode dayParam mode
               :: map (fun dir => HttpFlight dir iata day)
                      (Spec.requested mode)) /\
      (forall dir, In dir (Spec.requested mode) ->
                   flight_get w dir iata day
                   = Resolved (field (s_rawResult s) dir)) /\
      (~ In "arrivals" (Spec.requested mode) ->
       field (s_rawResult s) "arrivals" = VUndef /\ s_arrivals s = VArr []) /\
      (~ In "departures" (Spec.requested mode) ->
       field (s_rawResult s) "departures" = VUndef /\
       s_departures s = VArr []).
Proof.
  intros w code dayp mode iata day Hp Hres.
  destruct (FetchRunFacts.mode_cases mode)
    as [[Hr Hm]|[[Hr Hm]|[[Hr Hm]|[Hr Hm]]]]; rewrite Hr in *.
  - destruct (Hres "arrivals") as [d1 [H1 P1]]; [simpl; tauto|].
    destruct (Hres "departures") as [d2 [H2 P2]]; [simpl; tauto|].
    unfold Spec.flights_of in P1, P2.
    unfold FlightApi.getAirportSchedule. rewrite Hm. unfold_M.
    fold iata. unfold Spec.valid_day_of in day. fold day.
    simpl. rewrite H1, H2. simpl.
    rewrite template_lengths.
    change (FlightApi.flights_in "arrivals"
              (VObj [("arrivals", d1); ("departures", d2)]))
      with (FlightApi.flights_in "arrivals" (VObj [("arrivals", d1)])).
    change (FlightApi.flights_in "departures"
              (VObj [("arrivals", d1); ("departures", d2)]))
      with (FlightApi.flights_in "departures" (VObj [("departures", d2)])).
    rewrite P1, P2. simpl.
    eexists. split; [reflexivity|]. simpl. split.
    + intros dir [<-|[<-|[]]]; assumption.
    + split; intros Hn; exfalso; apply Hn; tauto.
  - destruct (Hres "arrivals") as [d1 [H1 P1]]; [simpl; tauto|].
    unfold Spec.flights_of in P1.
    subst mode. unfold FlightApi.getAirportSchedule. unfold_M.
    fold iata. unfold Spec.valid_day_of in day. fold day.
    simpl. rewrite H1. simpl.
    rewrite template_lengths, P1. simpl.
    eexists. split; [reflexivity|]. simpl. split.
    + intros dir [<-|[]]; assumption.
    + split; intros Hn; [exfalso; apply Hn; tauto|split; reflexivity].
  - destruct (Hres "departures") as [d1 [H1 P1]]; [simpl; tauto|].
    unfold Spec.flights_of in P1.
    subst mode. unfold FlightApi.getAirportSchedule. unfold_M.
    fold iata. unfold Spec.valid_day_of in day. fold day.
    simpl. rewrite H1. simpl.
    rewrite template_lengths.
    change (FlightApi.flights_in "arrivals" (VObj [("departures", d1)]))
      with (VArr []).
    rewrite P1. simpl.
    eexists. split; [reflexivity|]. simpl. split.
    + intros dir [<-|[]]; assumption.
    + split; intros Hn; [split; reflexivity|exfalso; apply Hn; tauto].
  - eexists. split.
    + exact (FetcherFacts.unknown_mode_run w code dayp mode Hm Hp).
    + simpl. split; [intros dir []|]. split; intros _; split; reflexivity.
Qed.

Lemma fetcher_asks_for_requested_directions_witness :
  exists s,
    run (FlightApi.getAirportSchedule Samples.busy "lhr" 1 VUndef)
    = (Ok s, [CallFetcher "lhr" 1 VUndef; HttpFlight "arrivals" "LHR" 1;
              HttpFlight "departures" "LHR" 1]) /\
    flight_get Samples.busy "departures" "LHR" 1
    = Resolved (field (s_rawResult s) "departures").
Proof.
  destruct (fetcher_asks_for_requested_directions Samples.busy "lhr" 1 VUndef)
    as (s & Hrun & Hraw & _).
  - reflexivity.
  - intros dir [<-|[<-|[]]]; eexists; split; reflexivity.
  - exists s. split; [exact Hrun|]. apply Hraw. simpl. tauto.
Defined.


(** X9: the two airport tables agree: [getAirportName] knows a name for a
    code exactly when [isValidAirportCode] accepts it; any other code is
    named "Unknown Airport". *)
Theorem airport_name_known_iff_supported :
  forall (airportCode : string),
    FlightApi.isValidAirportCode airportCode = true <->
    FlightApi.getAirportName airportCode <> "Unknown Airport".
Proof.
  intros code.
  unfold FlightApi.isValidAirportCode, FlightApi.getAirportName.
  generalize (Str.toUpperCase code). intros u. simpl.
  destruct (String.eqb_spec u "DXB"); [simpl; split; [discriminate|reflexivity]|].
  destruct (String.eqb_spec u "LHR"); [simpl; split; [discriminate|reflexivity]|].
  destruct (String.eqb_spec u "CDG"); [simpl; split; [discriminate|reflexivity]|].
  destruct (String.eqb_spec u "SIN"); [simpl; split; [discriminate|reflexivity]|].
  destruct (String.eqb_spec u "HKG"); [simpl; split; [discriminate|reflexivity]|].
  destruct (String.eqb_spec u "AMS"); [simpl; split; [discriminate|reflexivity]|].
  simpl. split; [discriminate|congruence].
Qed.

(** X10: [analyzeQuestionForMode] never throws, whatever the LLM service
    does or sends: it issues exactly one request and returns a value that
    is neither [null] nor [undefined]. *)
Theorem classifier_always_returns :
  forall (w : world) (JSON_parse : string -> option value)
         (analysisPrompt : string -> string -> string)
         (question airport : string),
  exists r,
    run (Llm.analyzeQuestionForMode w JSON_parse analysisPrompt
           question airport)
    = (Ok r, [CallClassifier question airport;
              HttpLlm (Llm.analysis_request analysisPrompt question airport)])
    /\ nullish r = false.
Proof.
  intros w JP AP q a.
  destruct (LlmFacts.analyze_returns w JP AP q a []) as [r Hr].
  exists r. split; [exact Hr|].
  exact (LlmRunFacts.analyze_not_nullish w JP AP q a r _ Hr).
Qed.

(** X11: when the reply of the LLM parses to a value that says
    [relevant: false], the classifier returns the skip analysis: mode
    ['none'] whatever mode the reply named, [shouldSkipAPI] set, with the
    reasoning and confidence of the reply, and the handler will skip the
    fetch; any other parsed value that is not [null] is returned as it
    is.  This holds when the log line can print the [relevant], [mode],
    [confidence] and [reasoning] of the parsed value; when it cannot, the
    classifier falls back on the keywords of the question. *)
Theorem explicit_irrelevance_forces_skip :
  forall (w : world) (JSON_parse : string -> option value)
         (analysisPrompt : string -> string -> string)
         (question airport : string) (data analysis : value) (text : string),
    llm_post w (Llm.analysis_request analysisPrompt question airport)
    = Resolved data ->
    Llm.trimmed_content_of data = Ok (VStr text) ->
    JSON_parse (Llm.json_text text) = Some analysis ->
    nullish analysis = false ->
    exists r tr,
      run (Llm.analyzeQuestionForMode w JSON_parse analysisPrompt
             question airport) = (Ok r, tr) /\
      (Spec.loggable analysis = true ->
       (field analysis "relevant" = VBool false ->
        r = Spec.skip_analysis analysis /\
        field r "mode" = VStr "none" /\
        field r "reasoning" = field analysis "reasoning" /\
        field r "confidence" = field analysis "confidence" /\
        Route.skips r = true) /\
       (field analysis "relevant" <> VBool false -> r = analysis)) /\
      (Spec.loggable analysis = false ->
       r = Llm.keyword_fallback question).
Proof.
  intros w JP AP q a data analysis text H1 H2 H3 H4.
  eexists. eexists. split.
  - exact (LlmRunFacts.analyze_resolved w JP AP q a data H1).
  - rewrite H2. unfold Llm.parse_analysis. rewrite H3, H4.
    unfold template. fold (Spec.loggable analysis).
    split; intros Hlog; rewrite Hlog; [|reflexivity].
    split.
    + intros Hrel. rewrite Hrel. simpl. repeat split.
    + intros Hrel.
      destruct (field analysis "relevant") as [| |[|]| | | |];
        try reflexivity. congruence.
Qed.

Lemma explicit_irrelevance_forces_skip_witness :
  exists r tr,
    run (Llm.analyzeQuestionForMode Samples.chatty Samples.says_irrelevant
           Samples.prompt "What is the airport gate for pasta?" "DXB")
    = (Ok r, tr) /\
    field r "mode" = VStr "none" /\
    Route.skips r = true.
Proof.
  destruct (explicit_irrelevance_forces_skip Samples.chatty
              Samples.says_irrelevant Samples.prompt
              "What is the airport gate for pasta?" "DXB"
              (Samples.reply "I would say departures.")
              Samples.irrelevant_arrivals "I would say departures."
              eq_refl eq_refl eq_refl eq_refl)
    as (r & tr & Hrun & Hskip & _).
  exists r, tr. split; [exact Hrun|].
  destruct (Hskip eq_refl) as [Hrel _].
  destruct (Hrel eq_refl) as (_ & Hm & _ & _ & Hs).
  split; [exact Hm|exact Hs].
Defined.

(** X12: a completion payload without usable choices (a [null] payload,
    no [choices], or a content that is neither text nor missing) makes the
    classifier return its default analysis, while a payload whose first
    choice has no content makes it fall back on the keywords of the
    question. *)
Theorem malformed_completion_is_absorbed :
  forall (w : world) (JSON_parse : string -> option value)
         (analysisPrompt : string -> string -> string)
         (question airport : string) (data : value),
    llm_post w (Llm.analysis_request analysisPrompt question airport)
    = Resolved data ->
    exists r tr,
      run (Llm.analyzeQuestionForMode w JSON_parse analysisPrompt
             question airport) = (Ok r, tr) /\
      (nullish data = true \/ nullish (field data "choices") = true ->
       r = Llm.default_analysis) /\
      (nullish data = false -> nullish (field data "choices") = false ->
       (nullish (Spec.completion_text data) = true ->
        r = Llm.keyword_fallback question) /\
       (nullish (Spec.completion_text data) = false ->
        is_string (Spec.completion_text data) = false ->
        r = Llm.default_analysis)).
Proof.
  intros w JP AP q a data H.
  eexists. eexists. split.
  - exact (LlmRunFacts.analyze_resolved w JP AP q a data H).
  - unfold Llm.trimmed_content_of, Llm.content_of. split.
    + intros [Hn|Hn].
      * rewrite Hn. reflexivity.
      * destruct (nullish data); [reflexivity|]. rewrite Hn. reflexivity.
    + intros Hd Hc. rewrite Hd, Hc. simpl rbind.
      fold (Spec.completion_text data). split.
      * intros Hn. destruct (Spec.completion_text data);
          try discriminate Hn; reflexivity.
      * intros Hn Hs. destruct (Spec.completion_text data);
          try discriminate Hn; try discriminate Hs; reflexivity.
Qed.

Lemma malformed_completion_is_absorbed_witness :
  exists r tr,
    run (Llm.analyzeQuestionForMode Samples.silent Samples.no_json
           Samples.prompt "Which airline flies from Paris?" "CDG")
    = (Ok r, tr) /\
    r = Llm.default_analysis.
Proof.
  destruct (malformed_completion_is_absorbed Samples.silent Samples.no_json
              Samples.prompt "Which airline flies from Paris?" "CDG"
              (VObj []) eq_refl) as (r & tr & Hrun & Hdef & _).
  exists r, tr. split; [exact Hrun|]. apply Hdef. right. reflexivity.
Defined.

(** X13: the text handed to [JSON.parse] is the reply itself when it has
    no opening brace, and otherwise what lies between the first opening
    brace and the last closing brace, both included: prose around one JSON
    object is dropped. *)
Theorem json_text_extracts_object :
  forall (pre body post : string),
    ~ Str.occurs "{" pre -> ~ Str.occurs "}" post ->
    Llm.json_text (pre ++ "{" ++ body ++ "}" ++ post) = "{" ++ body ++ "}" /\
    Llm.json_text pre = pre.
Proof.
  intros pre body post Hpre Hpost. unfold Llm.json_text. split.
  - now rewrite (LlmRunFacts.match_braces_app pre body post Hpre Hpost).
  - now rewrite (LlmRunFacts.match_braces_none pre Hpre).
Qed.

Lemma json_text_extracts_object_witness :
  Llm.json_text ("Here you go: " ++ "{" ++ "mode: {x}" ++ "}" ++ " I hope it helps")
  = "{mode: {x}}" /\
  Llm.json_text "Here you go: " = "Here you go: ".
Proof.
  apply (json_text_extracts_object "Here you go: " "mode: {x}"
                                   " I hope it helps").
  - apply StrFacts.includes_false. reflexivity.
  - apply StrFacts.includes_false. reflexivity.
Defined.

(** X14: when the LLM answers with a non-empty text, [generateAnswer]
    returns that text trimmed, after one request that carries the persona
    prompt as the system message and the data prompt as the user
    message. *)
Theorem generator_returns_trimmed_text :
  forall (w : world) (systemPrompt : string)
         (buildSupportUserPrompt :
            string -> processed -> string -> value -> value -> result string)
         (question : string) (p : processed) (airport : string)
         (mode modeAnalysis data : value) (prompt text : string),
    buildSupportUserPrompt question p airport mode modeAnalysis = Ok prompt ->
    llm_post w (Llm.answer_request systemPrompt prompt) = Resolved data ->
    Llm.content_of data = Ok (VStr text) ->
    text <> "" ->
    run (Llm.generateAnswer w systemPrompt buildSupportUserPrompt question p
           airport mode modeAnalysis)
    = (Ok (Str.trim text),
       [CallGenerator question airport;
        HttpLlm {| model := "google/gemini-flash-1.5";
                   messages := [("system", systemPrompt); ("user", prompt)];
                   max_tokens := 1500 |}]).
Proof.
  intros w sp bp q p a mode ma data prompt text Hb Hp Hc Hne.
  rewrite (LlmRunFacts.generate_resolved w sp bp q p a mode ma prompt data
             Hb Hp).
  rewrite Hc, (ValidationFacts.truthy_string text Hne). reflexivity.
Qed.

Lemma generator_returns_trimmed_text_witness :
  run (Llm.generateAnswer Samples.busy "persona" Samples.data_prompt
         "How many flights?" (Samples.processed_of []) "LHR" (VStr "arrivals")
         Llm.default_analysis)
  = (Ok "Two flights carry data.",
     [CallGenerator "How many flights?" "LHR";
      HttpLlm {| model := "google/gemini-flash-1.5";
                 messages := [("system", "persona");
                              ("user", "How many flights?")];
                 max_tokens := 1500 |}]).
Proof.
  apply (generator_returns_trimmed_text Samples.busy "persona"
           Samples.data_prompt "How many flights?" (Samples.processed_of [])
           "LHR" (VStr "arrivals") Llm.default_analysis
           (Samples.reply " Two flights carry data. ")
           "How many flights?" " Two flights carry data. ").
  - reflexivity.
  - reflexivity.
  - reflexivity.
  - discriminate.
Defined.

(** X15: when the first choice of the LLM carries no text or an empty
    one, [generateAnswer] throws; its own [catch] clause wraps the error,
    so the message is "Failed to generate answer: No answer generated by
    LLM", which the handler answers with 500 [INTERNAL_ERROR]. *)
Theorem empty_generation_is_wrapped :
  forall (w : world) (systemPrompt : string)
         (buildSupportUserPrompt :
            string -> processed -> string -> value -> value -> result string)
         (question : string) (p : processed) (airport : string)
         (mode modeAnalysis data answer : value) (prompt : string),
    buildSupportUserPrompt question p airport mode modeAnalysis = Ok prompt ->
    llm_post w (Llm.answer_request systemPrompt prompt) = Resolved data ->
    Llm.content_of data = Ok answer ->
    truthy answer = false ->
    exists err,
      run (Llm.generateAnswer w systemPrompt buildSupportUserPrompt question p
             airport mode modeAnalysis)
      = (Throw err,
         [CallGenerator question airport;
          HttpLlm (Llm.answer_request systemPrompt prompt)]) /\
      e_message err = "Failed to generate answer: No answer generated by LLM" /\
      Route.classify_error (e_message err) = (500%Z, "INTERNAL_ERROR").
Proof.
  intros w sp bp q p a mode ma data answer prompt Hb Hp Hc Hf.
  eexists. split.
  - rewrite (LlmRunFacts.generate_resolved w sp bp q p a mode ma prompt data
               Hb Hp).
    rewrite Hc, Hf. reflexivity.
  - split; reflexivity.
Qed.

Lemma empty_generation_is_wrapped_witness :
  exists err,
    fst (run (Llm.generateAnswer Samples.silent "persona" Samples.data_prompt
                "How many flights?" (Samples.processed_of []) "LHR"
                (VStr "arrivals") Llm.default_analysis))
    = Throw err /\
    e_message err = "Failed to generate answer: No answer generated by LLM".
Proof.
  destruct (empty_generation_is_wrapped Samples.silent "persona"
              Samples.data_prompt "How many flights?" (Samples.processed_of [])
              "LHR" (VStr "arrivals") Llm.default_analysis (VObj [("choices", VArr [])])
              VUndef "How many flights?" eq_refl eq_refl eq_refl eq_refl)
    as (err & Hrun & Hmsg & _).
  exists err. split; [|exact Hmsg].
  now rewrite Hrun.
Defined.


(** X16: whatever it is given, [sanitizeQuestion] returns at most 500
    characters, all of them letters, digits, underscores, spaces or one of
    [? ! . , - ( )]: no markup, no quote, and no white space other than the
    space. *)
Theorem sanitized_question_is_plain :
  forall (question : value),
    (String.length (Llm.sanitizeQuestion question) <= 500)%nat /\
    Spec.all_chars Spec.plain_char (Llm.sanitizeQuestion question).
Proof.
  intros q. apply SanitizeFacts.sanitize_plain.
Qed.

(** X17: a request that passes the middleware reaches the handler with one
    of the six codes in upper case as its airport, with a question of at
    most 500 plain characters that passed [isValidQuestion] before
    sanitising, and with a day that is -1, 1 or 2 (1 when the date is
    missing). *)
Theorem validated_request_is_clean :
  forall (Number_ : value -> result (option Z)) (b : request_body) (cb : clean_body),
    Number_ VNull = Ok (Some 0%Z) ->
    Number_ VUndef = Ok None ->
    Route.validateQueryRequest Number_ b = Ok (inr cb) ->
    exists code q,
      airport b = VStr code /\ question b = VStr q /\
      c_airport cb = Str.toUpperCase code /\
      In (c_airport cb) FlightApi.validAirports /\
      Llm.isValidQuestion (VStr q) = true /\
      (String.length (c_question cb) <= 500)%nat /\
      Spec.all_chars Spec.plain_char (c_question cb) /\
      In (Route.dayParam_of cb) [(-1)%Z; 1%Z; 2%Z] /\
      (nullish (date b) = true -> Route.dayParam_of cb = 1%Z).
Proof.
  intros N b cb Hnull Hundef H.
  destruct (HandlerFacts.validated_body N b cb Hnull Hundef H)
    as (code & q & Ha & Hq & Hv & Hvq & Hca & Hcq & Hday & Hmiss & _).
  pose proof (EndpointFacts.upper_supported code Hv) as Hin.
  assert (Hc : c_airport cb = Str.toUpperCase code)
    by (rewrite Hca; now apply EndpointFacts.trim_supported).
  exists code, q.
  split; [exact Ha|]. split; [exact Hq|]. split; [exact Hc|].
  split; [now rewrite Hc|]. split; [exact Hvq|].
  rewrite Hcq.
  destruct (SanitizeFacts.sanitize_plain (VStr q)) as [Hlen Hplain].
  split; [exact Hlen|]. split; [exact Hplain|].
  split; [exact Hday|exact Hmiss].
Qed.

Lemma validated_request_is_clean_witness :
  exists cb,
    Route.validateQueryRequest Samples.to_number
      (Samples.request (VStr "lhr") (VStr "  How many <b>flights</b>?  "))
    = Ok (inr cb) /\
    c_airport cb = "LHR" /\
    c_question cb = "How many bflightsb?" /\
    Route.dayParam_of cb = 1%Z.
Proof.
  eexists. split; [reflexivity|].
  destruct (validated_request_is_clean Samples.to_number
              (Samples.request (VStr "lhr")
                               (VStr "  How many <b>flights</b>?  "))
              _ eq_refl eq_refl eq_refl)
    as (code & q & Ha & _ & Hc & _ & _ & _ & _ & _ & Hmiss).
  split; [|split; [reflexivity|apply Hmiss; reflexivity]].
  rewrite Hc. inversion Ha. reflexivity.
Defined.

(** X18: whatever the airport, the question and the date of the request
    body and whatever the two upstream services do, [POST /query] sends
    one response, with a status among 200, 400, 404,
    429, 500, 502 and 504 and with nothing called when the status is 400,
    unless [Number(date)] throws in the middleware: that error, and no
    other, escapes the route; it is only thrown once the airport and the
    question have passed, and nothing has been called. *)
Theorem endpoint_answers_unless_date_throws :
  forall (w : world) (JSON_parse : string -> option value)
         (analysisPrompt : string -> string -> string)
         (systemPrompt : string)
         (buildSupportUserPrompt :
            string -> processed -> string -> value -> value -> result string)
         (Number_ : value -> result (option Z)) (b : request_body),
  let outcome :=
    Route.post_query w JSON_parse analysisPrompt systemPrompt
      buildSupportUserPrompt Number_ b in
  (exists resp tr,
      outcome = (Ok resp, tr) /\
      In (status resp) [200%Z; 400%Z; 404%Z; 429%Z; 500%Z; 502%Z; 504%Z] /\
      (status resp = 400%Z -> tr = []))
  \/
  (exists e,
      outcome = (Throw e, []) /\
      Number_ (date b) = Throw e /\
      FlightApi.isValidAirportCode (Route.string_of (airport b)) = true /\
      Llm.isValidQuestion (question b) = true).
Proof.
  intros w JP AP SP BP N b outcome. subst outcome. unfold Route.post_query.
  destruct (HandlerFacts.validate_outcomes N b)
    as [(r & Hv & Hst & _)|[(cb & Hv)|(e & Hv & He & Ha & Hq)]]; rewrite Hv;
    [| |right; exists e; repeat split; assumption].
  - left. exists r, []. split; [reflexivity|].
    rewrite Hst. simpl. tauto.
  - left.
    assert (Herr : forall e tr,
               In (status (Route.error_response w cb e))
                  [200%Z; 400%Z; 404%Z; 429%Z; 500%Z; 502%Z; 504%Z] /\
               (status (Route.error_response w cb e) = 400%Z -> tr = @nil event)).
    { intros e tr. simpl status.
      pose proof (HandlerFacts.classify_error_statuses (e_message e)) as Hs.
      simpl in Hs. split.
      - simpl. intuition.
      - intros H. rewrite H in Hs. intuition discriminate. }
    destruct (HandlerFacts.query_cases w JP AP SP BP cb)
      as (ma & tr1 & Hma & Htr1 & [[Hs Hrun]|[Hs Hrest]]).
    + eexists. eexists. split; [exact Hrun|]. simpl.
      split; [tauto|discriminate].
    + destruct Hrest as (fr & tr2 & Hf & Hcase).
      destruct fr as [raw|e].
      * destruct Hcase as [[Hn Hrun]|[Hn Hcase]].
        -- eexists. eexists. split; [exact Hrun|]. simpl.
           split; [tauto|discriminate].
        -- destruct (FlightApi.processFlightData raw) as [p|e].
           ++ destruct Hcase as (gr & tr3 & Hg & Hcase).
              destruct gr as [answer|e].
              ** eexists. eexists. split; [exact Hcase|]. simpl.
                 split; [tauto|discriminate].
              ** eexists. eexists. split; [exact Hcase|]. apply Herr.
           ++ eexists. eexists. split; [exact Hcase|].
              destruct (Herr e []) as [H1 H2]. split; [exact H1|].
              intros H. specialize (H2 H).
              pose proof (HandlerFacts.classify_error_statuses (e_message e))
                as Hst.
              simpl status in H. rewrite H in Hst. simpl in Hst.
              intuition discriminate.
      * eexists. eexists. split; [exact Hcase|].
        destruct (Herr e []) as [H1 H2]. split; [exact H1|].
        intros H.
        pose proof (HandlerFacts.classify_error_statuses (e_message e)) as Hst.
        simpl status in H. rewrite H in Hst. simpl in Hst.
        intuition discriminate.
Qed.

(** X19: the trace of every run of the handler follows the pipeline: the
    classifier and its one request; then (if reached) the fetcher and the
    first of the calls of the schedule API that its mode asks for, that is
    at most one call for each direction, arrivals first, for the airport
    and the day of the request; then (if reached) the aggregator, the
    generator and at most one request to the LLM with the persona and a
    data prompt.  So a request costs at most two LLM requests and two
    schedule calls, and no call is issued twice. *)
Theorem handler_trace_follows_pipeline :
  forall (w : world) (JSON_parse : string -> option value)
         (analysisPrompt : string -> string -> string)
         (systemPrompt : string)
         (buildSupportUserPrompt :
            string -> processed -> string -> value -> value -> result string)
         (b : clean_body),
  exists fetch rest,
    snd (run (Route.query w JSON_parse analysisPrompt systemPrompt
                buildSupportUserPrompt b))
    = ([CallClassifier (c_question b) (c_airport b);
        HttpLlm (Llm.analysis_request analysisPrompt (c_question b)
                                      (c_airport b))]
       ++ fetch ++ rest)%list /\
    Spec.fetch_events b fetch /\
    Spec.generation_events systemPrompt b rest /\
    (fetch = [] -> rest = []).
Proof.
  intros w JP AP SP BP b.
  destruct (HandlerFacts.query_cases w JP AP SP BP b)
    as (ma & tr1 & Hma & Htr1 & [[Hs Hrun]|[Hs Hrest]]).
  - exists [], []. rewrite Hrun, Htr1. simpl.
    split; [reflexivity|]. split; [left; reflexivity|].
    split; [left; reflexivity|reflexivity].
  - destruct Hrest as (fr & tr2 & Hf & Hcase).
    destruct (HandlerFacts.fetch_calls _ _ _ _ _ _ _ Hf)
      as (calls & Htr2 & Hcalls).
    set (fetch := CallFetcher (c_airport b) (Route.dayParam_of b)
                              (field ma "mode") :: calls).
    assert (Hfe : Spec.fetch_events b fetch)
      by (right; exists (field ma "mode"), calls; auto).
    assert (Hne : fetch = [] -> forall rest : list event, rest = [])
      by (intros X; discriminate X).
    assert (Htr : forall rest,
               (tr2 ++ rest)%list = (tr1 ++ fetch ++ rest)%list)
      by (intros rest; rewrite Htr2; subst fetch;
          now rewrite <- app_assoc).
    rewrite Htr1 in Htr.
    destruct fr as [raw|e].
    + destruct Hcase as [[Hn Hrun]|[Hn Hcase]].
      * exists fetch, []. rewrite Hrun. simpl snd.
        rewrite <- (Htr []), app_nil_r.
        split; [reflexivity|]. split; [exact Hfe|].
        split; [left; reflexivity|reflexivity].
      * destruct (FlightApi.processFlightData raw) as [p|e].
        -- destruct Hcase as (gr & tr3 & Hg & Hcase).
           assert (Hrun : snd (run (Route.query w JP AP SP BP b)) = tr3)
             by (destruct gr; rewrite Hcase; reflexivity).
           destruct (LlmRunFacts.generate_trace w SP BP _ _ _ _ _ _ _ _ Hg)
             as [Ht|[prompt [_ Ht]]];
             rewrite Hrun, Ht, <- app_assoc; simpl app.
           ++ exists fetch,
                [CallAggregator; CallGenerator (c_question b) (c_airport b)].
              split; [apply Htr|]. split; [exact Hfe|].
              split; [right; right; left; reflexivity|].
              intros X; discriminate X.
           ++ exists fetch,
                [CallAggregator; CallGenerator (c_question b) (c_airport b);
                 HttpLlm (Llm.answer_request SP prompt)].
              split; [apply Htr|]. split; [exact Hfe|].
              split; [right; right; right; eexists; reflexivity|].
              intros X; discriminate X.
        -- exists fetch, [CallAggregator]. rewrite Hcase. simpl snd.
           split; [apply Htr|]. split; [exact Hfe|].
           split; [right; left; reflexivity|intros X; discriminate X].
    + exists fetch, []. rewrite Hcase. simpl snd.
      rewrite <- (Htr []), app_nil_r.
      split; [reflexivity|]. split; [exact Hfe|].
      split; [left; reflexivity|reflexivity].
Qed.

(** X20: when [processFlightData] throws on what the fetcher returned (a
    flight list that is not an array, one that holds a [null], or a key
    that cannot be a property name), the handler answers 500
    [INTERNAL_ERROR] with the TypeError's message, and the generator is
    never entered. *)
Theorem aggregation_failure_answers_500 :
  forall (w : world) (JSON_parse : string -> option value)
         (analysisPrompt : string -> string -> string)
         (systemPrompt : string)
         (buildSupportUserPrompt :
            string -> processed -> string -> value -> value -> result string)
         (b : clean_body) (modeAnalysis : value) (raw : schedule)
         (tr1 tr2 : list event) (err : js_error),
    run (Llm.analyzeQuestionForMode w JSON_parse analysisPrompt
           (c_question b) (c_airport b)) = (Ok modeAnalysis, tr1) ->
    Route.skips modeAnalysis = false ->
    FlightApi.getAirportSchedule w (c_airport b) (Route.dayParam_of b)
      (field modeAnalysis "mode") tr1 = (Ok raw, tr2) ->
    Route.no_flights raw = false ->
    FlightApi.processFlightData raw = Throw err ->
    exists resp,
      run (Route.query w JSON_parse analysisPrompt systemPrompt
             buildSupportUserPrompt b)
      = (Ok resp, (tr2 ++ [CallAggregator])%list) /\
      status resp = 500%Z /\
      field (body resp) "code" = VStr "INTERNAL_ERROR" /\
      field (body resp) "error" = VStr (e_message err).
Proof.
  intros w JP AP SP BP b ma raw tr1 tr2 err Hma Hs Hf Hn Hp.
  exists (Route.error_response w b err). split.
  - exact (HandlerFacts.query_aggregate_failed w JP AP SP BP b ma tr1 tr2
             raw err Hma Hs Hf Hn Hp).
  - pose proof (HandlerFacts.aggregation_error_is_internal raw err Hp) as Hc.
    unfold Route.error_response. simpl. rewrite Hc. repeat split.
Qed.

Lemma aggregation_failure_answers_500_witness :
  exists resp tr,
    run (Route.query Samples.broken_list Samples.no_json Samples.prompt
           "persona" Samples.data_prompt
           (Samples.ask "DXB" "How many flights from Germany?"))
    = (Ok resp, tr) /\
    status resp = 500%Z /\
    field (body resp) "error"
    = VStr "Cannot read properties of null (reading 'flight')".
Proof.
  destruct (aggregation_failure_answers_500 Samples.broken_list
              Samples.no_json Samples.prompt "persona" Samples.data_prompt
              (Samples.ask "DXB" "How many flights from Germany?")
              Llm.default_analysis
              (Samples.fetched_from Samples.broken_list)
              Samples.classified
              (snd (FlightApi.getAirportSchedule Samples.broken_list "DXB" 1
                      (VStr "arrivals") Samples.classified))
              (Error "Cannot read properties of null (reading 'flight')")
              eq_refl eq_refl eq_refl eq_refl eq_refl)
    as (resp & Hrun & Hst & _ & Herr).
  exists resp. eexists. split; [exact Hrun|]. split; [exact Hst|exact Herr].
Defined.

(** X21: when every stage succeeds, the handler answers 200 with the
    generated text, the mode of the analysis (also as
    [metadata.flightApiMode]), [flightApiCalled = true], the totals of the
    aggregate, the day of the fetch and the raw result; the analysis it
    echoes has no [relevant] field. *)
Theorem successful_pipeline_answers_200 :
  forall (w : world) (JSON_parse : string -> option value)
         (analysisPrompt : string -> string -> string)
         (systemPrompt : string)
         (buildSupportUserPrompt :
            string -> processed -> string -> value -> value -> result string)
         (b : clean_body) (modeAnalysis : value) (raw : schedule)
         (p : processed) (answer : string) (tr1 tr2 tr3 : list event),
    run (Llm.analyzeQuestionForMode w JSON_parse analysisPrompt
           (c_question b) (c_airport b)) = (Ok modeAnalysis, tr1) ->
    Route.skips modeAnalysis = false ->
    FlightApi.getAirportSchedule w (c_airport b) (Route.dayParam_of b)
      (field modeAnalysis "mode") tr1 = (Ok raw, tr2) ->
    Route.no_flights raw = false ->
    FlightApi.processFlightData raw = Ok p ->
    Llm.generateAnswer w systemPrompt buildSupportUserPrompt (c_question b) p
      (c_airport b) (field modeAnalysis "mode") modeAnalysis
      (tr2 ++ [CallAggregator])%list = (Ok answer, tr3) ->
    exists resp,
      run (Route.query w JSON_parse analysisPrompt systemPrompt
             buildSupportUserPrompt b) = (Ok resp, tr3) /\
      status resp = 200%Z /\
      field (body resp) "answer" = VStr answer /\
      field (field (body resp) "analysis") "mode" = field modeAnalysis "mode" /\
      field (field (body resp) "analysis") "relevant" = VUndef /\
      field (field (body resp) "metadata") "flightApiCalled" = VBool true /\
      field (field (body resp) "metadata") "flightApiMode"
      = field modeAnalysis "mode" /\
      field (field (body resp) "data") "dayParam" = VNum (s_dayParam raw) /\
      field (field (body resp) "data") "rawResult" = s_rawResult raw /\
      field (field (field (body resp) "data") "arrivals") "total"
      = VNum (Z.of_nat (totalArrivals (p_summary p))) /\
      field (field (field (body resp) "data") "departures") "total"
      = VNum (Z.of_nat (totalDepartures (p_summary p))).
Proof.
  intros w JP AP SP BP b ma raw p answer tr1 tr2 tr3 Hma Hs Hf Hn Hp Hg.
  exists (Route.answered_response w b ma p answer). split.
  - exact (HandlerFacts.query_answered w JP AP SP BP b ma tr1 tr2 tr3 raw p
             answer Hma Hs Hf Hn Hp Hg).
  - destruct (SummaryFacts.processFlightData_ok raw p Hp)
      as (la & ld & Ha & Hd & Pa & Pd & Ps).
    assert (Hday : p_dayParam p = s_dayParam raw /\
                   p_rawResult p = s_rawResult raw).
    { unfold FlightApi.processFlightData in Hp.
      destruct (FlightApi.forEach_value "arrivals" _ _ _); [|discriminate Hp].
      destruct (FlightApi.forEach_value "departures" _ _ _);
        [|discriminate Hp].
      simpl in Hp.
      destruct (FlightApi.direction_of _ _); [|discriminate Hp].
      destruct (FlightApi.direction_of _ _); [|discriminate Hp].
      simpl in Hp. inversion Hp; subst p. split; reflexivity. }
    destruct Hday as [Hday Hraw].
    simpl. rewrite Hday, Hraw, Pa, Pd, Ps. simpl.
    repeat split.
Qed.

Lemma successful_pipeline_answers_200_witness :
  exists resp tr,
    run (Route.query Samples.busy Samples.no_json Samples.prompt "persona"
           Samples.data_prompt
           (Samples.ask "LHR" "How many flights from Germany?"))
    = (Ok resp, tr) /\
    status resp = 200%Z /\
    field (body resp) "answer" = VStr "Two flights carry data." /\
    field (field (body resp) "metadata") "flightApiCalled" = VBool true.
Proof.
  destruct (successful_pipeline_answers_200 Samples.busy Samples.no_json
              Samples.prompt "persona" Samples.data_prompt
              (Samples.ask "LHR" "How many flights from Germany?")
              Llm.default_analysis
              (Samples.fetched_at Samples.busy "LHR")
              (Samples.aggregated_at Samples.busy "LHR")
              "Two flights carry data."
              (Samples.classified_at "LHR")
              (snd (FlightApi.getAirportSchedule Samples.busy "LHR" 1
                      (VStr "arrivals") (Samples.classified_at "LHR")))
              _ eq_refl eq_refl eq_refl eq_refl eq_refl eq_refl)
    as (resp & Hrun & Hst & Hans & _ & _ & Hcalled & _).
  exists resp. eexists. split; [exact Hrun|].
  split; [exact Hst|]. split; [exact Hans|exact Hcalled].
Defined.


(** X22: the submit button and the submit handler agree: [canSubmit] is
    truthy exactly when [validateForm] returns [true], that is when an
    airport is selected and the trimmed question has between 5 and 500
    characters (500 included, although the message says "less than"). *)
Theorem submit_button_matches_validation :
  forall (f : form),
    truthy (Frontend.canSubmit f) = snd (Frontend.validateForm f) /\
    (snd (Frontend.validateForm f) = true <->
     truthy (selectedAirport f) = true /\
     (5 <= String.length (Str.trim (f_question f)) <= 500)%nat).
Proof.
  intros f. split; [|apply FrontendFacts.validateForm_ok].
  pose proof (FrontendFacts.validateForm_ok f) as V.
  pose proof (FrontendFacts.canSubmit_ok f) as C.
  destruct (truthy (Frontend.canSubmit f));
    destruct (snd (Frontend.validateForm f)); try reflexivity.
  - symmetry. apply V, C. reflexivity.
  - apply C, V. reflexivity.
Qed.

(** X23: a form that passes [validateForm] with an airport and a date
    taken from its two dropdowns posts a body that the middleware of the
    backend can reject for one reason only: the trimmed question holds
    neither a question word nor a question mark
    (INVALID_QUESTION_FORMAT).  Otherwise the handler receives the
    selected airport, the sanitised question and the selected day, 1
    when no date is selected. *)
Theorem submitted_form_meets_middleware :
  forall (Number_ : value -> result (option Z)) (f : form) (code : string),
    (forall n, Number_ (VNum n) = Ok (Some n)) ->
    snd (Frontend.validateForm f) = true ->
    selectedAirport f = VStr code ->
    In code (map fst Frontend.airports) ->
    Spec.date_choice (selectedDate f) ->
    let posted :=
      Frontend.query_body code (Str.trim (f_question f))
                          (or (selectedDate f) (VNum 1)) in
    if Spec.asks (Str.trim (f_question f)) then
      exists cb,
        Route.validateQueryRequest Number_ posted = Ok (inr cb) /\
        c_airport cb = code /\
        c_question cb = Llm.sanitizeQuestion (VStr (Str.trim (f_question f))) /\
        Route.dayParam_of cb = Spec.submitted_day (selectedDate f)
    else
      exists r,
        Route.validateQueryRequest Number_ posted = Ok (inl r) /\
        status r = 400%Z /\
        field (body r) "code" = VStr "INVALID_QUESTION_FORMAT".
Proof.
  intros N f code HN Hv Hsel Hin Hdate posted.
  apply FrontendFacts.validateForm_ok in Hv. destruct Hv as [_ Hlen].
  destruct (ClientFacts.form_airport code Hin) as (Hup & Htrim & Hne & Hvalid).
  destruct (ClientFacts.form_date N (selectedDate f) HN Hdate)
    as (d & Hor & Hd & Hday & Hnz).
  pose proof (ClientFacts.isValidQuestion_trimmed (f_question f) Hlen) as Hq.
  assert (Hqne : String.eqb (Str.trim (f_question f)) "" = false)
    by (apply ClientFacts.length_not_empty; lia).
  subst posted. unfold Frontend.query_body. rewrite Hor, Hup.
  rewrite FrontendFacts.trim_idem.
  unfold Route.validateQueryRequest.
  cbn [airport question date truthy is_string Route.string_of nullish].
  rewrite Hne, Hvalid, Hqne, Hq.
  cbn [negb orb andb].
  destruct (Spec.asks (Str.trim (f_question f))); cbn [negb].
  - unfold Route.invalid_day. rewrite !HN. cbn [rbind].
    rewrite Hday. cbn [negb rbind]. rewrite Hnz.
    eexists. split; [reflexivity|].
    cbn [c_airport c_question]. rewrite Hup, Htrim.
    split; [reflexivity|]. split; [reflexivity|].
    unfold Route.dayParam_of. cbn [c_date]. rewrite Hnz. exact Hd.
  - eexists. split; [reflexivity|]. split; reflexivity.
Qed.

Lemma submitted_form_meets_middleware_witness :
  exists cb,
    Route.validateQueryRequest Samples.to_number
      (Frontend.query_body "CDG" "Which airlines fly here"
                           (VNum (-1))) = Ok (inr cb) /\
    c_airport cb = "CDG" /\
    Route.dayParam_of cb = (-1)%Z.
Proof.
  destruct (submitted_form_meets_middleware Samples.to_number
              {| selectedAirport := VStr "CDG";
                 f_question := "  Which airlines fly here ";
                 selectedDate := VNum (-1) |} "CDG")
    as (cb & H1 & H2 & _ & H4).
  - intros n. reflexivity.
  - reflexivity.
  - reflexivity.
  - simpl. tauto.
  - right. exists "Yesterday", (-1)%Z. split; [simpl; tauto|reflexivity].
  - exists cb. split; [exact H1|]. split; [exact H2|exact H4].
Defined.

(** X24: every response of the endpoint that is not a 200 reaches the
    user as an error toast with a non-empty text, and no card is shown.
    The text is the server's own for 400 and 404, and for 500 unless the
    server's is empty; for 429, 502 and 504 the client's fixed text
    replaces the server's. *)
Theorem rejections_reach_the_user :
  forall (w : world) (JSON_parse : string -> option value)
         (analysisPrompt : string -> string -> string)
         (systemPrompt : string)
         (buildSupportUserPrompt :
            string -> processed -> string -> value -> value -> result string)
         (Number_ : value -> result (option Z)) (f : form) (code : string)
         (resp : response) (tr : list event),
    snd (Frontend.validateForm f) = true ->
    selectedAirport f = VStr code ->
    Route.post_query w JSON_parse analysisPrompt systemPrompt
      buildSupportUserPrompt Number_
      (Frontend.query_body code (Str.trim (f_question f))
                           (or (selectedDate f) (VNum 1))) = (Ok resp, tr) ->
    status resp <> 200%Z ->
    exists m,
      Frontend.handleSubmit
        (Spec.served w JSON_parse analysisPrompt systemPrompt
                     buildSupportUserPrompt Number_) f
      = Some (VObj [("error", VStr m)]) /\
      m <> "" /\
      Frontend.handleQuery (VObj [("error", VStr m)])
      = Ok (VNull, {| severity := "error"; detail := VStr m |}) /\
      Frontend.displayed VNull = NoCard /\
      (status resp = 400%Z \/ status resp = 404%Z ->
       field (body resp) "error" = VStr m) /\
      (status resp = 500%Z ->
       field (body resp) "error" = VStr m \/
       (field (body resp) "error" = VStr "" /\
        m = "Server error. Please try again later.")) /\
      (status resp = 429%Z ->
       m = "Rate limit exceeded. Please try again later.") /\
      (status resp = 502%Z ->
       m = "External service unavailable. Please try again later.") /\
      (status resp = 504%Z -> m = "Request timeout. Please try again.").
Proof.
  intros w JP AP SP BP N f code resp tr Hv Hsel Hrun Hst.
  destruct (FrontendFacts.post_query_sent w JP AP SP BP N _ _ _ Hrun)
    as (resp' & E & Hsent).
  inversion E; subst resp'; clear E.
  destruct (ClientFacts.transform_sent w resp Hsent Hst)
    as (m & Ht & Hne & Hrange & Hrel).
  exists m. split.
  - unfold Frontend.handleSubmit. rewrite Hv, Hsel. cbn [negb].
    unfold Frontend.queryFlights.
    rewrite (ClientFacts.served_response w JP AP SP BP N _ resp tr Hrun).
    rewrite Hrange, Ht. reflexivity.
  - split; [exact Hne|]. split.
    + unfold Frontend.handleQuery. cbn [nullish field lookup String.eqb
                                         Ascii.eqb Bool.eqb truthy].
      destruct (String.eqb_spec m ""); [contradiction|]. reflexivity.
    + split; [reflexivity|exact Hrel].
Qed.

Lemma rejections_reach_the_user_witness :
  exists m,
    Frontend.handleSubmit
      (Spec.served Samples.broken_list Samples.no_json Samples.prompt
                   "persona" Samples.data_prompt Samples.to_number)
      {| selectedAirport := VStr "DXB";
         f_question := "How many flights from Germany?";
         selectedDate := VNull |}
    = Some (VObj [("error", VStr m)]) /\
    m = "Cannot read properties of null (reading 'flight')".
Proof.
  destruct (rejections_reach_the_user Samples.broken_list Samples.no_json
              Samples.prompt "persona" Samples.data_prompt Samples.to_number
              {| selectedAirport := VStr "DXB";
                 f_question := "How many flights from Germany?";
                 selectedDate := VNull |} "DXB"
              (Route.error_response Samples.broken_list
                 (Samples.ask "DXB" "How many flights from Germany?")
                 (Error "Cannot read properties of null (reading 'flight')"))
              _ eq_refl eq_refl eq_refl)
    as (m & Hs & _ & _ & _ & _ & H500 & _).
  - simpl. discriminate.
  - exists m. split; [exact Hs|].
    destruct (H500 eq_refl) as [H|[H _]]; simpl in H.
    + inversion H. reflexivity.
    + discriminate H.
Defined.

(** X25: every 200 response of the endpoint reaches the user as a card:
    [handleSubmit] emits its body, [handleQuery] keeps it with a success
    toast, and ResultDisplay shows the card for an irrelevant question
    when the API was not called ([flightApiCalled] is [false], the
    answer is the canned one) and the data card otherwise, whose two
    lists are then arrays. *)
Theorem answers_reach_a_card :
  forall (w : world) (JSON_parse : string -> option value)
         (analysisPrompt : string -> string -> string)
         (systemPrompt : string)
         (buildSupportUserPrompt :
            string -> processed -> string -> value -> value -> result string)
         (Number_ : value -> result (option Z)) (f : form) (code : string)
         (resp : response) (tr : list event),
    snd (Frontend.validateForm f) = true ->
    selectedAirport f = VStr code ->
    Route.post_query w JSON_parse analysisPrompt systemPrompt
      buildSupportUserPrompt Number_
      (Frontend.query_body code (Str.trim (f_question f))
                           (or (selectedDate f) (VNum 1))) = (Ok resp, tr) ->
    status resp = 200%Z ->
    Frontend.handleSubmit
      (Spec.served w JSON_parse analysisPrompt systemPrompt
                   buildSupportUserPrompt Number_) f
    = Some (body resp) /\
    (exists t, Frontend.handleQuery (body resp) = Ok (body resp, t) /\
               severity t = "success") /\
    ((Frontend.displayed (body resp) = IrrelevantCard /\
      field (field (body resp) "metadata") "flightApiCalled" = VBool false /\
      field (body resp) "answer" = VStr Route.cannedAnswer)
     \/
     (Frontend.displayed (body resp) = DataCard /\
      field (field (body resp) "metadata") "flightApiCalled" = VBool true /\
      exists countries airlines,
        Spec.path (body resp) ["data"; "arrivals"; "topCountries"]
        = VArr countries /\
        Spec.path (body resp) ["data"; "arrivals"; "topAirlines"]
        = VArr airlines)).
Proof.
  intros w JP AP SP BP N f code resp tr Hv Hsel Hrun Hst.
  destruct (FrontendFacts.post_query_sent w JP AP SP BP N _ _ _ Hrun)
    as (resp' & E & Hsent).
  inversion E; subst resp'; clear E.
  split.
  - unfold Frontend.handleSubmit. rewrite Hv, Hsel. cbn [negb].
    unfold Frontend.queryFlights.
    rewrite (ClientFacts.served_response w JP AP SP BP N _ resp tr Hrun).
    rewrite Hst. reflexivity.
  - destruct Hsent as [r H400 _|cb ma|cb raw|cb ma p a|cb e].
    + rewrite H400 in Hst. discriminate Hst.
    + split; [eexists; split; reflexivity|]. left.
      split; [reflexivity|]. split; reflexivity.
    + discriminate Hst.
    + split; [eexists; split; reflexivity|]. right.
      split; [reflexivity|]. split; [reflexivity|].
      eexists. eexists. split; reflexivity.
    + exfalso. simpl in Hst.
      pose proof (HandlerFacts.classify_error_statuses (e_message e)) as Hc.
      rewrite Hst in Hc. simpl in Hc. intuition discriminate.
Qed.

Lemma answers_reach_a_card_witness :
  Frontend.handleSubmit
    (Spec.served Samples.busy Samples.no_json Samples.prompt "persona"
                 Samples.data_prompt Samples.to_number)
    {| selectedAirport := VStr "LHR";
       f_question := "How many flights from Germany?";
       selectedDate := VNull |}
  = Some (body (Route.answered_response Samples.busy
                  (Samples.ask "LHR" "How many flights from Germany?")
                  Llm.default_analysis
                  (Samples.aggregated_at Samples.busy "LHR")
                  "Two flights carry data.")) /\
  Frontend.displayed
    (body (Route.answered_response Samples.busy
             (Samples.ask "LHR" "How many flights from Germany?")
             Llm.default_analysis
             (Samples.aggregated_at Samples.busy "LHR")
             "Two flights carry data.")) = DataCard.
Proof.
  destruct (answers_reach_a_card Samples.busy Samples.no_json
              Samples.prompt "persona" Samples.data_prompt Samples.to_number
              {| selectedAirport := VStr "LHR";
                 f_question := "How many flights from Germany?";
                 selectedDate := VNull |} "LHR"
              (Route.answered_response Samples.busy
                 (Samples.ask "LHR" "How many flights from Germany?")
                 Llm.default_analysis
                 (Samples.aggregated_at Samples.busy "LHR")
                 "Two flights carry data.")
              _ eq_refl eq_refl eq_refl eq_refl)
    as (Hs & _ & [[Hd _]|[Hd _]]).
  - discriminate Hd.
  - split; [exact Hs|exact Hd].
Defined.

(** X26: [topCountries] is the top ten by count: with the other groups,
    its entries make up the groups of [byCountry]; it has ten entries, or
    all of them when there are fewer; its counts never increase; and no
    group left out is larger than a listed one.  This holds in whatever
    order the groups are enumerated. *)
Theorem top_countries_are_the_largest :
  forall (byCountry : list (string * list value)),
  exists top rest,
    Route.topCountries byCountry = VArr (map Spec.country_entry top) /\
    Permutation byCountry (top ++ rest) /\
    List.length top = Nat.min 10 (List.length byCountry) /\
    StronglySorted Spec.no_smaller top /\
    (forall t r, In t top -> In r rest -> Spec.no_smaller t r).
Proof.
  intros l.
  exists (firstn 10 (Route.sort_by_count l)), (skipn 10 (Route.sort_by_count l)).
  split; [reflexivity|]. split.
  - rewrite firstn_skipn. apply ClientFacts.sort_by_count_perm.
  - split.
    + rewrite length_firstn.
      now rewrite <- (Permutation_length (ClientFacts.sort_by_count_perm l)).
    + apply ClientFacts.sorted_split. apply ClientFacts.sort_by_count_sorted.
Qed.


(** X27: sanitising never empties a question that passed the validation:
    the question word or question mark that [isValidQuestion] found
    survives [sanitizeQuestion], so the handler never receives an empty
    question (it may receive one shorter than five characters). *)
Theorem valid_question_survives_sanitising :
  forall (question : value),
    Llm.isValidQuestion question = true ->
    Llm.sanitizeQuestion question <> "".
Proof.
  intros [| | | |q| |]; simpl; try discriminate.
  destruct (String.eqb q ""); [discriminate|].
  destruct (String.length (Str.trim q) <? 5)%nat; [discriminate|].
  destruct (500 <? String.length (Str.trim q))%nat; [discriminate|].
  intros H.
  destruct (SurvivalFacts.asks_kept (Str.trim q) H) as (c & Hin & Hk & Hs).
  apply (SurvivalFacts.take_nonempty 499 _ c).
  apply SurvivalFacts.filter_keeps_in; [exact Hk|].
  apply SurvivalFacts.collapse_keeps; [exact Hs|exact Hin].
Qed.

Lemma valid_question_survives_sanitising_witness :
  Llm.isValidQuestion (VStr "@@@@?") = true /\
  Llm.sanitizeQuestion (VStr "@@@@?") = "?" /\
  Llm.sanitizeQuestion (VStr "@@@@?") <> "".
Proof.
  split; [reflexivity|]. split; [reflexivity|].
  apply (valid_question_survives_sanitising (VStr "@@@@?")). reflexivity.
Defined.


(** X28: the mode named by the LLM is not validated: when the parsed
    analysis, whose four logged fields can be printed, does not ask to
    skip and names a mode other than [arrivals], [departures] and [both],
    the classifier returns it as it is, the fetcher calls the schedule API
    for neither direction, and the endpoint answers 404
    [NO_FLIGHT_DATA]. *)
Theorem unvalidated_mode_answers_404 :
  forall (w : world) (JSON_parse : string -> option value)
         (analysisPrompt : string -> string -> string)
         (systemPrompt : string)
         (buildSupportUserPrompt :
            string -> processed -> string -> value -> value -> result string)
         (b : clean_body) (data analysis : value) (text : string),
    llm_post w (Llm.analysis_request analysisPrompt (c_question b)
                                     (c_airport b)) = Resolved data ->
    Llm.trimmed_content_of data = Ok (VStr text) ->
    JSON_parse (Llm.json_text text) = Some analysis ->
    nullish analysis = false ->
    Spec.loggable analysis = true ->
    Route.skips analysis = false ->
    Spec.unknown_mode (field analysis "mode") ->
    exists resp,
      run (Route.query w JSON_parse analysisPrompt systemPrompt
             buildSupportUserPrompt b)
      = (Ok resp,
         [CallClassifier (c_question b) (c_airport b);
          HttpLlm (Llm.analysis_request analysisPrompt (c_question b)
                                        (c_airport b));
          CallFetcher (c_airport b) (Route.dayParam_of b)
                      (field analysis "mode")]) /\
      status resp = 404%Z /\
      field (body resp) "code" = VStr "NO_FLIGHT_DATA".
Proof.
  intros w JP AP SP BP b data analysis text Hpost Htext Hparse Hnn Hlog
         Hskip Hmode.
  pose proof (LlmRunFacts.analyze_resolved w JP AP (c_question b) (c_airport b)
                data Hpost) as Hrun.
  rewrite Htext in Hrun. unfold Llm.parse_analysis in Hrun.
  rewrite Hparse, Hnn in Hrun.
  unfold template in Hrun. fold (Spec.loggable analysis) in Hrun.
  rewrite Hlog in Hrun.
  assert (Hrel : is_false (field analysis "relevant") = false).
  { unfold Route.skips in Hskip. apply orb_false_iff in Hskip. apply Hskip. }
  rewrite Hrel in Hrun.
  assert (Hp : printable (field analysis "mode") = true).
  { unfold Spec.loggable in Hlog. simpl in Hlog.
    apply andb_true_iff in Hlog. destruct Hlog as [_ Hlog].
    apply andb_true_iff in Hlog. apply Hlog. }
  destruct (ModeFacts.unknown_mode_at w (c_airport b) (Route.dayParam_of b)
              (field analysis "mode")
              [CallClassifier (c_question b) (c_airport b);
               HttpLlm (Llm.analysis_request AP (c_question b) (c_airport b))]
              Hmode Hp) as (raw & Hf & Hn).
  exists (Route.no_data_response b raw). split.
  - exact (RouteFacts.query_no_data w JP AP SP BP b analysis _ _ raw
             Hrun Hskip Hf Hn).
  - split; reflexivity.
Qed.

Lemma unvalidated_mode_answers_404_witness :
  exists resp tr,
    run (Route.query Samples.chatty Samples.says_arrival Samples.prompt
           "persona" Samples.data_prompt
           (Samples.ask "DXB" "How many flights from Germany?"))
    = (Ok resp, tr) /\
    status resp = 404%Z /\
    Forall (fun ev => ~ Spec.flight_call ev) tr.
Proof.
  destruct (unvalidated_mode_answers_404 Samples.chatty Samples.says_arrival
              Samples.prompt "persona" Samples.data_prompt
              (Samples.ask "DXB" "How many flights from Germany?")
              (Samples.reply "I would say departures.")
              Samples.misspelt_mode "I would say departures."
              eq_refl eq_refl eq_refl eq_refl eq_refl eq_refl)
    as (resp & Hrun & Hst & _).
  - repeat split; discriminate.
  - exists resp. eexists. split; [exact Hrun|]. split; [exact Hst|].
    repeat constructor; intros H; exact H.
Defined.
